(** * Lifeblood equipment check form: validation and persistence gateway

    A shallow embedding of [src/app.py] (the Streamlit page: validation of one
    submitted form, [insert_submission], [fetch_recent_submissions],
    [execute_sql], [bool_to_str]) together with the table declared in
    [src/setup_lifeblood_table.py].

    Conventions of the embedding.
    - A Python [str] is a [string]; its characters are the code points below
      256.  [isspace] is Python's [str.isspace] on that range.
    - A call that may raise returns an [outcome]: [Returned v] or [Raised msg].
    - The Databricks SDK client is a record of state-passing functions over a
      world [W]; the polling loop of [execute_sql] runs on fuel.
    - A SQL statement is kept as a value of type [Statement]; [statement_text]
      renders the text that the f-string of the source builds.  [Engine] is
      a store that works from that text.
    - Python [float] and the DOUBLE type of the warehouse are parameters of
      the development (Section variables). *)

From Stdlib Require Import String Ascii List ZArith Bool Arith Lia.
From Stdlib Require Import DecimalString Decimal DecimalPos DecimalZ DecimalNat.
From Stdlib Require Import Sorted Permutation.
Import ListNotations.
Local Open Scope string_scope.

(** ** Python strings *)

Module PyStr.

(** [str.isspace] for one character, code points below 256: TAB, LF, VT, FF,
    CR, the separators FS, GS, RS, US, SPACE, NEL and NBSP. *)
Definition isspace (c : ascii) : bool :=
  let n := nat_of_ascii c in
  ((9 <=? n)%nat && (n <=? 13)%nat) || ((28 <=? n)%nat && (n <=? 32)%nat)
  || (n =? 133)%nat || (n =? 160)%nat.

Fixpoint lstrip (s : string) : string :=
  match s with
  | EmptyString => EmptyString
  | String c r => if isspace c then lstrip r else s
  end.

Fixpoint rstrip (s : string) : string :=
  match s with
  | EmptyString => EmptyString
  | String c r =>
      match rstrip r with
      | EmptyString => if isspace c then EmptyString else String c EmptyString
      | r' => String c r'
      end
  end.

(** [s.strip()]: whitespace removed at both ends. *)
Definition strip (s : string) : string := rstrip (lstrip s).

(** Truth value of a string: empty is false. *)
Definition truthy (s : string) : bool :=
  match s with EmptyString => false | String _ _ => true end.

(** [o or d] for an optional string [o]. *)
Definition or_else (o : option string) (d : string) : string :=
  match o with
  | Some s => if truthy s then s else d
  | None => d
  end.

(** [str(n)] for an [int]. *)
Definition str_of_int (n : Z) : string := NilZero.string_of_int (Z.to_int n).

(** A string with nothing left after trimming. *)
Definition blank (s : string) : Prop := strip s = "".

(** A string made of whitespace only (the empty string included). *)
Fixpoint all_space (s : string) : bool :=
  match s with
  | EmptyString => true
  | String c r => isspace c && all_space r
  end.

Definition first_char (s : string) : option ascii :=
  match s with
  | EmptyString => None
  | String c _ => Some c
  end.

Fixpoint last_char (s : string) : option ascii :=
  match s with
  | EmptyString => None
  | String c EmptyString => Some c
  | String _ r => last_char r
  end.

(** No whitespace at either end. *)
Definition trimmed (s : string) : Prop :=
  (forall c, first_char s = Some c -> isspace c = false)
  /\ (forall c, last_char s = Some c -> isspace c = false).

End PyStr.

(** ** [datetime.date] *)

Module PyDate.

Local Open Scope Z_scope.

Record date := mkdate { year : Z; month : Z; day : Z }.

Definition is_leap (y : Z) : bool :=
  ((y mod 4 =? 0) && negb (y mod 100 =? 0)) || (y mod 400 =? 0).

Definition days_in_month (y m : Z) : Z :=
  match m with
  | 1 | 3 | 5 | 7 | 8 | 10 | 12 => 31
  | 4 | 6 | 9 | 11 => 30
  | 2 => if is_leap y then 29 else 28
  | _ => 0
  end.

(** The argument check of the [date] constructor: MINYEAR = 1,
    MAXYEAR = 9999. *)
Definition valid (d : date) : bool :=
  (1 <=? year d) && (year d <=? 9999)
  && (1 <=? month d) && (month d <=? 12)
  && (1 <=? day d) && (day d <=? days_in_month (year d) (month d)).

Definition code (c : ascii) : Z := Z.of_N (N_of_ascii c).

Definition digit_char (n : Z) : ascii := ascii_of_N (Z.to_N (48 + n)).

Definition digit_val (c : ascii) : option Z :=
  if (48 <=? code c) && (code c <=? 57) then Some (code c - 48) else None.

Definition pad2 (n : Z) : string :=
  String (digit_char (n / 10 mod 10)) (String (digit_char (n mod 10)) "").

Definition pad4 (n : Z) : string :=
  String (digit_char (n / 1000 mod 10))
    (String (digit_char (n / 100 mod 10)) (pad2 n)).

(** [d.isoformat()]: ["%04d-%02d-%02d"]. *)
Definition isoformat (d : date) : string :=
  (pad4 (year d) ++ "-" ++ pad2 (month d) ++ "-" ++ pad2 (day d))%string.

Definition num2 (a b : ascii) : option Z :=
  match digit_val a, digit_val b with
  | Some x, Some y => Some (10 * x + y)
  | _, _ => None
  end.

Definition num4 (a b c d : ascii) : option Z :=
  match num2 a b, num2 c d with
  | Some x, Some y => Some (100 * x + y)
  | _, _ => None
  end.

(** The reader of the extended form alone: ten characters, four digits, a
    dash, two digits, a dash, two digits, and the fields must form a date.
    It is what the store applies to the texts that [isoformat] prints (see
    [Sql.to_date]); [fromisoformat] below is the reader of the interpreter. *)
Definition from_dashed (s : string) : option date :=
  match s with
  | String y1 (String y2 (String y3 (String y4 (String s1
      (String m1 (String m2 (String s2 (String d1 (String d2
        EmptyString))))))))) =>
      if Ascii.eqb s1 "-" && Ascii.eqb s2 "-" then
        match num4 y1 y2 y3 y4, num2 m1 m2, num2 d1 d2 with
        | Some y, Some m, Some d =>
            let r := mkdate y m d in if valid r then Some r else None
        | _, _, _ => None
        end
      else None
  | _ => None
  end.

(** *** [date.fromisoformat], as CPython 3.11 and later implement it

    The C function takes the UTF-8 bytes of the text, admits the byte
    lengths 7, 8 and 10, and reads YYYY-MM-DD, YYYYMMDD, YYYY-Www,
    YYYYWww, YYYY-Www-D and YYYYWwwD.  It stops after the last field it
    needs: what follows within the admitted length is not looked at.
    The definitions follow [_datetimemodule.c] function by function. *)

(** The UTF-8 bytes of a text whose code points are below 256. *)
Fixpoint utf8 (s : string) : string :=
  match s with
  | EmptyString => EmptyString
  | String c r =>
      if code c <? 128 then String c (utf8 r)
      else String (ascii_of_N (Z.to_N (192 + code c / 64)))
             (String (ascii_of_N (Z.to_N (128 + code c mod 64))) (utf8 r))
  end.

(** [*p] for the pointer [dtstr + p]; the buffer ends with a NUL byte. *)
Definition byte_at (b : string) (p : nat) : ascii :=
  match String.get p b with
  | Some c => c
  | None => Ascii.zero
  end.

(** [parse_digits(ptr, &var, num_digits)]: [None] stands for the NULL
    result; otherwise the advanced pointer and the value. *)
Fixpoint parse_digits (b : string) (p : nat) (var : Z) (num_digits : nat)
  : option (nat * Z) :=
  match num_digits with
  | O => Some (p, var)
  | S k =>
      match digit_val (byte_at b p) with
      | None => None
      | Some tmp => parse_digits b (S p) (10 * var + tmp) k
      end
  end.

Definition days_before_year (y : Z) : Z :=
  let y := y - 1 in y * 365 + Z.quot y 4 - Z.quot y 100 + Z.quot y 400.

Definition days_before_month_table (m : Z) : Z :=
  match m with
  | 2 => 31 | 3 => 59 | 4 => 90 | 5 => 120 | 6 => 151 | 7 => 181
  | 8 => 212 | 9 => 243 | 10 => 273 | 11 => 304 | 12 => 334
  | _ => 0
  end.

Definition days_before_month (y m : Z) : Z :=
  days_before_month_table m + (if (2 <? m) && is_leap y then 1 else 0).

Definition ymd_to_ord (y m d : Z) : Z :=
  days_before_year y + days_before_month y m + d.

(** Monday is 0. *)
Definition weekday (y m d : Z) : Z := Z.rem (ymd_to_ord y m d + 6) 7.

Definition iso_week1_monday (y : Z) : Z :=
  let first_day := ymd_to_ord y 1 1 in
  let first_weekday := Z.rem (first_day + 6) 7 in
  let week1_monday := first_day - first_weekday in
  if 3 <? first_weekday then week1_monday + 7 else week1_monday.

Definition ord_to_ymd (ordinal : Z) : Z * Z * Z :=
  let ordinal := ordinal - 1 in
  let n400 := Z.quot ordinal 146097 in
  let n := Z.rem ordinal 146097 in
  let n100 := Z.quot n 36524 in
  let n := Z.rem n 36524 in
  let n4 := Z.quot n 1461 in
  let n := Z.rem n 1461 in
  let n1 := Z.quot n 365 in
  let n := Z.rem n 365 in
  let y := n400 * 400 + 1 + n100 * 100 + n4 * 4 + n1 in
  if (n1 =? 4) || (n100 =? 4) then (y - 1, 12, 31)
  else
    let leapyear := (n1 =? 3) && (negb (n4 =? 24) || (n100 =? 3)) in
    let m := Z.shiftr (n + 50) 5 in
    let preceding :=
      days_before_month_table m + (if (2 <? m) && leapyear then 1 else 0) in
    if n <? preceding then
      (y, m - 1, n - (preceding - days_in_month y (m - 1)) + 1)
    else (y, m, n - preceding + 1).

(** [iso_to_ymd]: a week 53 exists in the years that start on a Thursday
    and in the leap years that start on a Wednesday. *)
Definition iso_to_ymd (iso_year iso_week iso_day : Z) : option (Z * Z * Z) :=
  if (iso_year <? 1) || (9999 <? iso_year) then None
  else
    let out_of_range :=
      if (iso_week <=? 0) || (53 <=? iso_week) then
        if iso_week =? 53 then
          let first_weekday := weekday iso_year 1 1 in
          negb ((first_weekday =? 3)
                || ((first_weekday =? 2) && is_leap iso_year))
        else true
      else false in
    if out_of_range then None
    else if (iso_day <=? 0) || (8 <=? iso_day) then None
    else
      let day_1 := iso_week1_monday iso_year in
      let day_offset := (iso_week - 1) * 7 + iso_day - 1 in
      Some (ord_to_ymd (day_1 + day_offset)).

(** [parse_isoformat_date(dtstr, len, &year, &month, &day)]. *)
Definition parse_isoformat_date (b : string) (len : nat)
  : option (Z * Z * Z) :=
  match parse_digits b 0 0 4 with
  | None => None
  | Some (p, y) =>
      let uses_separator := Ascii.eqb (byte_at b p) "-" in
      let p := if uses_separator then S p else p in
      if Ascii.eqb (byte_at b p) "W" then
        match parse_digits b (S p) 0 2 with
        | None => None
        | Some (p, iso_week) =>
            if (p <? len)%nat then
              if uses_separator && negb (Ascii.eqb (byte_at b p) "-")
              then None
              else
                let p := if uses_separator then S p else p in
                match parse_digits b p 0 1 with
                | None => None
                | Some (_, iso_day) => iso_to_ymd y iso_week iso_day
                end
            else iso_to_ymd y iso_week 1
        end
      else
        match parse_digits b p 0 2 with
        | None => None
        | Some (p, m) =>
            if uses_separator && negb (Ascii.eqb (byte_at b p) "-")
            then None
            else
              let p := if uses_separator then S p else p in
              match parse_digits b p 0 2 with
              | None => None
              | Some (_, d) => Some (y, m, d)
              end
        end
  end.

Definition admitted_length (len : nat) : bool :=
  Nat.eqb len 7 || Nat.eqb len 8 || Nat.eqb len 10.

(** [date.fromisoformat(s)]; [None] stands for ValueError, which the C
    function raises for a length it does not admit, for a text it cannot
    read, and when the constructor refuses the fields. *)
Definition fromisoformat (s : string) : option date :=
  let b := utf8 s in
  let len := String.length b in
  if admitted_length len then
    match parse_isoformat_date b len with
    | Some (y, m, d) =>
        let r := mkdate y m d in if valid r then Some r else None
    | None => None
    end
  else None.

(** A text of the form YYYY-MM-DD that names a calendar date. *)
Definition iso_date_text (s : string) : Prop :=
  exists d, valid d = true /\ s = isoformat d.

End PyDate.

(** ** Floating point numbers

    Python's [float(s)] and [str(x)], and the warehouse's conversion of a
    text to DOUBLE, are taken as an interface: the development does not fix
    the binary representation of a double.  [float_of_str] returns [None]
    where [float] raises ValueError; [try_cast_double] returns [None] where
    TRY_CAST yields NULL. *)

Class Doubles := {
  float : Type;
  float_of_str : string -> option float;
  str_of_float : float -> string;
  try_cast_double : string -> option float
}.

(** A small instance used to run the definitions on examples: the readings
    are the natural numbers written in decimal. *)
Module DecimalReadings.

Definition parse (s : string) : option nat :=
  option_map Nat.of_uint (NilZero.uint_of_string s).

Definition print (n : nat) : string := NilZero.string_of_uint (Nat.to_uint n).

Definition doubles : Doubles :=
  {| float := nat;
     float_of_str := parse;
     str_of_float := print;
     try_cast_double := parse |}.

End DecimalReadings.

(** ** SQL statements

    The two statements of the page.  [statement_text] is the text that the
    f-strings of [fetch_recent_submissions] and [insert_submission] build;
    only the three configured names and, for the query, [limit] are
    interpolated. *)

Record Config := {
  CATALOG_NAME : string;
  SCHEMA_NAME : string;
  TABLE_NAME : string;
  WAREHOUSE_ID : string
}.

Definition table_path (cfg : Config) : string :=
  CATALOG_NAME cfg ++ "." ++ SCHEMA_NAME cfg ++ "." ++ TABLE_NAME cfg.

Definition recent_query_text (cfg : Config) (limit : Z) : string :=
  "
        SELECT
            inspection_date,
            facility_name,
            machine_type,
            machine_id,
            power_status,
            follow_up_required,
            submitted_at,
            user_email
        FROM " ++ table_path cfg ++ "
        ORDER BY submitted_at DESC
        LIMIT " ++ PyStr.str_of_int limit ++ "
    ".

Definition insert_statement_text (cfg : Config) : string :=
  "
        INSERT INTO " ++ table_path cfg ++ " (
            inspection_date,
            facility_name,
            nurse_name,
            machine_type,
            machine_id,
            room_location,
            power_status,
            alarms_functional,
            calibration_due_date,
            calibration_confirmed,
            temperature_celsius,
            pressure_kpa,
            cleaning_status,
            issues_noted,
            follow_up_required,
            follow_up_actions,
            user_email,
            submitted_at
        ) VALUES (
            to_date(:inspection_date),
            :facility_name,
            :nurse_name,
            :machine_type,
            :machine_id,
            :room_location,
            :power_status,
            CASE WHEN lower(:alarms_functional) = 'true' THEN TRUE ELSE FALSE END,
            CASE WHEN :calibration_due_date = '' THEN NULL ELSE to_date(:calibration_due_date) END,
            CASE WHEN lower(:calibration_confirmed) = 'true' THEN TRUE ELSE FALSE END,
            TRY_CAST(NULLIF(:temperature_celsius, '') AS DOUBLE),
            TRY_CAST(NULLIF(:pressure_kpa, '') AS DOUBLE),
            :cleaning_status,
            :issues_noted,
            CASE WHEN lower(:follow_up_required) = 'true' THEN TRUE ELSE FALSE END,
            :follow_up_actions,
            :user_email,
            current_timestamp()
        )
    ".

Inductive Statement :=
| RecentQuery (cfg : Config) (limit : Z)
| InsertChecks (cfg : Config).

Definition statement_text (s : Statement) : string :=
  match s with
  | RecentQuery cfg limit => recent_query_text cfg limit
  | InsertChecks cfg => insert_statement_text cfg
  end.

(** ** The statement execution API of the SDK *)

Inductive outcome (A : Type) :=
| Returned (a : A)
| Raised (msg : string).
Arguments Returned {A} a.
Arguments Raised {A} msg.

Inductive StatementState :=
| PENDING | RUNNING | SUCCEEDED | FAILED | CANCELED | CLOSED.

Record ServiceError := { message : option string }.

Record StatementStatus := {
  state : option StatementState;
  error : option ServiceError
}.

Record ColumnInfo := { name : option string }.

Record ResultSchema := { columns : option (list ColumnInfo) }.

Record ResultManifest := { schema : option ResultSchema }.

(** A cell of a result is a text or null. *)
Definition cell := option string.

Record ResultData := { data_array : option (list (list cell)) }.

Record StatementResponse := {
  statement_id : string;
  status : option StatementStatus;
  manifest : option ResultManifest;
  result : option ResultData
}.

Record StatementParameterListItem := {
  param_name : string;
  param_value : string
}.

Record ExecuteRequest := {
  rq_statement : Statement;
  rq_warehouse_id : string;
  rq_catalog : string;
  rq_schema : string;
  rq_parameters : list StatementParameterListItem;
  rq_wait_timeout : string
}.

(** [WORKSPACE_CLIENT.statement_execution]: every call may raise and may
    change the world [W] it talks to. *)
Record WorkspaceClient (W : Type) := {
  execute_statement : ExecuteRequest -> W -> outcome StatementResponse * W;
  get_statement : string -> W -> outcome StatementResponse * W;
  get_statement_result_chunk_n :
    string -> nat -> W -> outcome ResultData * W
}.
Arguments execute_statement {W} _ _ _.
Arguments get_statement {W} _ _ _.
Arguments get_statement_result_chunk_n {W} _ _ _ _.

(** [pd.DataFrame(data, columns=columns)], as a holder of the rows and the
    column names; the check of the constructor that the rows fit the columns
    is not modelled. *)
Record DataFrame := {
  df_columns : list string;
  df_data : list (list cell)
}.

(** [df.empty]: no row or no column. *)
Definition df_empty (df : DataFrame) : bool :=
  match df_data df, df_columns df with
  | [], _ | _, [] => true
  | _, _ => false
  end.

Definition bool_to_str (value : bool) : string :=
  if value then "true" else "false".

(** ** The persistence gateway *)

Section Gateway.

Context {W : Type}.
Variable client : WorkspaceClient W.
Variable cfg : Config.

(** [status and status.state in (PENDING, RUNNING)] *)
Definition in_progress (st : option StatementStatus) : bool :=
  match st with
  | Some s =>
      match state s with
      | Some PENDING | Some RUNNING => true
      | _ => false
      end
  | None => false
  end.

(** [not status or status.state != SUCCEEDED] *)
Definition not_succeeded (st : option StatementStatus) : bool :=
  match st with
  | Some s =>
      match state s with
      | Some SUCCEEDED => false
      | _ => true
      end
  | None => true
  end.

(** The message of the RuntimeError that [execute_sql] raises. *)
Definition failure_message (st : option StatementStatus) : string :=
  let message_ :=
    match st with
    | Some s =>
        match error s with
        | Some e => message e
        | None => None
        end
    | None => None
    end in
  PyStr.or_else message_ "SQL execution failed".

(** The polling loop of [execute_sql].  [fuel] bounds the number of calls of
    [get_statement]; [None] means that the bound was reached while the
    statement was still pending or running. *)
Fixpoint poll (fuel : nat) (current : StatementResponse) (w : W)
  : option (outcome StatementResponse * W) :=
  if in_progress (status current) then
    match fuel with
    | O => None
    | S fuel' =>
        match get_statement client (statement_id current) w with
        | (Raised msg, w') => Some (Raised msg, w')
        | (Returned next, w') => poll fuel' next w'
        end
    end
  else Some (Returned current, w).

Definition execute_sql (fuel : nat) (statement : Statement)
    (parameters : list StatementParameterListItem) (w : W)
  : option (outcome (string * StatementResponse) * W) :=
  let request :=
    {| rq_statement := statement;
       rq_warehouse_id := WAREHOUSE_ID cfg;
       rq_catalog := CATALOG_NAME cfg;
       rq_schema := SCHEMA_NAME cfg;
       rq_parameters := parameters;
       rq_wait_timeout := "5s" |} in
  match execute_statement client request w with
  | (Raised msg, w1) => Some (Raised msg, w1)
  | (Returned response, w1) =>
      match poll fuel response w1 with
      | None => None
      | Some (Raised msg, w2) => Some (Raised msg, w2)
      | Some (Returned current, w2) =>
          if not_succeeded (status current)
          then Some (Raised (failure_message (status current)), w2)
          else Some (Returned (statement_id current, current), w2)
      end
  end.

(** [columns] of [fetch_recent_submissions]. *)
Definition column_names (response : StatementResponse) : list string :=
  match manifest response with
  | Some m =>
      match schema m with
      | Some sc =>
          match columns sc with
          | Some (c :: cs) =>
              map (fun col => PyStr.or_else (name col) "") (c :: cs)
          | _ => []
          end
      | None => []
      end
  | None => []
  end.

(** [response.result and response.result.data_array]: the rows delivered
    with the response, when there is at least one. *)
Definition inline_rows (response : StatementResponse)
  : option (list (list cell)) :=
  match result response with
  | Some r =>
      match data_array r with
      | Some (row :: rows) => Some (row :: rows)
      | _ => None
      end
  | None => None
  end.

Definition default_limit : Z := 20.

(** [fetch_recent_submissions(limit)].  [Returned None] is the value [None]
    of the source; [Raised] is an exception leaving the function. *)
Definition fetch_recent_submissions (fuel : nat) (limit : Z) (w : W)
  : option (outcome (option DataFrame) * W) :=
  let query := RecentQuery cfg limit in
  match execute_sql fuel query [] w with
  | None => None
  | Some (Raised _, w1) => Some (Returned None, w1)
  | Some (Returned (statement_id, response), w1) =>
      let columns := column_names response in
      match inline_rows response with
      | Some data =>
          Some (Returned (Some {| df_columns := columns; df_data := data |}),
                w1)
      | None =>
          match get_statement_result_chunk_n client statement_id 0 w1 with
          | (Raised msg, w2) => Some (Raised msg, w2)
          | (Returned chunk, w2) =>
              let data :=
                match data_array chunk with
                | Some rows => rows
                | None => []
                end in
              Some (Returned
                      (Some {| df_columns := columns; df_data := data |}),
                    w2)
          end
      end
  end.

(** The arguments that [insert_submission] hands to [execute_sql]: the
    statement, and one bound parameter per item of the payload. *)
Definition insert_params (payload : list (string * string))
  : list StatementParameterListItem :=
  map (fun item => {| param_name := fst item; param_value := snd item |})
      payload.

Definition insert_statement (payload : list (string * string)) : Statement :=
  InsertChecks cfg.

(** [insert_submission(payload)]: the result of [execute_sql] is dropped. *)
Definition insert_submission (fuel : nat) (payload : list (string * string))
    (w : W) : option (outcome unit * W) :=
  let statement := insert_statement payload in
  let params := insert_params payload in
  match execute_sql fuel statement params w with
  | None => None
  | Some (Raised msg, w1) => Some (Raised msg, w1)
  | Some (Returned _, w1) => Some (Returned tt, w1)
  end.

End Gateway.

(** ** The form and its validation *)

(** The values that the widgets of the form hand to the script. *)
Record Form := {
  inspection_date : PyDate.date;
  facility_name : string;
  nurse_name : string;
  machine_type : string;
  machine_id : string;
  room_location : string;
  power_status : string;
  alarms_functional : bool;
  calibration_confirmed : bool;
  calibration_due_raw : string;
  temperature_raw : string;
  pressure_raw : string;
  cleaning_status : string;
  issues_noted : string;
  follow_up_required : bool;
  follow_up_actions : string
}.

(** What the script puts on the page. *)
Inductive Ui :=
| st_error (msg : string)
| st_success (msg : string)
| st_info (msg : string)
| st_toast (msg : string)
| st_subheader (msg : string)
| st_dataframe (df : DataFrame).

Definition required_fields (f : Form) : list (string * string) :=
  [ ("Facility name", facility_name f);
    ("Inspector name", nurse_name f);
    ("Equipment ID", machine_id f);
    ("Location", room_location f) ].

Definition required_message (label : string) : string :=
  label ++ " is required.".

Definition calibration_message : string :=
  "Calibration due date must follow YYYY-MM-DD format.".

Definition temperature_message : string :=
  "Temperature must be recorded as a number (e.g. 4.5).".

Definition pressure_message : string :=
  "Pressure must be recorded as a number (e.g. 101.3).".

Definition follow_up_message : string :=
  "Provide follow-up actions when follow-up is marked as required.".

(** The values that the validation block leaves behind. *)
Record Validation := {
  errors : list string;
  calibration_due_value : option string;
  temperature_value : string;
  pressure_value : string
}.

Section Validator.

Context {D : Doubles}.

(** The loop over [required_fields.items()]. *)
Definition check_required (errors : list string) (f : Form) : list string :=
  fold_left
    (fun errors item =>
       if PyStr.truthy (PyStr.strip (snd item)) then errors
       else (errors ++ [required_message (fst item)])%list)
    (required_fields f) errors.

Definition check_calibration (errors : list string) (f : Form)
  : list string * option string :=
  if PyStr.truthy (PyStr.strip (calibration_due_raw f)) then
    match PyDate.fromisoformat (PyStr.strip (calibration_due_raw f)) with
    | Some d => (errors, Some (PyDate.isoformat d))
    | None => ((errors ++ [calibration_message])%list, None)
    end
  else (errors, None).

(** The block shared, up to the message, by the temperature and the
    pressure: [str(float(raw.strip()))], or the message on ValueError. *)
Definition check_reading (msg raw : string) (errors : list string)
  : list string * string :=
  if PyStr.truthy (PyStr.strip raw) then
    match float_of_str (PyStr.strip raw) with
    | Some x => (errors, str_of_float x)
    | None => ((errors ++ [msg])%list, "")
    end
  else (errors, "").

Definition check_follow_up (errors : list string) (f : Form) : list string :=
  if follow_up_required f
     && negb (PyStr.truthy (PyStr.strip (follow_up_actions f)))
  then (errors ++ [follow_up_message])%list
  else errors.

Definition validate (f : Form) : Validation :=
  let errors := [] in
  let errors := check_required errors f in
  let '(errors, calibration_due_value) := check_calibration errors f in
  let '(errors, temperature_value) :=
    check_reading temperature_message (temperature_raw f) errors in
  let '(errors, pressure_value) :=
    check_reading pressure_message (pressure_raw f) errors in
  let errors := check_follow_up errors f in
  {| errors := errors;
     calibration_due_value := calibration_due_value;
     temperature_value := temperature_value;
     pressure_value := pressure_value |}.

(** The dictionary [payload], in insertion order. *)
Definition payload (f : Form) (v : Validation) (user_email : option string)
  : list (string * string) :=
  [ ("inspection_date", PyDate.isoformat (inspection_date f));
    ("facility_name", PyStr.strip (facility_name f));
    ("nurse_name", PyStr.strip (nurse_name f));
    ("machine_type", machine_type f);
    ("machine_id", PyStr.strip (machine_id f));
    ("room_location", PyStr.strip (room_location f));
    ("power_status", power_status f);
    ("alarms_functional", bool_to_str (alarms_functional f));
    ("calibration_due_date", PyStr.or_else (calibration_due_value v) "");
    ("calibration_confirmed", bool_to_str (calibration_confirmed f));
    ("temperature_celsius", temperature_value v);
    ("pressure_kpa", pressure_value v);
    ("cleaning_status", cleaning_status f);
    ("issues_noted", PyStr.strip (issues_noted f));
    ("follow_up_required", bool_to_str (follow_up_required f));
    ("follow_up_actions", PyStr.strip (follow_up_actions f));
    ("user_email", PyStr.or_else user_email "") ].

(** What the rule promises for one reading: [raw] is the text of the field,
    [msg] its message, [stored] the value of its column in the row that the
    payload writes. *)
Definition reading_rule (raw msg : string) (errs : list string)
    (stored : option float) : Prop :=
  (PyStr.blank raw -> ~ In msg errs /\ stored = None)
  /\ (forall x, ~ PyStr.blank raw ->
        float_of_str (PyStr.strip raw) = Some x ->
        ~ In msg errs /\ stored = Some x)
  /\ (~ PyStr.blank raw -> float_of_str (PyStr.strip raw) = None ->
        In msg errs).

End Validator.

(** ** The page: one submission, then the recent submissions *)

Section Page.

Context {D : Doubles} {W : Type}.
Variable client : WorkspaceClient W.
Variable cfg : Config.
Variable user_email : option string.

(** The block under [if submitted:].  The result is what was shown, whether
    [st.session_state["submitted_at"]] was set, and the world afterwards. *)
Definition on_submit (fuel : nat) (f : Form) (w : W)
  : option (list Ui * bool * W) :=
  let v := validate f in
  match errors v with
  | _ :: _ => Some (map st_error (errors v), false, w)
  | [] =>
      match insert_submission client cfg fuel (payload f v user_email) w with
      | None => None
      | Some (Raised exc, w1) =>
          Some ([st_error ("Unable to save inspection: " ++ exc)], false, w1)
      | Some (Returned _, w1) =>
          Some ([st_success "Inspection submitted successfully."], true, w1)
      end
  end.

(** The end of the script: the toast, then [fetch_recent_submissions()] with
    its default limit.  An exception of the call ends the script. *)
Definition show_recent (fuel : nat) (submitted_at : bool) (w : W)
  : option (outcome (list Ui) * W) :=
  let toast :=
    if submitted_at
    then [st_toast "Latest inspection saved to the warehouse."] else [] in
  match fetch_recent_submissions client cfg fuel default_limit w with
  | None => None
  | Some (Raised msg, w1) => Some (Raised msg, w1)
  | Some (Returned recent, w1) =>
      let nothing :=
        match recent with
        | None => true
        | Some df => df_empty df
        end in
      let shown :=
        match recent with
        | Some df =>
            if nothing
            then [st_info "No equipment inspections have been recorded yet."]
            else [st_subheader "Recent submissions"; st_dataframe df]
        | None => [st_info "No equipment inspections have been recorded yet."]
        end in
      Some (Returned (toast ++ shown)%list, w1)
  end.

End Page.

(** ** A client that keeps a journal of the calls it receives *)

Inductive Call :=
| CallExecute (request : ExecuteRequest)
| CallGetStatement (statement_id : string)
| CallGetChunk (statement_id : string) (chunk_index : nat).

Definition spy {W : Type} (client : WorkspaceClient W)
  : WorkspaceClient (list Call * W) :=
  {| execute_statement := fun request jw =>
       let '(r, w') := execute_statement client request (snd jw) in
       (r, ((fst jw ++ [CallExecute request])%list, w'));
     get_statement := fun id jw =>
       let '(r, w') := get_statement client id (snd jw) in
       (r, ((fst jw ++ [CallGetStatement id])%list, w'));
     get_statement_result_chunk_n := fun id n jw =>
       let '(r, w') := get_statement_result_chunk_n client id n (snd jw) in
       (r, ((fst jw ++ [CallGetChunk id n])%list, w')) |}.

(** A call of [get_statement]. *)
Definition is_poll (c : Call) : Prop :=
  match c with
  | CallGetStatement _ => True
  | _ => False
  end.

(** The request that [execute_sql] sends for a statement and its
    parameters. *)
Definition request_of (cfg : Config) (statement : Statement)
    (parameters : list StatementParameterListItem) : ExecuteRequest :=
  {| rq_statement := statement;
     rq_warehouse_id := WAREHOUSE_ID cfg;
     rq_catalog := CATALOG_NAME cfg;
     rq_schema := SCHEMA_NAME cfg;
     rq_parameters := parameters;
     rq_wait_timeout := "5s" |}.

(** ** The table and the warehouse

    The table is the one that [setup_lifeblood_table.py] creates.  The
    warehouse is a model of the store behind the client: it evaluates the two
    statements of the page on the table, answers within the wait timeout,
    and can be out of reach. *)

Module Table.

Section Rows.

Context {D : Doubles}.

Record row := {
  inspection_date : option PyDate.date;
  facility_name : option string;
  nurse_name : option string;
  machine_type : option string;
  machine_id : option string;
  room_location : option string;
  power_status : option string;
  alarms_functional : option bool;
  calibration_due_date : option PyDate.date;
  calibration_confirmed : option bool;
  temperature_celsius : option float;
  pressure_kpa : option float;
  cleaning_status : option string;
  issues_noted : option string;
  follow_up_required : option bool;
  follow_up_actions : option string;
  user_email : option string;
  submitted_at : Z
}.

End Rows.

End Table.

Module Sql.

Definition lower_char (c : ascii) : ascii :=
  let n := nat_of_ascii c in
  if (65 <=? n)%nat && (n <=? 90)%nat then ascii_of_nat (n + 32) else c.

(** [lower(x)] *)
Fixpoint lower (s : string) : string :=
  match s with
  | EmptyString => EmptyString
  | String c r => String (lower_char c) (lower r)
  end.

(** [CASE WHEN lower(x) = 'true' THEN TRUE ELSE FALSE END] *)
Definition case_true (x : string) : bool :=
  if String.eqb (lower x) "true" then true else false.

(** [NULLIF(x, y)] *)
Definition nullif (x y : string) : option string :=
  if String.eqb x y then None else Some x.

(** [to_date(x)] on a text in the form YYYY-MM-DD, the only form that
    reaches it: both date parameters are bound to a text that [isoformat]
    printed.  NULL when the text is not such a date. *)
Definition to_date (x : string) : option PyDate.date := PyDate.from_dashed x.

(** [CASE WHEN x = '' THEN NULL ELSE to_date(x) END] *)
Definition date_or_null (x : string) : option PyDate.date :=
  if String.eqb x "" then None else to_date x.

(** [TRY_CAST(x AS DOUBLE)], NULL on NULL. *)
Definition try_cast `{Doubles} (x : option string) : option float :=
  match x with
  | Some s => try_cast_double s
  | None => None
  end.

(** The value bound to the named parameter [:name]. *)
Definition bound (parameters : list StatementParameterListItem)
    (name : string) : option string :=
  option_map param_value
    (find (fun p => String.eqb (param_name p) name) parameters).

End Sql.

Module Warehouse.

Section Store.

Context {D : Doubles}.

(** The store: the rows of the table, the clock of [current_timestamp()],
    the conditions under which calls fail, whether rows travel with the
    response or as chunk 0, and the rows of the last query. *)
Record store := {
  rows : list Table.row;
  now : Z;
  outage : option string;
  chunk_outage : option string;
  inline : bool;
  served : list (list cell)
}.

Notation "x <- e ;; k" :=
  (match e with Some x => k | None => None end)
  (at level 61, e at next level, right associativity).

(** The row that the VALUES clause of the insert statement describes, for
    the bound parameters and the time of the store; [None] when a parameter
    of the statement is not bound. *)
Definition inserted_row (parameters : list StatementParameterListItem)
    (time : Z) : option Table.row :=
  inspection_date <- Sql.bound parameters "inspection_date" ;;
  facility_name <- Sql.bound parameters "facility_name" ;;
  nurse_name <- Sql.bound parameters "nurse_name" ;;
  machine_type <- Sql.bound parameters "machine_type" ;;
  machine_id <- Sql.bound parameters "machine_id" ;;
  room_location <- Sql.bound parameters "room_location" ;;
  power_status <- Sql.bound parameters "power_status" ;;
  alarms_functional <- Sql.bound parameters "alarms_functional" ;;
  calibration_due_date <- Sql.bound parameters "calibration_due_date" ;;
  calibration_confirmed <- Sql.bound parameters "calibration_confirmed" ;;
  temperature_celsius <- Sql.bound parameters "temperature_celsius" ;;
  pressure_kpa <- Sql.bound parameters "pressure_kpa" ;;
  cleaning_status <- Sql.bound parameters "cleaning_status" ;;
  issues_noted <- Sql.bound parameters "issues_noted" ;;
  follow_up_required <- Sql.bound parameters "follow_up_required" ;;
  follow_up_actions <- Sql.bound parameters "follow_up_actions" ;;
  user_email <- Sql.bound parameters "user_email" ;;
  Some
    {| Table.inspection_date := Sql.to_date inspection_date;
       Table.facility_name := Some facility_name;
       Table.nurse_name := Some nurse_name;
       Table.machine_type := Some machine_type;
       Table.machine_id := Some machine_id;
       Table.room_location := Some room_location;
       Table.power_status := Some power_status;
       Table.alarms_functional := Some (Sql.case_true alarms_functional);
       Table.calibration_due_date := Sql.date_or_null calibration_due_date;
       Table.calibration_confirmed :=
         Some (Sql.case_true calibration_confirmed);
       Table.temperature_celsius :=
         Sql.try_cast (Sql.nullif temperature_celsius "");
       Table.pressure_kpa := Sql.try_cast (Sql.nullif pressure_kpa "");
       Table.cleaning_status := Some cleaning_status;
       Table.issues_noted := Some issues_noted;
       Table.follow_up_required := Some (Sql.case_true follow_up_required);
       Table.follow_up_actions := Some follow_up_actions;
       Table.user_email := Some user_email;
       Table.submitted_at := time |}.

(** ORDER BY submitted_at DESC, by insertion. *)
Fixpoint place (r : Table.row) (sorted : list Table.row) : list Table.row :=
  match sorted with
  | [] => [r]
  | x :: rest =>
      if (Table.submitted_at x <? Table.submitted_at r)%Z
      then r :: sorted
      else x :: place r rest
  end.

Definition order_by_submitted_at_desc (l : list Table.row)
  : list Table.row :=
  fold_right place [] l.

(** The rows that the query selects: ordered, then LIMIT. *)
Definition selected (limit : Z) (l : list Table.row) : list Table.row :=
  firstn (Z.to_nat limit) (order_by_submitted_at_desc l).

(** Newest first: no row is followed by a row submitted later. *)
Definition newest_first (l : list Table.row) : Prop :=
  StronglySorted
    (fun a b => (Table.submitted_at b <= Table.submitted_at a)%Z) l.

Definition projection : list string :=
  [ "inspection_date"; "facility_name"; "machine_type"; "machine_id";
    "power_status"; "follow_up_required"; "submitted_at"; "user_email" ].

(** One row of the result, in the order of the SELECT list. *)
Definition project (r : Table.row) : list cell :=
  [ option_map PyDate.isoformat (Table.inspection_date r);
    Table.facility_name r;
    Table.machine_type r;
    Table.machine_id r;
    Table.power_status r;
    option_map bool_to_str (Table.follow_up_required r);
    Some (PyStr.str_of_int (Table.submitted_at r));
    Table.user_email r ].

Definition succeeded (id : string) (m : option ResultManifest)
    (r : option ResultData) : StatementResponse :=
  {| statement_id := id;
     status := Some {| state := Some SUCCEEDED; error := None |};
     manifest := m;
     result := r |}.

Definition failed (id msg : string) : StatementResponse :=
  {| statement_id := id;
     status := Some {| state := Some FAILED;
                       error := Some {| message := Some msg |} |};
     manifest := None;
     result := None |}.

Definition tick (s : store) : store :=
  {| rows := rows s; now := (now s + 1)%Z; outage := outage s;
     chunk_outage := chunk_outage s; inline := inline s;
     served := served s |}.

Definition with_rows (s : store) (l : list Table.row) : store :=
  {| rows := l; now := now s; outage := outage s;
     chunk_outage := chunk_outage s; inline := inline s;
     served := served s |}.

Definition with_served (s : store) (data : list (list cell)) : store :=
  {| rows := rows s; now := now s; outage := outage s;
     chunk_outage := chunk_outage s; inline := inline s;
     served := data |}.

(** [execute_statement] on the warehouse: what each of the two statements
    of the page does to the table.  [Engine.run], further down, works from
    the text of the statement instead, and on these two statements it does
    the same ([EngineFacts.run_recent_query],
    [EngineFacts.run_insert_statement]). *)
Definition run (request : ExecuteRequest) (s : store)
  : outcome StatementResponse * store :=
  match outage s with
  | Some msg => (Raised msg, s)
  | None =>
      let id := PyStr.str_of_int (now s) in
      match rq_statement request with
      | InsertChecks _ =>
          match inserted_row (rq_parameters request) (now s) with
          | Some r =>
              (Returned (succeeded id None None),
               tick (with_rows s (rows s ++ [r])%list))
          | None => (Returned (failed id "unbound parameter"), tick s)
          end
      | RecentQuery _ limit =>
          if (limit <? 0)%Z then
            (Returned (failed id "the limit must not be negative"), tick s)
          else
            let data := map project (selected limit (rows s)) in
            let m :=
              {| schema :=
                   Some {| columns :=
                     Some (map (fun n => {| name := Some n |})
                               projection) |} |} in
            (Returned
               (succeeded id (Some m)
                  (Some {| data_array :=
                             if inline s then Some data else None |})),
             tick (with_served s data))
      end
  end.

Definition chunk (id : string) (index : nat) (s : store)
  : outcome ResultData * store :=
  match chunk_outage s with
  | Some msg => (Raised msg, s)
  | None =>
      match index with
      | O => (Returned {| data_array := Some (served s) |}, s)
      | S _ => (Raised "chunk index out of range", s)
      end
  end.

(** The warehouse never leaves a statement pending, so [get_statement] has
    nothing to report. *)
Definition client : WorkspaceClient store :=
  {| execute_statement := run;
     get_statement := fun id s => (Raised "unknown statement", s);
     get_statement_result_chunk_n := chunk |}.

End Store.

End Warehouse.

(** The frame that the query of the page yields on a store, and the store
    after the query. *)
Section RecentFrame.

Context {D : Doubles}.

Definition recent_frame (limit : Z) (s : Warehouse.store) : DataFrame :=
  {| df_columns := Warehouse.projection;
     df_data := map Warehouse.project
                    (Warehouse.selected limit (Warehouse.rows s)) |}.

Definition after_query (limit : Z) (s : Warehouse.store) : Warehouse.store :=
  Warehouse.tick
    (Warehouse.with_served s
       (map Warehouse.project (Warehouse.selected limit (Warehouse.rows s)))).

End RecentFrame.

(** ** Sample inputs

    A configuration with the default names of the source, a form that
    passes validation, a form that breaks every rule, a form whose
    calibration date is a single space, and two stores. *)
Module Samples.

#[local] Existing Instance DecimalReadings.doubles.

Definition cfg : Config :=
  {| CATALOG_NAME := "alex_feng";
     SCHEMA_NAME := "lifeblood_checks";
     TABLE_NAME := "lifeblood_equipment_checks";
     WAREHOUSE_ID := "0123456789abcdef" |}.

Definition email : option string := Some "alex.smith@example.org".

Definition good_form : Form :=
  {| inspection_date := PyDate.mkdate 2024 5 17;
     facility_name := "  Sydney Processing Centre ";
     nurse_name := "Alex Smith";
     machine_type := "Centrifuge";
     machine_id := "FX-2041";
     room_location := "Donor Room 3";
     power_status := "OK";
     alarms_functional := true;
     calibration_confirmed := true;
     calibration_due_raw := " 2025-02-28 ";
     temperature_raw := " 37 ";
     pressure_raw := "";
     cleaning_status := "Sanitized";
     issues_noted := " none ";
     follow_up_required := false;
     follow_up_actions := "" |}.

Definition bad_form : Form :=
  {| inspection_date := PyDate.mkdate 2024 5 17;
     facility_name := "   ";
     nurse_name := "";
     machine_type := "Centrifuge";
     machine_id := " ";
     room_location := "";
     power_status := "OK";
     alarms_functional := true;
     calibration_confirmed := true;
     calibration_due_raw := "17/05/2024";
     temperature_raw := "warm";
     pressure_raw := "high";
     cleaning_status := "Sanitized";
     issues_noted := "";
     follow_up_required := true;
     follow_up_actions := "  " |}.

Definition space_date_form : Form :=
  {| inspection_date := PyDate.mkdate 2024 5 17;
     facility_name := "Sydney Processing Centre";
     nurse_name := "Alex Smith";
     machine_type := "Centrifuge";
     machine_id := "FX-2041";
     room_location := "Donor Room 3";
     power_status := "OK";
     alarms_functional := true;
     calibration_confirmed := true;
     calibration_due_raw := " ";
     temperature_raw := "";
     pressure_raw := "";
     cleaning_status := "Sanitized";
     issues_noted := "";
     follow_up_required := false;
     follow_up_actions := "" |}.

(** [space_date_form] with another text in the calibration field. *)
Definition with_calibration_due (raw : string) : Form :=
  {| inspection_date := inspection_date space_date_form;
     facility_name := facility_name space_date_form;
     nurse_name := nurse_name space_date_form;
     machine_type := machine_type space_date_form;
     machine_id := machine_id space_date_form;
     room_location := room_location space_date_form;
     power_status := power_status space_date_form;
     alarms_functional := alarms_functional space_date_form;
     calibration_confirmed := calibration_confirmed space_date_form;
     calibration_due_raw := raw;
     temperature_raw := temperature_raw space_date_form;
     pressure_raw := pressure_raw space_date_form;
     cleaning_status := cleaning_status space_date_form;
     issues_noted := issues_noted space_date_form;
     follow_up_required := follow_up_required space_date_form;
     follow_up_actions := follow_up_actions space_date_form |}.

(** The same day written without dashes, as a week date, and with a
    one-digit month. *)
Definition basic_date_form : Form := with_calibration_due "20250228".
Definition week_date_form : Form := with_calibration_due " 2025-W09-5".
Definition short_date_form : Form := with_calibration_due "2025-2-28".

(** An empty table on a store within reach. *)
Definition empty_store : Warehouse.store :=
  {| Warehouse.rows := [];
     Warehouse.now := 1000;
     Warehouse.outage := None;
     Warehouse.chunk_outage := None;
     Warehouse.inline := true;
     Warehouse.served := [] |}.

(** An empty table on a store that answers statements but not chunk
    requests. *)
Definition chunkless_store : Warehouse.store :=
  {| Warehouse.rows := [];
     Warehouse.now := 1000;
     Warehouse.outage := None;
     Warehouse.chunk_outage := Some "connection reset";
     Warehouse.inline := true;
     Warehouse.served := [] |}.

End Samples.

(** ** Start of the page: configuration from the environment *)

Module Startup.

(** [os.getenv(name, default)] *)
Definition getenv (env : string -> option string) (name default : string)
  : string :=
  match env name with
  | Some v => v
  | None => default
  end.

(** [s.rstrip("/")] *)
Fixpoint rstrip_slash (s : string) : string :=
  match s with
  | EmptyString => EmptyString
  | String c r =>
      match rstrip_slash r with
      | EmptyString =>
          if Ascii.eqb c "/" then EmptyString else String c EmptyString
      | r' => String c r'
      end
  end.

(** [s.split("/")]: the segments between the slashes, at least one. *)
Fixpoint split_slash (s : string) : list string :=
  match s with
  | EmptyString => [EmptyString]
  | String c r =>
      if Ascii.eqb c "/" then EmptyString :: split_slash r
      else
        match split_slash r with
        | seg :: segs => String c seg :: segs
        | [] => [String c EmptyString]
        end
  end.

(** [WAREHOUSE_HTTP_PATH.rstrip("/").split("/")[-1]] *)
Definition warehouse_id (path : string) : string :=
  last (split_slash (rstrip_slash path)) EmptyString.

(** A string made of slashes only (the empty string included). *)
Fixpoint all_slash (s : string) : bool :=
  match s with
  | EmptyString => true
  | String c r => Ascii.eqb c "/" && all_slash r
  end.

(** A string without a slash. *)
Fixpoint no_slash (s : string) : bool :=
  match s with
  | EmptyString => true
  | String c r => negb (Ascii.eqb c "/") && no_slash r
  end.

(** [n] slashes. *)
Fixpoint slashes (n : nat) : string :=
  match n with
  | O => EmptyString
  | S k => String "/" (slashes k)
  end.

Inductive startup :=
| Stopped (msg : string)
| Ready (cfg : Config).

(** The top of [app.py]: the three names with their defaults, the endpoint,
    [st.error] and [st.stop()] when the endpoint is missing, and the
    warehouse id. *)
Definition configure (env : string -> option string) : startup :=
  let CATALOG_NAME := getenv env "CHECKS_CATALOG" "alex_feng" in
  let SCHEMA_NAME := getenv env "CHECKS_SCHEMA" "lifeblood_checks" in
  let TABLE_NAME := getenv env "CHECKS_TABLE" "lifeblood_equipment_checks" in
  let WAREHOUSE_HTTP_PATH :=
    PyStr.strip (getenv env "DATABRICKS_WAREHOUSE_HTTP_PATH" "") in
  if negb (PyStr.truthy WAREHOUSE_HTTP_PATH) then
    Stopped
      ("Missing SQL warehouse URL. Set the DATABRICKS_WAREHOUSE_HTTP_PATH bundle "
       ++ "variable before deploying the app.")
  else
    Ready {| CATALOG_NAME := CATALOG_NAME;
             SCHEMA_NAME := SCHEMA_NAME;
             TABLE_NAME := TABLE_NAME;
             WAREHOUSE_ID := warehouse_id WAREHOUSE_HTTP_PATH |}.

End Startup.

(** ** The email of the current user *)

Module Identity.

(** An entry of [profile.emails]: an object of the SDK, whose fields are
    attributes and which has no [get], or a mapping, which has [get] and no
    such attributes.  A field that is absent reads as [None]. *)
Inductive entry :=
| Obj (value : option string) (primary : option bool)
| Dict (value : option string) (primary : option bool).

(** The value of an expression that may raise AttributeError. *)
Inductive lookup (A : Type) :=
| Got (a : A)
| AttributeError.
Arguments Got {A} a.
Arguments AttributeError {A}.

Definition truthy_text (v : option string) : bool :=
  match v with
  | Some s => PyStr.truthy s
  | None => false
  end.

(** [getattr(entry, "value", None) or entry.get("value")] *)
Definition value_of (e : entry) : lookup (option string) :=
  match e with
  | Obj v _ => if truthy_text v then Got v else AttributeError
  | Dict v _ => Got v
  end.

(** [getattr(entry, "primary", None) or entry.get("primary")] *)
Definition primary_of (e : entry) : lookup (option bool) :=
  match e with
  | Obj _ (Some true) => Got (Some true)
  | Obj _ _ => AttributeError
  | Dict _ p => Got p
  end.

(** How the loop over the entries ends. *)
Inductive scanned :=
| Return (value : option string)
| Exhausted
| Failed.

(** [value and (primary or primary is None)] *)
Definition qualifies (v : option string) (p : option bool) : bool :=
  truthy_text v
  && match p with
     | Some true | None => true
     | Some false => false
     end.

(** The [for entry in emails] loop inside its [try]. *)
Fixpoint scan (emails : list entry) : scanned :=
  match emails with
  | [] => Exhausted
  | e :: rest =>
      match value_of e with
      | AttributeError => Failed
      | Got v =>
          match primary_of e
          with
          | AttributeError => Failed
          | Got p => if qualifies v p then Return v else scan rest
          end
      end
  end.

(** What one accessor of the notebook context gives: an exception, a false
    value, an option that is not defined, or a defined option. *)
Inductive accessed :=
| Throws
| Falsy
| Undefined
| Defined (s : string).

(** The loop over the three accessors. *)
Fixpoint first_defined (accessors : list accessed) : option string :=
  match accessors with
  | [] => None
  | Defined s :: _ => Some s
  | _ :: rest => first_defined rest
  end.

(** [os.getenv("DATABRICKS_USER") or os.getenv("USER")] *)
Definition from_environment (env : string -> option string) : option string :=
  if truthy_text (env "DATABRICKS_USER") then env "DATABRICKS_USER"
  else env "USER".

(** The part of the function that reads the profile: [Some r] when it
    returns [r], [None] when control goes on to the notebook context. *)
Definition from_profile (me : outcome (option (list entry)))
  : option (option string) :=
  match me with
  | Raised _ => None
  | Returned None => None
  | Returned (Some []) => None
  | Returned (Some (first :: rest)) =>
      match scan (first :: rest) with
      | Return v => Some v
      | Exhausted | Failed =>
          match value_of first with
          | Got v => Some v
          | AttributeError => None
          end
      end
  end.

(** [get_current_user_email()].  [me] is the answer of
    [WORKSPACE_CLIENT.current_user.me()], reduced to the emails of the
    profile; [context] is [None] when the import of [dbutils] or the lookup
    of the notebook context raises, and otherwise what the three accessors
    give, in order. *)
Definition get_current_user_email
    (me : outcome (option (list entry)))
    (context : option (accessed * accessed * accessed))
    (env : string -> option string) : option string :=
  match from_profile me with
  | Some r => r
  | None =>
      match
        match context with
        | Some (a, b, c) => first_defined [a; b; c]
        | None => None
        end
      with
      | Some s => Some s
      | None => from_environment env
      end
  end.

(** A mapping that the loop passes over: its value is empty or absent, or
    its primary flag is false. *)
Definition unqualified_mapping (e : entry) : Prop :=
  exists v p, e = Dict v p /\ qualifies v p = false.

End Identity.

(** ** The setup script *)

Module Setup.

Definition qualify (identifier : string) : string :=
  "`" ++ identifier ++ "`".

Definition catalog_identifier (cfg : Config) : string :=
  qualify (CATALOG_NAME cfg).

Definition schema_identifier (cfg : Config) : string :=
  catalog_identifier cfg ++ "." ++ qualify (SCHEMA_NAME cfg).

Definition table_identifier (cfg : Config) : string :=
  schema_identifier cfg ++ "." ++ qualify (TABLE_NAME cfg).

Definition create_schema_text (cfg : Config) : string :=
  "CREATE SCHEMA IF NOT EXISTS " ++ schema_identifier cfg.

(** The text after the table identifier in the CREATE TABLE statement. *)
Definition create_table_tail : string :=
  " (
            inspection_date DATE COMMENT 'Date the routine inspection took place',
            facility_name STRING COMMENT 'Facility or donor centre where the equipment resides',
            nurse_name STRING COMMENT 'Nurse or technician performing the inspection',
            machine_type STRING COMMENT 'Type of device or instrument inspected',
            machine_id STRING COMMENT 'Unique identifier or serial number for the device',
            room_location STRING COMMENT 'Location of the equipment within the facility',
            power_status STRING COMMENT 'Power supply check result (e.g., OK, Needs Attention)',
            alarms_functional BOOLEAN COMMENT 'Indicates whether alarms passed functional testing',
            calibration_due_date DATE COMMENT 'Next calibration due date noted on the device',
            calibration_confirmed BOOLEAN COMMENT 'Whether calibration records were verified during the inspection',
            temperature_celsius DOUBLE COMMENT 'Operating temperature recorded in Celsius',
            pressure_kpa DOUBLE COMMENT 'Operating pressure recorded in kilopascals',
            cleaning_status STRING COMMENT 'Cleanliness and disinfection status of the equipment',
            issues_noted STRING COMMENT 'Summary of issues or observations captured during the inspection',
            follow_up_required BOOLEAN COMMENT 'Indicates if follow-up action is required',
            follow_up_actions STRING COMMENT 'Details of planned follow-up actions or responsible parties',
            user_email STRING COMMENT 'Email address of the Databricks user submitting the form',
            submitted_at TIMESTAMP COMMENT 'Timestamp recorded when the submission was stored'
        )
        USING DELTA
        COMMENT 'Routine equipment inspection submissions from Lifeblood nursing teams.'
        TBLPROPERTIES (
            delta.autoOptimize.optimizeWrite = true,
            delta.autoOptimize.autoCompact = true
        )
        ".

Definition create_table_text (cfg : Config) : string :=
  "
        CREATE TABLE IF NOT EXISTS " ++ table_identifier cfg ++ create_table_tail.

(** What [main] does: the two statements handed to [spark.sql], then the
    line it prints. *)
Inductive step :=
| spark_sql (text : string)
| print (line : string).

Definition main (cfg : Config) : list step :=
  [ spark_sql (create_schema_text cfg);
    spark_sql (create_table_text cfg);
    print ("Verified table exists: " ++ table_identifier cfg) ].

(** A text without its backticks. *)
Fixpoint unquote (s : string) : string :=
  match s with
  | EmptyString => EmptyString
  | String c r => if Ascii.eqb c "`" then unquote r else String c (unquote r)
  end.

Fixpoint no_backtick (s : string) : bool :=
  match s with
  | EmptyString => true
  | String c r => negb (Ascii.eqb c "`") && no_backtick r
  end.

End Setup.

(** ** Reading names off a statement text *)

Module Text.

(** A character of a column or parameter name: a lowercase letter, a digit
    or an underscore. *)
Definition is_name_char (c : ascii) : bool :=
  let n := nat_of_ascii c in
  ((97 <=? n)%nat && (n <=? 122)%nat)
  || ((48 <=? n)%nat && (n <=? 57)%nat)
  || (n =? 95)%nat.

(** The longest name at the start of a text. *)
Fixpoint take_name (s : string) : string :=
  match s with
  | EmptyString => EmptyString
  | String c r => if is_name_char c then String c (take_name r) else EmptyString
  end.

(** The names that follow a colon, in order of appearance. *)
Fixpoint placeholders (s : string) : list string :=
  match s with
  | EmptyString => []
  | String c r =>
      if Ascii.eqb c ":" then take_name r :: placeholders r
      else placeholders r
  end.

(** The lines of a text. *)
Fixpoint lines (s : string) : list string :=
  match s with
  | EmptyString => [EmptyString]
  | String c r =>
      if Ascii.eqb c "010" then EmptyString :: lines r
      else
        match lines r with
        | l :: ls => String c l :: ls
        | [] => [String c EmptyString]
        end
  end.

(** The name at the start of a line, after its indentation. *)
Definition first_name (line : string) : string :=
  take_name (PyStr.lstrip line).

Fixpoint drop_empty (l : list string) : list string :=
  match l with
  | EmptyString :: rest => drop_empty rest
  | _ => l
  end.

Fixpoint take_named (l : list string) : list string :=
  match l with
  | String c r :: rest => String c r :: take_named rest
  | _ => []
  end.

(** The first run of lines that start with a name: the names they start
    with. *)
Definition listed (s : string) : list string :=
  take_named (drop_empty (map first_name (lines s))).

(** The text before the table name in the query of the recent submissions,
    and the texts before and after the table name in the insert
    statement. *)
Definition select_head : string :=
  "
        SELECT
            inspection_date,
            facility_name,
            machine_type,
            machine_id,
            power_status,
            follow_up_required,
            submitted_at,
            user_email
        FROM ".

Definition insert_head : string :=
  "
        INSERT INTO ".

Definition insert_tail : string :=
  " (
            inspection_date,
            facility_name,
            nurse_name,
            machine_type,
            machine_id,
            room_location,
            power_status,
            alarms_functional,
            calibration_due_date,
            calibration_confirmed,
            temperature_celsius,
            pressure_kpa,
            cleaning_status,
            issues_noted,
            follow_up_required,
            follow_up_actions,
            user_email,
            submitted_at
        ) VALUES (
            to_date(:inspection_date),
            :facility_name,
            :nurse_name,
            :machine_type,
            :machine_id,
            :room_location,
            :power_status,
            CASE WHEN lower(:alarms_functional) = 'true' THEN TRUE ELSE FALSE END,
            CASE WHEN :calibration_due_date = '' THEN NULL ELSE to_date(:calibration_due_date) END,
            CASE WHEN lower(:calibration_confirmed) = 'true' THEN TRUE ELSE FALSE END,
            TRY_CAST(NULLIF(:temperature_celsius, '') AS DOUBLE),
            TRY_CAST(NULLIF(:pressure_kpa, '') AS DOUBLE),
            :cleaning_status,
            :issues_noted,
            CASE WHEN lower(:follow_up_required) = 'true' THEN TRUE ELSE FALSE END,
            :follow_up_actions,
            :user_email,
            current_timestamp()
        )
    ".

End Text.

(** ** Test doubles of the client for the polling loop *)

Module Scripted.

(** A client that answers [execute_statement] with [first] and each call of
    [get_statement] with the next response of the script it holds. *)
Definition client (first : StatementResponse)
  : WorkspaceClient (list StatementResponse) :=
  {| execute_statement := fun _ script => (Returned first, script);
     get_statement := (fun _ script =>
       match script with
       | [] => (Raised "unknown statement", [])
       | r :: rest => (Returned r, rest)
       end);
     get_statement_result_chunk_n := fun _ _ script =>
       (Raised "no chunk", script) |}.

Definition running (id : string) : StatementResponse :=
  {| statement_id := id;
     status := Some {| state := Some RUNNING; error := None |};
     manifest := None;
     result := None |}.

Definition finished (id : string) : StatementResponse :=
  {| statement_id := id;
     status := Some {| state := Some SUCCEEDED; error := None |};
     manifest := None;
     result := None |}.

(** A client whose statements stay RUNNING for ever. *)
Definition stuck : WorkspaceClient unit :=
  {| execute_statement := fun _ w => (Returned (running "1"), w);
     get_statement := fun id w => (Returned (running id), w);
     get_statement_result_chunk_n := fun _ _ w => (Raised "no chunk", w) |}.

End Scripted.

(** ** The whole script *)

(** What the script puts on the page beyond [Ui]. *)
Inductive Element :=
| st_title (text : string)
| st_caption (text : string)
| st_guidance (text : string)
| st_warning (msg : string)
| st_divider
| shown (u : Ui).

Definition guidance_text : string :=
  "- Verify alarms and safety features before recording environmental readings.
- Use the follow-up fields to document any remediation or escalation actions.
- Leave numeric readings blank if not applicable to the device.".

(** [st.info] with the email, or the warning when there is none. *)
Definition login_banner (user_email : option string) : Element :=
  match user_email with
  | Some (String c r) => shown (st_info ("Logged in as: " ++ String c r))
  | _ =>
      st_warning
        ("Unable to resolve the current user email automatically; submissions will still be "
         ++ "recorded but the email column may be empty.")
  end.

Definition page_header (user_email : option string) : list Element :=
  [ st_title "Lifeblood Equipment Check Form";
    st_caption
      ("Use this form to replace the paper checklist and capture machine and instrument "
       ++ "inspections directly in Databricks.");
    st_guidance guidance_text;
    login_banner user_email ].

Section Script.

Context {D : Doubles} {W : Type}.
Variable client : WorkspaceClient W.
Variable cfg : Config.
Variable user_email : option string.

(** One run of the script from the title on: [submitted] is the form when
    the button was pressed.  An exception of the last call ends the run. *)
Definition script (fuel : nat) (submitted : option Form) (w : W)
  : option (outcome (list Element) * W) :=
  match
    match submitted with
    | Some f => on_submit client cfg user_email fuel f w
    | None => Some ([], false, w)
    end
  with
  | None => None
  | Some (feedback, submitted_at, w1) =>
      match show_recent client cfg fuel submitted_at w1 with
      | None => None
      | Some (Raised msg, w2) => Some (Raised msg, w2)
      | Some (Returned recent, w2) =>
          Some (Returned
                  (page_header user_email ++ map shown feedback
                   ++ st_divider :: map shown recent)%list, w2)
      end
  end.

End Script.

(** ** Forms with their texts trimmed, and the messages in script order *)

Definition trim_form (f : Form) : Form :=
  {| inspection_date := inspection_date f;
     facility_name := PyStr.strip (facility_name f);
     nurse_name := PyStr.strip (nurse_name f);
     machine_type := machine_type f;
     machine_id := PyStr.strip (machine_id f);
     room_location := PyStr.strip (room_location f);
     power_status := power_status f;
     alarms_functional := alarms_functional f;
     calibration_confirmed := calibration_confirmed f;
     calibration_due_raw := PyStr.strip (calibration_due_raw f);
     temperature_raw := PyStr.strip (temperature_raw f);
     pressure_raw := PyStr.strip (pressure_raw f);
     cleaning_status := cleaning_status f;
     issues_noted := PyStr.strip (issues_noted f);
     follow_up_required := follow_up_required f;
     follow_up_actions := PyStr.strip (follow_up_actions f) |}.

Definition all_messages : list string :=
  [ required_message "Facility name";
    required_message "Inspector name";
    required_message "Equipment ID";
    required_message "Location";
    calibration_message;
    temperature_message;
    pressure_message;
    follow_up_message ].

(** Every row of the table was stamped before the present time of the
    store. *)
Definition stamped_before `{Doubles} (s : Warehouse.store) : Prop :=
  Forall (fun r => (Table.submitted_at r < Warehouse.now s)%Z)
         (Warehouse.rows s).

(** ** Further sample inputs *)

Module MoreSamples.

#[local] Existing Instance DecimalReadings.doubles.

(** A store out of reach. *)
Definition stopped_store : Warehouse.store :=
  {| Warehouse.rows := [];
     Warehouse.now := 1000;
     Warehouse.outage := Some "warehouse is stopped";
     Warehouse.chunk_outage := None;
     Warehouse.inline := true;
     Warehouse.served := [] |}.

(** An environment that sets the endpoint only. *)
Definition environment (name : string) : option string :=
  if String.eqb name "DATABRICKS_WAREHOUSE_HTTP_PATH"
  then Some " /sql/1.0/warehouses/0123456789abcdef/ "
  else None.

(** An environment that sets USER only. *)
Definition user_environment (name : string) : option string :=
  if String.eqb name "USER" then Some "alex" else None.

Definition emails_as_objects : list Identity.entry :=
  [ Identity.Obj (Some "work@example.org") (Some false);
    Identity.Obj (Some "home@example.org") (Some true) ].

Definition emails_as_mappings : list Identity.entry :=
  [ Identity.Dict (Some "work@example.org") (Some false);
    Identity.Dict (Some "home@example.org") None;
    Identity.Dict (Some "other@example.org") (Some true) ].

(** A statement that fails after two polls. *)
Definition failed_response : StatementResponse :=
  {| statement_id := "7";
     status := Some {| state := Some FAILED;
                       error := Some {| message := Some "table not found" |} |};
     manifest := None;
     result := None |}.

Definition two_polls_then_failed : list StatementResponse :=
  [ Scripted.running "7"; failed_response ].

Definition two_polls_then_finished : list StatementResponse :=
  [ Scripted.running "7"; Scripted.finished "7" ].

End MoreSamples.

(** ** A store that reads the text of a statement

    [Warehouse.run] tells the two statements of the page apart by what
    they are.  The engine below is handed the same requests and works from
    [statement_text] alone: it splits the text into tokens, parses a SELECT
    or an INSERT statement, resolves the names against the columns of the
    table and evaluates the result on the rows of the store.  It covers the
    part of the language that the two statements are written in. *)

Module Engine.

(** *** Tokens *)

Inductive token :=
| Word (w : string)
| Param (name : string)
| Quoted (text : string)
| Sym (c : ascii).

Definition is_blank (c : ascii) : bool :=
  let n := N_of_ascii c in
  (n =? 32)%N || ((9 <=? n)%N && (n <=? 13)%N).

(** A letter, a digit or an underscore. *)
Definition is_word_char (c : ascii) : bool :=
  let n := N_of_ascii c in
  ((97 <=? n)%N && (n <=? 122)%N)
  || ((65 <=? n)%N && (n <=? 90)%N)
  || ((48 <=? n)%N && (n <=? 57)%N)
  || (n =? 95)%N.

Fixpoint all_word_chars (s : string) : bool :=
  match s with
  | EmptyString => true
  | String c r => is_word_char c && all_word_chars r
  end.

(** A name that needs no quoting. *)
Definition plain (w : string) : bool :=
  negb (String.eqb w "") && all_word_chars w.

(** What the scanner is in the middle of. *)
Inductive pending :=
| Between
| InWord (w : string)
| InParam (w : string)
| InQuote (w : string).

(** The tokens read so far, the last one first, and the pending one. *)
Definition scanner : Type := list token * pending.

Definition snoc (w : string) (c : ascii) : string := w ++ String c "".

Definition start (toks : list token) (c : ascii) : scanner :=
  if is_blank c then (toks, Between)
  else if is_word_char c then (toks, InWord (String c ""))
  else if Ascii.eqb c ":" then (toks, InParam "")
  else if Ascii.eqb c "'" then (toks, InQuote "")
  else (Sym c :: toks, Between).

Definition step (st : scanner) (c : ascii) : scanner :=
  match st with
  | (toks, Between) => start toks c
  | (toks, InWord w) =>
      if is_word_char c then (toks, InWord (snoc w c))
      else start (Word w :: toks) c
  | (toks, InParam w) =>
      if is_word_char c then (toks, InParam (snoc w c))
      else start (Param w :: toks) c
  | (toks, InQuote w) =>
      if Ascii.eqb c "'" then (Quoted w :: toks, Between)
      else (toks, InQuote (snoc w c))
  end.

Fixpoint scan (st : scanner) (s : string) : scanner :=
  match s with
  | EmptyString => st
  | String c r => scan (step st c) r
  end.

(** The end of the text; a text literal left open is an error. *)
Definition finish (st : scanner) : option (list token) :=
  match st with
  | (toks, Between) => Some (List.rev toks)
  | (toks, InWord w) => Some (List.rev (Word w :: toks))
  | (toks, InParam w) => Some (List.rev (Param w :: toks))
  | (_, InQuote _) => None
  end.

Definition tokens (s : string) : option (list token) :=
  finish (scan ([], Between) s).

(** *** Syntax *)

Inductive builtin := ToDate | Lower | NullIf | CurrentTimestamp.

Inductive expr :=
| EParam (name : string)
| EText (text : string)
| ENull
| EBool (b : bool)
| ECall0 (f : builtin)
| ECall1 (f : builtin) (a : expr)
| ECall2 (f : builtin) (a b : expr)
| ETryCastDouble (a : expr)
| ECaseEq (l r yes no : expr).

(** [SELECT columns FROM path [ORDER BY column [ASC|DESC]] [LIMIT n]];
    the number after LIMIT is kept as written, with its sign. *)
Record select := {
  s_columns : list string;
  s_from : list string;
  s_order : option (string * bool);
  s_limit : option (bool * string)
}.

(** [INSERT INTO path (columns) VALUES (expressions)] *)
Record insert := {
  i_into : list string;
  i_columns : list string;
  i_values : list expr
}.

Inductive statement :=
| Select (q : select)
| Insert (i : insert).

(** Keywords and names of functions are read without regard to case. *)
Definition keyword (k w : string) : bool := String.eqb (Sql.lower w) k.

Definition builtin_of (w : string) : option builtin :=
  if keyword "to_date" w then Some ToDate
  else if keyword "lower" w then Some Lower
  else if keyword "nullif" w then Some NullIf
  else if keyword "current_timestamp" w then Some CurrentTimestamp
  else None.

Notation "x <- e ;; k" :=
  (match e with Some x => k | None => None end)
  (at level 61, e at next level, right associativity).

Notation "' p <- e ;; k" :=
  (match e with Some p => k | None => None end)
  (at level 61, p pattern, e at next level, right associativity).

Definition expect_word (k : string) (ts : list token) : option (list token) :=
  match ts with
  | Word w :: r => if keyword k w then Some r else None
  | _ => None
  end.

Definition expect_sym (c : ascii) (ts : list token) : option (list token) :=
  match ts with
  | Sym d :: r => if Ascii.eqb d c then Some r else None
  | _ => None
  end.

(** Words with [sep] between them. *)
Fixpoint names (sep : ascii) (ts : list token)
  : option (list string * list token) :=
  match ts with
  | Word w :: r =>
      match r with
      | Sym c :: r1 =>
          if Ascii.eqb c sep then
            '(l, r2) <- names sep r1 ;;
            Some (w :: l, r2)
          else Some ([w], r)
      | _ => Some ([w], r)
      end
  | _ => None
  end.

Fixpoint parse_expr (fuel : nat) (ts : list token)
  : option (expr * list token) :=
  match fuel with
  | O => None
  | S fuel =>
      match ts with
      | Param n :: r => Some (EParam n, r)
      | Quoted t :: r => Some (EText t, r)
      | Word w :: r =>
          if keyword "null" w then Some (ENull, r)
          else if keyword "true" w then Some (EBool true, r)
          else if keyword "false" w then Some (EBool false, r)
          else if keyword "case" w then
            r1 <- expect_word "when" r ;;
            '(l, r2) <- parse_expr fuel r1 ;;
            r3 <- expect_sym "=" r2 ;;
            '(rt, r4) <- parse_expr fuel r3 ;;
            r5 <- expect_word "then" r4 ;;
            '(yes, r6) <- parse_expr fuel r5 ;;
            r7 <- expect_word "else" r6 ;;
            '(no, r8) <- parse_expr fuel r7 ;;
            r9 <- expect_word "end" r8 ;;
            Some (ECaseEq l rt yes no, r9)
          else if keyword "try_cast" w then
            r1 <- expect_sym "(" r ;;
            '(a, r2) <- parse_expr fuel r1 ;;
            r3 <- expect_word "as" r2 ;;
            r4 <- expect_word "double" r3 ;;
            r5 <- expect_sym ")" r4 ;;
            Some (ETryCastDouble a, r5)
          else
            f <- builtin_of w ;;
            r1 <- expect_sym "(" r ;;
            match expect_sym ")" r1 with
            | Some r2 => Some (ECall0 f, r2)
            | None =>
                '(a, r2) <- parse_expr fuel r1 ;;
                match expect_sym ")" r2 with
                | Some r3 => Some (ECall1 f a, r3)
                | None =>
                    r3 <- expect_sym "," r2 ;;
                    '(b, r4) <- parse_expr fuel r3 ;;
                    r5 <- expect_sym ")" r4 ;;
                    Some (ECall2 f a b, r5)
                end
            end
      | _ => None
      end
  end.

(** Expressions with commas between them. *)
Fixpoint parse_exprs (fuel : nat) (ts : list token)
  : option (list expr * list token) :=
  match fuel with
  | O => None
  | S fuel' =>
      '(e, r) <- parse_expr fuel ts ;;
      match expect_sym "," r with
      | Some r1 =>
          '(es, r2) <- parse_exprs fuel' r1 ;;
          Some (e :: es, r2)
      | None => Some ([e], r)
      end
  end.

Definition parse_order (ts : list token)
  : option (option (string * bool) * list token) :=
  match expect_word "order" ts with
  | None => Some (None, ts)
  | Some r =>
      r1 <- expect_word "by" r ;;
      match r1 with
      | Word c :: r2 =>
          match expect_word "desc" r2 with
          | Some r3 => Some (Some (c, true), r3)
          | None =>
              match expect_word "asc" r2 with
              | Some r3 => Some (Some (c, false), r3)
              | None => Some (Some (c, false), r2)
              end
          end
      | _ => None
      end
  end.

Definition parse_limit (ts : list token)
  : option (option (bool * string) * list token) :=
  match expect_word "limit" ts with
  | None => Some (None, ts)
  | Some r =>
      match r with
      | Word n :: r1 => Some (Some (false, n), r1)
      | Sym c :: Word n :: r1 =>
          if Ascii.eqb c "-" then Some (Some (true, n), r1) else None
      | _ => None
      end
  end.

Definition parse_select (ts : list token) : option select :=
  r1 <- expect_word "select" ts ;;
  '(cols, r2) <- names "," r1 ;;
  r3 <- expect_word "from" r2 ;;
  '(path, r4) <- names "." r3 ;;
  '(order, r5) <- parse_order r4 ;;
  '(limit, r6) <- parse_limit r5 ;;
  match r6 with
  | [] => Some {| s_columns := cols; s_from := path;
                  s_order := order; s_limit := limit |}
  | _ => None
  end.

Definition parse_insert (ts : list token) : option insert :=
  r1 <- expect_word "insert" ts ;;
  r2 <- expect_word "into" r1 ;;
  '(path, r3) <- names "." r2 ;;
  r4 <- expect_sym "(" r3 ;;
  '(cols, r5) <- names "," r4 ;;
  r6 <- expect_sym ")" r5 ;;
  r7 <- expect_word "values" r6 ;;
  r8 <- expect_sym "(" r7 ;;
  '(vals, r9) <- parse_exprs (length r8) r8 ;;
  r10 <- expect_sym ")" r9 ;;
  match r10 with
  | [] => Some {| i_into := path; i_columns := cols; i_values := vals |}
  | _ => None
  end.

Definition parse (ts : list token) : option statement :=
  match expect_word "select" ts with
  | Some _ => option_map Select (parse_select ts)
  | None => option_map Insert (parse_insert ts)
  end.

(** The outcome of a step of the engine: a result, or the message of the
    error that ends the statement. *)
Inductive answer (A : Type) :=
| Done (a : A)
| Refused (msg : string).
Arguments Done {A} a.
Arguments Refused {A} msg.

Definition bind {A B : Type} (x : answer A) (k : A -> answer B) : answer B :=
  match x with
  | Done a => k a
  | Refused msg => Refused msg
  end.

Notation "x <~ e ;; k" := (bind e (fun x => k))
  (at level 61, e at next level, right associativity).

(** The statement that a text denotes. *)
Definition parse_text (s : string) : option statement :=
  match tokens s with
  | Some ts => parse ts
  | None => None
  end.

(** *** Values and columns *)

Section Evaluation.

Context {D : Doubles}.

(** A value with its type; [VNull] is the literal NULL, which has none, and
    a typed value may be NULL as well. *)
Inductive value :=
| VNull
| VText (o : option string)
| VBool (o : option bool)
| VDate (o : option PyDate.date)
| VDouble (o : option float)
| VTime (t : Z).

(** The columns of the table that [setup_lifeblood_table.py] creates. *)
Inductive column :=
| c_inspection_date
| c_facility_name
| c_nurse_name
| c_machine_type
| c_machine_id
| c_room_location
| c_power_status
| c_alarms_functional
| c_calibration_due_date
| c_calibration_confirmed
| c_temperature_celsius
| c_pressure_kpa
| c_cleaning_status
| c_issues_noted
| c_follow_up_required
| c_follow_up_actions
| c_user_email
| c_submitted_at.

Definition column_name (c : column) : string :=
  match c with
  | c_inspection_date => "inspection_date"
  | c_facility_name => "facility_name"
  | c_nurse_name => "nurse_name"
  | c_machine_type => "machine_type"
  | c_machine_id => "machine_id"
  | c_room_location => "room_location"
  | c_power_status => "power_status"
  | c_alarms_functional => "alarms_functional"
  | c_calibration_due_date => "calibration_due_date"
  | c_calibration_confirmed => "calibration_confirmed"
  | c_temperature_celsius => "temperature_celsius"
  | c_pressure_kpa => "pressure_kpa"
  | c_cleaning_status => "cleaning_status"
  | c_issues_noted => "issues_noted"
  | c_follow_up_required => "follow_up_required"
  | c_follow_up_actions => "follow_up_actions"
  | c_user_email => "user_email"
  | c_submitted_at => "submitted_at"
  end.

Definition all_columns : list column :=
  [ c_inspection_date;
    c_facility_name;
    c_nurse_name;
    c_machine_type;
    c_machine_id;
    c_room_location;
    c_power_status;
    c_alarms_functional;
    c_calibration_due_date;
    c_calibration_confirmed;
    c_temperature_celsius;
    c_pressure_kpa;
    c_cleaning_status;
    c_issues_noted;
    c_follow_up_required;
    c_follow_up_actions;
    c_user_email;
    c_submitted_at ].

(** The column that a name denotes, if any; names are read without regard
    to case. *)
Definition column_of (w : string) : option column :=
  find (fun c => keyword (column_name c) w) all_columns.

Definition column_index (c : column) : nat :=
  match c with
  | c_inspection_date => 0
  | c_facility_name => 1
  | c_nurse_name => 2
  | c_machine_type => 3
  | c_machine_id => 4
  | c_room_location => 5
  | c_power_status => 6
  | c_alarms_functional => 7
  | c_calibration_due_date => 8
  | c_calibration_confirmed => 9
  | c_temperature_celsius => 10
  | c_pressure_kpa => 11
  | c_cleaning_status => 12
  | c_issues_noted => 13
  | c_follow_up_required => 14
  | c_follow_up_actions => 15
  | c_user_email => 16
  | c_submitted_at => 17
  end.

Definition same_column (a b : column) : bool :=
  Nat.eqb (column_index a) (column_index b).

(** The value of a column in a row. *)
Definition read (c : column) (r : Table.row) : value :=
  match c with
  | c_inspection_date => VDate (Table.inspection_date r)
  | c_facility_name => VText (Table.facility_name r)
  | c_nurse_name => VText (Table.nurse_name r)
  | c_machine_type => VText (Table.machine_type r)
  | c_machine_id => VText (Table.machine_id r)
  | c_room_location => VText (Table.room_location r)
  | c_power_status => VText (Table.power_status r)
  | c_alarms_functional => VBool (Table.alarms_functional r)
  | c_calibration_due_date => VDate (Table.calibration_due_date r)
  | c_calibration_confirmed => VBool (Table.calibration_confirmed r)
  | c_temperature_celsius => VDouble (Table.temperature_celsius r)
  | c_pressure_kpa => VDouble (Table.pressure_kpa r)
  | c_cleaning_status => VText (Table.cleaning_status r)
  | c_issues_noted => VText (Table.issues_noted r)
  | c_follow_up_required => VBool (Table.follow_up_required r)
  | c_follow_up_actions => VText (Table.follow_up_actions r)
  | c_user_email => VText (Table.user_email r)
  | c_submitted_at => VTime (Table.submitted_at r)
  end.

(** The text of a value in a result: NULL is [None]. *)
Definition render (v : value) : cell :=
  match v with
  | VNull => None
  | VText o => o
  | VBool o => option_map bool_to_str o
  | VDate o => option_map PyDate.isoformat o
  | VDouble o => option_map str_of_float o
  | VTime t => Some (PyStr.str_of_int t)
  end.

(** *** Expressions *)

(** [l = r] as the condition of a CASE: true when both sides are texts
    that are not NULL and are the same. *)
Definition equal (l r : value) : bool :=
  match l, r with
  | VText (Some x), VText (Some y) => String.eqb x y
  | _, _ => false
  end.

Definition call1 (f : builtin) (v : value) : answer value :=
  match f, v with
  | ToDate, VText (Some x) => Done (VDate (Sql.to_date x))
  | ToDate, VText None => Done (VDate None)
  | ToDate, VNull => Done (VDate None)
  | Lower, VText o => Done (VText (option_map Sql.lower o))
  | Lower, VNull => Done (VText None)
  | ToDate, _ => Refused "to_date needs a text"
  | Lower, _ => Refused "lower needs a text"
  | _, _ => Refused "wrong number of arguments"
  end.

Definition call2 (f : builtin) (a b : value) : answer value :=
  match f, a, b with
  | NullIf, VText (Some x), VText (Some y) => Done (VText (Sql.nullif x y))
  | NullIf, VText o, VText None => Done (VText o)
  | NullIf, VText o, VNull => Done (VText o)
  | NullIf, VText None, VText _ => Done (VText None)
  | NullIf, VNull, _ => Done VNull
  | NullIf, _, _ => Refused "nullif needs two texts"
  | _, _, _ => Refused "wrong number of arguments"
  end.

(** The value of an expression; [lookup] gives the bound parameters and
    [time] the present time of the store. *)
Fixpoint eval (lookup : string -> option string) (time : Z) (e : expr)
  : answer value :=
  match e with
  | EParam n =>
      match lookup n with
      | Some v => Done (VText (Some v))
      | None => Refused "unbound parameter"
      end
  | EText t => Done (VText (Some t))
  | ENull => Done VNull
  | EBool b => Done (VBool (Some b))
  | ECall0 CurrentTimestamp => Done (VTime time)
  | ECall0 _ => Refused "wrong number of arguments"
  | ECall1 f a => v <~ eval lookup time a ;; call1 f v
  | ECall2 f a b =>
      va <~ eval lookup time a ;;
      vb <~ eval lookup time b ;;
      call2 f va vb
  | ETryCastDouble a =>
      v <~ eval lookup time a ;;
      match v with
      | VText o => Done (VDouble (Sql.try_cast o))
      | VNull => Done (VDouble None)
      | VDouble o => Done (VDouble o)
      | _ => Refused "this cast is outside the model"
      end
  | ECaseEq l r yes no =>
      vl <~ eval lookup time l ;;
      vr <~ eval lookup time r ;;
      if equal vl vr then eval lookup time yes else eval lookup time no
  end.

Fixpoint eval_all (lookup : string -> option string) (time : Z)
    (es : list expr) : answer (list value) :=
  match es with
  | [] => Done []
  | e :: rest =>
      v <~ eval lookup time e ;;
      vs <~ eval_all lookup time rest ;;
      Done (v :: vs)
  end.

(** *** Names *)

Fixpoint resolve_columns (ws : list string) : answer (list column) :=
  match ws with
  | [] => Done []
  | w :: rest =>
      match column_of w with
      | Some c => cs <~ resolve_columns rest ;; Done (c :: cs)
      | None => Refused "unresolved column"
      end
  end.

(** A name of one or two parts is completed with the catalog and the schema
    of the request. *)
Definition qualified (request : ExecuteRequest) (path : list string)
  : list string :=
  match path with
  | [t] => [rq_catalog request; rq_schema request; t]
  | [sch; t] => [rq_catalog request; sch; t]
  | _ => path
  end.

Fixpoint same_path (a b : list string) : bool :=
  match a, b with
  | [], [] => true
  | x :: a', y :: b' => String.eqb x y && same_path a' b'
  | _, _ => false
  end.

(** *** INSERT *)

Fixpoint assigned (c : column) (cs : list column) (vs : list value) : value :=
  match cs, vs with
  | c' :: cs', v :: vs' => if same_column c' c then v else assigned c cs' vs'
  | _, _ => VNull
  end.

Definition as_text (v : value) : answer (option string) :=
  match v with
  | VText o => Done o
  | VNull => Done None
  | _ => Refused "a STRING column needs a text"
  end.

Definition as_bool (v : value) : answer (option bool) :=
  match v with
  | VBool o => Done o
  | VNull => Done None
  | _ => Refused "a BOOLEAN column needs a boolean"
  end.

Definition as_date (v : value) : answer (option PyDate.date) :=
  match v with
  | VDate o => Done o
  | VNull => Done None
  | _ => Refused "a DATE column needs a date"
  end.

Definition as_double (v : value) : answer (option float) :=
  match v with
  | VDouble o => Done o
  | VNull => Done None
  | _ => Refused "a DOUBLE column needs a number"
  end.

Definition as_time (v : value) : answer Z :=
  match v with
  | VTime t => Done t
  | _ => Refused "submitted_at needs a timestamp"
  end.

(** The row that gives every column the value assigned to it, NULL where
    none is. *)
Definition row_of (get : column -> value) : answer Table.row :=
  v_inspection_date <~ as_date (get c_inspection_date) ;;
  v_facility_name <~ as_text (get c_facility_name) ;;
  v_nurse_name <~ as_text (get c_nurse_name) ;;
  v_machine_type <~ as_text (get c_machine_type) ;;
  v_machine_id <~ as_text (get c_machine_id) ;;
  v_room_location <~ as_text (get c_room_location) ;;
  v_power_status <~ as_text (get c_power_status) ;;
  v_alarms_functional <~ as_bool (get c_alarms_functional) ;;
  v_calibration_due_date <~ as_date (get c_calibration_due_date) ;;
  v_calibration_confirmed <~ as_bool (get c_calibration_confirmed) ;;
  v_temperature_celsius <~ as_double (get c_temperature_celsius) ;;
  v_pressure_kpa <~ as_double (get c_pressure_kpa) ;;
  v_cleaning_status <~ as_text (get c_cleaning_status) ;;
  v_issues_noted <~ as_text (get c_issues_noted) ;;
  v_follow_up_required <~ as_bool (get c_follow_up_required) ;;
  v_follow_up_actions <~ as_text (get c_follow_up_actions) ;;
  v_user_email <~ as_text (get c_user_email) ;;
  v_submitted_at <~ as_time (get c_submitted_at) ;;
  Done
    {| Table.inspection_date := v_inspection_date;
       Table.facility_name := v_facility_name;
       Table.nurse_name := v_nurse_name;
       Table.machine_type := v_machine_type;
       Table.machine_id := v_machine_id;
       Table.room_location := v_room_location;
       Table.power_status := v_power_status;
       Table.alarms_functional := v_alarms_functional;
       Table.calibration_due_date := v_calibration_due_date;
       Table.calibration_confirmed := v_calibration_confirmed;
       Table.temperature_celsius := v_temperature_celsius;
       Table.pressure_kpa := v_pressure_kpa;
       Table.cleaning_status := v_cleaning_status;
       Table.issues_noted := v_issues_noted;
       Table.follow_up_required := v_follow_up_required;
       Table.follow_up_actions := v_follow_up_actions;
       Table.user_email := v_user_email;
       Table.submitted_at := v_submitted_at |}.

Definition insert_row (i : insert) (lookup : string -> option string)
    (time : Z) : answer Table.row :=
  cs <~ resolve_columns (i_columns i) ;;
  vs <~ eval_all lookup time (i_values i) ;;
  if Nat.eqb (length cs) (length vs)
  then row_of (fun c => assigned c cs vs)
  else Refused "the values do not fit the columns".

(** *** SELECT *)

(** The key that a column orders by: the timestamp and the dates, NULL
    first.  The other columns are not ordered by in this model. *)
Definition order_key (c : column) : answer (Table.row -> option Z) :=
  let days d :=
    PyDate.ymd_to_ord (PyDate.year d) (PyDate.month d) (PyDate.day d) in
  match c with
  | c_submitted_at => Done (fun r => Some (Table.submitted_at r))
  | c_inspection_date =>
      Done (fun r => option_map days (Table.inspection_date r))
  | c_calibration_due_date =>
      Done (fun r => option_map days (Table.calibration_due_date r))
  | _ => Refused "ordering by this column is outside the model"
  end.

Definition key_below (a b : option Z) : bool :=
  match a, b with
  | Some x, Some y => (x <? y)%Z
  | None, Some _ => true
  | _, None => false
  end.

(** Whether [r] goes before [x]. *)
Definition before (key : Table.row -> option Z) (desc : bool)
    (r x : Table.row) : bool :=
  if desc then key_below (key x) (key r) else key_below (key r) (key x).

Fixpoint place_by (goes_before : Table.row -> Table.row -> bool)
    (r : Table.row) (sorted : list Table.row) : list Table.row :=
  match sorted with
  | [] => [r]
  | x :: rest =>
      if goes_before r x then r :: sorted
      else x :: place_by goes_before r rest
  end.

Definition ordered (order : option (string * bool)) (l : list Table.row)
  : answer (list Table.row) :=
  match order with
  | None => Done l
  | Some (w, desc) =>
      match column_of w with
      | Some c =>
          key <~ order_key c ;;
          Done (fold_right (place_by (before key desc)) [] l)
      | None => Refused "unresolved column"
      end
  end.

(** A number as written: digits only. *)
Definition number (w : string) : option Z :=
  option_map Z.of_int (NilZero.int_of_string w).

Definition limited (limit : option (bool * string)) (l : list Table.row)
  : answer (list Table.row) :=
  match limit with
  | None => Done l
  | Some (negative, w) =>
      match number w with
      | Some n =>
          let n := if negative then (- n)%Z else n in
          if (n <? 0)%Z then Refused "the limit must not be negative"
          else Done (firstn (Z.to_nat n) l)
      | None => Refused "the limit is not a number"
      end
  end.

Definition select_rows (q : select) (l : list Table.row)
  : answer (list column * list (list cell)) :=
  cs <~ resolve_columns (s_columns q) ;;
  sorted <~ ordered (s_order q) l ;;
  picked <~ limited (s_limit q) sorted ;;
  Done (cs, map (fun r => map (fun c => render (read c r)) cs) picked).

(** *** The statement of a request *)

(** [execute_statement] on the store that holds the table named [table]:
    the text of the statement is read, and a statement that cannot be read
    or evaluated fails. *)
Definition run (table : list string) (request : ExecuteRequest)
    (s : Warehouse.store) : outcome StatementResponse * Warehouse.store :=
  match Warehouse.outage s with
  | Some msg => (Raised msg, s)
  | None =>
      let id := PyStr.str_of_int (Warehouse.now s) in
      let refuse msg :=
        (Returned (Warehouse.failed id msg), Warehouse.tick s) in
      match tokens (statement_text (rq_statement request)) with
      | None => refuse "a text literal is left open"
      | Some ts =>
          match parse ts with
          | None => refuse "syntax error"
          | Some (Insert i) =>
              if same_path (qualified request (i_into i)) table then
                match insert_row i (Sql.bound (rq_parameters request))
                        (Warehouse.now s) with
                | Done r =>
                    (Returned (Warehouse.succeeded id None None),
                     Warehouse.tick
                       (Warehouse.with_rows s
                          (Warehouse.rows s ++ [r])%list))
                | Refused msg => refuse msg
                end
              else refuse "table not found"
          | Some (Select q) =>
              if same_path (qualified request (s_from q)) table then
                match select_rows q (Warehouse.rows s) with
                | Done (cs, data) =>
                    let m :=
                      {| schema :=
                           Some {| columns :=
                             Some (map (fun c =>
                                          {| name := Some (column_name c) |})
                                       cs) |} |} in
                    (Returned
                       (Warehouse.succeeded id (Some m)
                          (Some {| data_array :=
                                     if Warehouse.inline s
                                     then Some data else None |})),
                     Warehouse.tick (Warehouse.with_served s data))
                | Refused msg => refuse msg
                end
              else refuse "table not found"
          end
      end
  end.

Definition client (table : list string)
  : WorkspaceClient Warehouse.store :=
  {| execute_statement := run table;
     get_statement := fun id s => (Raised "unknown statement", s);
     get_statement_result_chunk_n := Warehouse.chunk |}.

(** The name of the table that the page is configured for. *)
Definition table_of (cfg : Config) : list string :=
  [CATALOG_NAME cfg; SCHEMA_NAME cfg; TABLE_NAME cfg].

Definition plain_names (cfg : Config) : Prop :=
  plain (CATALOG_NAME cfg) = true
  /\ plain (SCHEMA_NAME cfg) = true
  /\ plain (TABLE_NAME cfg) = true.

End Evaluation.

End Engine.

(** A store whose three rows are not in the order of their time stamps. *)
Module EngineSamples.

#[local] Existing Instance DecimalReadings.doubles.

Definition row_at (time : Z) (machine : string) : Table.row :=
  {| Table.inspection_date := Some (PyDate.mkdate 2024 5 17);
     Table.facility_name := Some "Sydney Processing Centre";
     Table.nurse_name := Some "Alex Smith";
     Table.machine_type := Some "Centrifuge";
     Table.machine_id := Some machine;
     Table.room_location := Some "Donor Room 3";
     Table.power_status := Some "OK";
     Table.alarms_functional := Some true;
     Table.calibration_due_date := None;
     Table.calibration_confirmed := Some true;
     Table.temperature_celsius := None;
     Table.pressure_kpa := None;
     Table.cleaning_status := Some "Sanitized";
     Table.issues_noted := Some "";
     Table.follow_up_required := Some false;
     Table.follow_up_actions := Some "";
     Table.user_email := None;
     Table.submitted_at := time |}.

Definition unordered_store : Warehouse.store :=
  {| Warehouse.rows := [row_at 5 "FX-1"; row_at 9 "FX-2"; row_at 7 "FX-3"];
     Warehouse.now := 1000;
     Warehouse.outage := None;
     Warehouse.chunk_outage := None;
     Warehouse.inline := true;
     Warehouse.served := [] |}.

End EngineSamples.

(** * Properties *)

(** ** Trimming *)

Module PyStrFacts.
Import PyStr.

Lemma lstrip_empty_iff s : lstrip s = "" <-> all_space s = true.
Proof.
  induction s as [|c r IH]; simpl.
  - tauto.
  - destruct (isspace c); simpl.
    + exact IH.
    + split; discriminate.
Qed.

Lemma rstrip_empty_iff s : rstrip s = "" <-> all_space s = true.
Proof.
  induction s as [|c r IH]; simpl.
  - tauto.
  - destruct (rstrip r) eqn:E.
    + destruct (isspace c); simpl.
      * tauto.
      * split; discriminate.
    + split; [discriminate|].
      intros H. apply andb_true_iff in H. destruct H as [_ H].
      apply IH in H. discriminate.
Qed.

Lemma all_space_lstrip s : all_space (lstrip s) = all_space s.
Proof.
  induction s as [|c r IH]; simpl; [reflexivity|].
  destruct (isspace c) eqn:E; simpl; [exact IH | now rewrite E].
Qed.

Lemma strip_empty_iff s : strip s = "" <-> all_space s = true.
Proof.
  unfold strip. rewrite rstrip_empty_iff, all_space_lstrip. tauto.
Qed.

Lemma truthy_false_iff s : truthy s = false <-> s = "".
Proof. destruct s; simpl; split; congruence. Qed.

Lemma lstrip_first s c : first_char (lstrip s) = Some c -> isspace c = false.
Proof.
  induction s as [|a r IH]; simpl; [discriminate|].
  destruct (isspace a) eqn:E; [exact IH|].
  simpl. intros H. injection H as <-. exact E.
Qed.

Lemma rstrip_last s c : last_char (rstrip s) = Some c -> isspace c = false.
Proof.
  induction s as [|a r IH]; simpl; [discriminate|].
  destruct (rstrip r) as [|b t] eqn:E.
  - destruct (isspace a) eqn:Ea; simpl; [discriminate|].
    intros H. injection H as <-. exact Ea.
  - simpl. exact IH.
Qed.

Lemma rstrip_first s c :
  first_char s = Some c -> isspace c = false -> first_char (rstrip s) = Some c.
Proof.
  destruct s as [|a r]; simpl; [discriminate|].
  intros H Hc. injection H as ->.
  destruct (rstrip r); [now rewrite Hc | reflexivity].
Qed.

Lemma strip_first s c : first_char (strip s) = Some c -> isspace c = false.
Proof.
  unfold strip. destruct (first_char (lstrip s)) as [a|] eqn:E.
  - pose proof (lstrip_first _ _ E) as Ha.
    rewrite (rstrip_first _ _ E Ha). intros H. injection H as <-. exact Ha.
  - destruct (lstrip s); [simpl; discriminate | discriminate].
Qed.

Lemma strip_last s c : last_char (strip s) = Some c -> isspace c = false.
Proof. apply rstrip_last. Qed.

Lemma strip_trimmed s : trimmed (strip s).
Proof. split; intros c; [apply strip_first | apply strip_last]. Qed.

Lemma blank_iff s : blank s <-> all_space s = true.
Proof. apply strip_empty_iff. Qed.

Lemma truthy_strip_false s : truthy (strip s) = false <-> blank s.
Proof. apply truthy_false_iff. Qed.

Lemma truthy_strip_true s : truthy (strip s) = true <-> ~ blank s.
Proof.
  unfold blank. destruct (strip s); simpl; split; congruence.
Qed.

End PyStrFacts.

(** ** Dates and their text *)

Module PyDateFacts.
Import PyDate.
Local Open Scope Z_scope.

Lemma digit_val_char c n :
  digit_val c = Some n -> 0 <= n <= 9 /\ digit_char n = c.
Proof.
  destruct c as [b0 b1 b2 b3 b4 b5 b6 b7].
  destruct b0, b1, b2, b3, b4, b5, b6, b7; vm_compute;
    intros H; try discriminate H; injection H as <-;
    (split; [split; discriminate | reflexivity]).
Qed.

Lemma digit_char_val n : 0 <= n <= 9 -> digit_val (digit_char n) = Some n.
Proof.
  intros H. destruct n as [|p|p]; [reflexivity| |lia].
  do 4 (try destruct p as [p|p|]); try lia; reflexivity.
Qed.

Lemma num2_pad2 n : 0 <= n <= 99 ->
  num2 (digit_char (n / 10 mod 10)) (digit_char (n mod 10)) = Some n.
Proof.
  intros H. unfold num2.
  rewrite !digit_char_val by (Z.div_mod_to_equations; lia).
  f_equal. Z.div_mod_to_equations. lia.
Qed.

Lemma num4_pad4 n : 0 <= n <= 9999 ->
  num4 (digit_char (n / 1000 mod 10)) (digit_char (n / 100 mod 10))
       (digit_char (n / 10 mod 10)) (digit_char (n mod 10)) = Some n.
Proof.
  intros H. unfold num4, num2.
  rewrite !digit_char_val by (Z.div_mod_to_equations; lia).
  f_equal. Z.div_mod_to_equations. lia.
Qed.

Lemma pad2_num2 a b n : num2 a b = Some n ->
  0 <= n <= 99 /\ pad2 n = String a (String b "").
Proof.
  unfold num2.
  destruct (digit_val a) as [x|] eqn:Ea; [|discriminate].
  destruct (digit_val b) as [y|] eqn:Eb; [|discriminate].
  intros H. assert (Hn : n = 10 * x + y) by congruence. subst n. clear H.
  apply digit_val_char in Ea, Eb. destruct Ea as [Hx <-], Eb as [Hy <-].
  split; [lia|]. unfold pad2.
  replace ((10 * x + y) / 10 mod 10) with x by (Z.div_mod_to_equations; lia).
  replace ((10 * x + y) mod 10) with y by (Z.div_mod_to_equations; lia).
  reflexivity.
Qed.

Lemma pad4_num4 a b c d n : num4 a b c d = Some n ->
  0 <= n <= 9999
  /\ pad4 n = String a (String b (String c (String d ""))).
Proof.
  unfold num4.
  destruct (num2 a b) as [x|] eqn:Ex; [|discriminate].
  destruct (num2 c d) as [y|] eqn:Ey; [|discriminate].
  intros H. assert (Hn : n = 100 * x + y) by congruence. subst n. clear H.
  unfold num2 in Ex, Ey.
  destruct (digit_val a) as [xa|] eqn:Ea; [|discriminate].
  destruct (digit_val b) as [xb|] eqn:Eb; [|discriminate].
  destruct (digit_val c) as [xc|] eqn:Ec; [|discriminate].
  destruct (digit_val d) as [xd|] eqn:Ed; [|discriminate].
  assert (Hx : x = 10 * xa + xb) by congruence.
  assert (Hy : y = 10 * xc + xd) by congruence. subst x y. clear Ex Ey.
  apply digit_val_char in Ea, Eb, Ec, Ed.
  destruct Ea as [Ha <-], Eb as [Hb <-], Ec as [Hc <-], Ed as [Hd <-].
  split; [lia|]. unfold pad4, pad2.
  set (n := 100 * (10 * xa + xb) + (10 * xc + xd)).
  replace (n / 1000 mod 10) with xa by (subst n; Z.div_mod_to_equations; lia).
  replace (n / 100 mod 10) with xb by (subst n; Z.div_mod_to_equations; lia).
  replace (n / 10 mod 10) with xc by (subst n; Z.div_mod_to_equations; lia).
  replace (n mod 10) with xd by (subst n; Z.div_mod_to_equations; lia).
  reflexivity.
Qed.

Lemma valid_bounds d : valid d = true ->
  1 <= year d <= 9999 /\ 1 <= month d <= 12 /\ 1 <= day d <= 31.
Proof.
  unfold valid. intros H.
  repeat (apply andb_true_iff in H; destruct H as [H ?]).
  assert (days_in_month (year d) (month d) <= 31).
  { unfold days_in_month.
    destruct (month d) as [|p|p]; try lia.
    do 4 (try destruct p as [p|p|]); try lia;
      destruct (is_leap (year d)); lia. }
  lia.
Qed.

(** The strict reader gives the date back from its text. *)
Lemma from_dashed_isoformat d :
  valid d = true -> from_dashed (isoformat d) = Some d.
Proof.
  intros Hv. destruct (valid_bounds d Hv) as (Hy & Hm & Hd).
  destruct d as [y m dd]; simpl in *.
  unfold isoformat, pad4, pad2; simpl.
  unfold from_dashed. simpl.
  change (Ascii.eqb "-" "-") with true. simpl.
  rewrite num4_pad4 by lia. rewrite !num2_pad2 by lia.
  simpl. now rewrite Hv.
Qed.

(** A text that the strict reader accepts is the text of its date. *)
Lemma isoformat_from_dashed s d :
  from_dashed s = Some d -> valid d = true /\ isoformat d = s.
Proof.
  unfold from_dashed.
  do 10 (destruct s as [|? s]; [discriminate|]).
  destruct s; [|discriminate].
  destruct (Ascii.eqb a3 "-") eqn:E1; [|discriminate].
  destruct (Ascii.eqb a6 "-") eqn:E2; [|discriminate].
  simpl.
  apply Ascii.eqb_eq in E1, E2. subst a3 a6.
  destruct (num4 a a0 a1 a2) as [y|] eqn:Ey; [|discriminate].
  destruct (num2 a4 a5) as [m|] eqn:Em; [|discriminate].
  destruct (num2 a7 a8) as [dd|] eqn:Ed; [|discriminate].
  destruct (valid (mkdate y m dd)) eqn:Ev; [|discriminate].
  intros H. injection H as <-. split; [exact Ev|].
  apply pad4_num4 in Ey. apply pad2_num2 in Em, Ed.
  destruct Ey as [_ Ey], Em as [_ Em], Ed as [_ Ed].
  unfold isoformat. cbn [year month day]. rewrite Ey, Em, Ed. reflexivity.
Qed.

Lemma iso_date_text_iff s :
  iso_date_text s <-> exists d, from_dashed s = Some d.
Proof.
  split.
  - intros (d & Hv & ->). exists d. now apply from_dashed_isoformat.
  - intros (d & H). apply isoformat_from_dashed in H.
    destruct H as [Hv <-]. now exists d.
Qed.

(** *** The reader of the interpreter *)

Lemma digit_is_ascii c n : digit_val c = Some n -> (code c <? 128) = true.
Proof.
  unfold digit_val.
  destruct ((48 <=? code c) && (code c <=? 57)) eqn:E; [|discriminate].
  intros _. apply andb_true_iff in E. destruct E as [_ E].
  apply Z.leb_le in E. apply Z.ltb_lt. lia.
Qed.

Lemma digit_is_not_a_letter c n (l : ascii) :
  digit_val c = Some n -> digit_val l = None -> Ascii.eqb c l = false.
Proof.
  intros Hc Hl. destruct (Ascii.eqb_spec c l) as [->|]; congruence.
Qed.

(** What the C reader does with ten bytes in the extended form. *)
Lemma parse_dashed_bytes c0 c1 c2 c3 c5 c6 c8 c9 y m d :
  num4 c0 c1 c2 c3 = Some y -> num2 c5 c6 = Some m -> num2 c8 c9 = Some d ->
  let b := String c0 (String c1 (String c2 (String c3 (String "-"
             (String c5 (String c6 (String "-"
               (String c8 (String c9 ""))))))))) in
  utf8 b = b /\ parse_isoformat_date b 10 = Some (y, m, d).
Proof.
  unfold num4, num2.
  destruct (digit_val c0) as [x0|] eqn:E0; [|discriminate].
  destruct (digit_val c1) as [x1|] eqn:E1; [|discriminate].
  destruct (digit_val c2) as [x2|] eqn:E2; [|discriminate].
  destruct (digit_val c3) as [x3|] eqn:E3; [|discriminate].
  destruct (digit_val c5) as [x5|] eqn:E5; [|discriminate].
  destruct (digit_val c6) as [x6|] eqn:E6; [|discriminate].
  destruct (digit_val c8) as [x8|] eqn:E8; [|discriminate].
  destruct (digit_val c9) as [x9|] eqn:E9; [|discriminate].
  intros Hy Hm Hd.
  assert (y = 100 * (10 * x0 + x1) + (10 * x2 + x3)) by congruence.
  assert (m = 10 * x5 + x6) by congruence.
  assert (d = 10 * x8 + x9) by congruence.
  subst y m d. clear Hy Hm Hd. split.
  - cbn [utf8].
    rewrite (digit_is_ascii _ _ E0), (digit_is_ascii _ _ E1),
      (digit_is_ascii _ _ E2), (digit_is_ascii _ _ E3),
      (digit_is_ascii _ _ E5), (digit_is_ascii _ _ E6),
      (digit_is_ascii _ _ E8), (digit_is_ascii _ _ E9).
    reflexivity.
  - unfold parse_isoformat_date.
    cbn [parse_digits byte_at String.get]. rewrite E0, E1, E2, E3.
    cbn [byte_at String.get]. change (Ascii.eqb "-" "-") with true.
    cbn [byte_at String.get].
    rewrite (digit_is_not_a_letter c5 x5 "W" E5 eq_refl).
    cbn [parse_digits byte_at String.get]. rewrite E5, E6.
    cbn [byte_at String.get andb negb]. change (Ascii.eqb "-" "-") with true.
    cbn [andb negb parse_digits byte_at String.get]. rewrite E8, E9.
    replace (10 * (10 * (10 * (10 * 0 + x0) + x1) + x2) + x3)
      with (100 * (10 * x0 + x1) + (10 * x2 + x3)) by lia.
    replace (10 * (10 * 0 + x5) + x6) with (10 * x5 + x6) by lia.
    replace (10 * (10 * 0 + x8) + x9) with (10 * x8 + x9) by lia.
    reflexivity.
Qed.

(** The reader of the interpreter accepts what the strict reader accepts,
    as the same date. *)
Lemma fromisoformat_from_dashed s d :
  from_dashed s = Some d -> fromisoformat s = Some d.
Proof.
  unfold from_dashed.
  do 10 (destruct s as [|? s]; [discriminate|]).
  destruct s; [|discriminate].
  destruct (Ascii.eqb a3 "-") eqn:E1; [|discriminate].
  destruct (Ascii.eqb a6 "-") eqn:E2; [|discriminate].
  cbn [andb].
  apply Ascii.eqb_eq in E1, E2. subst a3 a6.
  destruct (num4 a a0 a1 a2) as [y|] eqn:Ey; [|discriminate].
  destruct (num2 a4 a5) as [m|] eqn:Em; [|discriminate].
  destruct (num2 a7 a8) as [dd|] eqn:Ed; [|discriminate].
  intros H.
  destruct (parse_dashed_bytes _ _ _ _ _ _ _ _ _ _ _ Ey Em Ed) as [Hu Hp].
  unfold fromisoformat. rewrite Hu.
  change (admitted_length _) with true. cbv iota.
  change (String.length _) with 10%nat.
  rewrite Hp. exact H.
Qed.

(** Parsing the text of a date gives the date back. *)
Lemma fromisoformat_isoformat d :
  valid d = true -> fromisoformat (isoformat d) = Some d.
Proof.
  intros Hv. apply fromisoformat_from_dashed. now apply from_dashed_isoformat.
Qed.

(** Whatever the reader returns went through the check of the
    constructor. *)
Lemma fromisoformat_valid s d : fromisoformat s = Some d -> valid d = true.
Proof.
  unfold fromisoformat.
  destruct (admitted_length _); [|discriminate].
  destruct (parse_isoformat_date _ _) as [[[y m] dd]|]; [|discriminate].
  destruct (valid (mkdate y m dd)) eqn:Ev; [|discriminate].
  intros H. injection H as <-. exact Ev.
Qed.

(** Only texts of 7, 8 or 10 bytes are read. *)
Lemma fromisoformat_length s d :
  fromisoformat s = Some d ->
  admitted_length (String.length (utf8 s)) = true.
Proof.
  unfold fromisoformat.
  destruct (admitted_length _); [reflexivity|discriminate].
Qed.

Lemma fromisoformat_nonempty s d : fromisoformat s = Some d -> s <> "".
Proof.
  intros H ->. discriminate H.
Qed.

(** The text that is bound for an accepted text is the accepted text
    exactly when that text is in the extended form. *)
Lemma isoformat_fixes_dashed s d :
  fromisoformat s = Some d -> (isoformat d = s <-> iso_date_text s).
Proof.
  intros H. split.
  - intros <-. exists d. split; [|reflexivity].
    now apply fromisoformat_valid in H.
  - intros (d' & Hv & ->).
    rewrite (fromisoformat_isoformat _ Hv) in H. congruence.
Qed.

Lemma iso_date_text_nonempty s : iso_date_text s -> s <> "".
Proof.
  intros (d & _ & ->). unfold isoformat, pad4. simpl. discriminate.
Qed.

End PyDateFacts.

(** ** The validation block *)

Section ValidatorFacts.

Context {D : Doubles}.

Lemma check_required_app e f :
  check_required e f = (e ++ check_required [] f)%list.
Proof.
  unfold check_required, required_fields. simpl.
  repeat match goal with
         | |- context [PyStr.truthy ?s] => destruct (PyStr.truthy s)
         end;
    simpl; rewrite <- ?app_assoc; simpl; rewrite ?app_nil_r; reflexivity.
Qed.

Lemma check_calibration_app e f :
  check_calibration e f
  = ((e ++ fst (check_calibration [] f))%list, snd (check_calibration [] f)).
Proof.
  unfold check_calibration.
  destruct (PyStr.truthy _); [destruct (PyDate.fromisoformat _)|];
    simpl; rewrite ?app_nil_r; reflexivity.
Qed.

Lemma check_reading_app msg raw e :
  check_reading msg raw e
  = ((e ++ fst (check_reading msg raw []))%list,
     snd (check_reading msg raw [])).
Proof.
  unfold check_reading.
  destruct (PyStr.truthy _); [destruct (float_of_str _)|];
    simpl; rewrite ?app_nil_r; reflexivity.
Qed.

Lemma check_follow_up_app e f :
  check_follow_up e f = (e ++ check_follow_up [] f)%list.
Proof.
  unfold check_follow_up.
  destruct (_ && _); simpl; rewrite ?app_nil_r; reflexivity.
Qed.

(** The messages of one submission, rule by rule, in the order of the
    script. *)
Lemma errors_validate f :
  errors (validate f)
  = (check_required [] f
     ++ fst (check_calibration [] f)
     ++ fst (check_reading temperature_message (temperature_raw f) [])
     ++ fst (check_reading pressure_message (pressure_raw f) [])
     ++ check_follow_up [] f)%list.
Proof.
  unfold validate.
  rewrite (check_calibration_app (check_required [] f)).
  rewrite (check_reading_app temperature_message).
  rewrite (check_reading_app pressure_message).
  simpl. rewrite check_follow_up_app.
  rewrite <- !app_assoc. reflexivity.
Qed.

Lemma calibration_due_value_validate f :
  calibration_due_value (validate f) = snd (check_calibration [] f).
Proof.
  unfold validate.
  rewrite (check_calibration_app (check_required [] f)).
  rewrite (check_reading_app temperature_message).
  rewrite (check_reading_app pressure_message).
  reflexivity.
Qed.

Lemma temperature_value_validate f :
  temperature_value (validate f)
  = snd (check_reading temperature_message (temperature_raw f) []).
Proof.
  unfold validate.
  rewrite (check_calibration_app (check_required [] f)).
  rewrite (check_reading_app temperature_message).
  rewrite (check_reading_app pressure_message).
  reflexivity.
Qed.

Lemma pressure_value_validate f :
  pressure_value (validate f)
  = snd (check_reading pressure_message (pressure_raw f) []).
Proof.
  unfold validate.
  rewrite (check_calibration_app (check_required [] f)).
  rewrite (check_reading_app temperature_message).
  rewrite (check_reading_app pressure_message).
  reflexivity.
Qed.

Lemma calibration_part f :
  fst (check_calibration [] f) = []
  \/ fst (check_calibration [] f) = [calibration_message].
Proof.
  unfold check_calibration.
  destruct (PyStr.truthy _); [destruct (PyDate.fromisoformat _)|]; auto.
Qed.

Lemma reading_part msg raw :
  fst (check_reading msg raw []) = []
  \/ fst (check_reading msg raw []) = [msg].
Proof.
  unfold check_reading.
  destruct (PyStr.truthy _); [destruct (float_of_str _)|]; auto.
Qed.

Lemma follow_up_part f :
  check_follow_up [] f = [] \/ check_follow_up [] f = [follow_up_message].
Proof. unfold check_follow_up. destruct (_ && _); auto. Qed.

Lemma required_part f m :
  In m (check_required [] f) ->
  exists label value,
    In (label, value) (required_fields f) /\ m = required_message label
    /\ PyStr.blank value.
Proof.
  unfold check_required, required_fields. simpl.
  destruct (PyStr.truthy (PyStr.strip (facility_name f))) eqn:E1;
  destruct (PyStr.truthy (PyStr.strip (nurse_name f))) eqn:E2;
  destruct (PyStr.truthy (PyStr.strip (machine_id f))) eqn:E3;
  destruct (PyStr.truthy (PyStr.strip (room_location f))) eqn:E4;
  simpl; intros H;
  repeat (destruct H as [H|H]; [subst m|]); try contradiction;
  rewrite ?PyStrFacts.truthy_strip_false in *;
  eauto 12 using in_eq, in_cons.
Qed.

Lemma count_occ_one_message (l : list string) (m msg : string) :
  l = [] \/ l = [msg] -> m <> msg -> count_occ string_dec l m = 0.
Proof.
  intros [-> | ->] Hm; simpl; [reflexivity|].
  destruct (string_dec msg m); congruence.
Qed.

Lemma not_in_one_message (l : list string) (m msg : string) :
  l = [] \/ l = [msg] -> m <> msg -> ~ In m l.
Proof.
  intros [-> | ->] Hm; simpl; intuition congruence.
Qed.

End ValidatorFacts.

(** ** Required text fields *)

Section RequiredFields.

Context {D : Doubles}.

Lemma count_required_part f label value :
  In (label, value) (required_fields f) ->
  count_occ string_dec (check_required [] f) (required_message label)
  = if PyStr.truthy (PyStr.strip value) then 0 else 1.
Proof.
  unfold check_required, required_fields. simpl.
  intros H.
  repeat (destruct H as [H|H]; [injection H as <- <-|]); try contradiction;
  destruct (PyStr.truthy (PyStr.strip (facility_name f)));
  destruct (PyStr.truthy (PyStr.strip (nurse_name f)));
  destruct (PyStr.truthy (PyStr.strip (machine_id f)));
  destruct (PyStr.truthy (PyStr.strip (room_location f)));
  reflexivity.
Qed.

Lemma required_message_not_other label value f :
  In (label, value) (required_fields f) ->
  required_message label <> calibration_message
  /\ required_message label <> temperature_message
  /\ required_message label <> pressure_message
  /\ required_message label <> follow_up_message.
Proof.
  unfold required_fields. simpl. intros H.
  repeat (destruct H as [H|H]; [injection H as <- <-|]); try contradiction;
    repeat split; discriminate.
Qed.

(** One required field: its message occurs once when the value is blank,
    and not at all otherwise. *)
Lemma required_field_reported (f : Form) (label value : string) :
  In (label, value) (required_fields f) ->
  (PyStr.blank value ->
     errors (validate f) <> []
     /\ count_occ string_dec (errors (validate f)) (required_message label)
        = 1)
  /\ (~ PyStr.blank value ->
     count_occ string_dec (errors (validate f)) (required_message label)
     = 0).
Proof.
  intros Hin.
  destruct (required_message_not_other _ _ _ Hin) as (Hc & Ht & Hp & Hf).
  assert (Hcount :
    count_occ string_dec (errors (validate f)) (required_message label)
    = if PyStr.truthy (PyStr.strip value) then 0 else 1).
  { rewrite errors_validate, !count_occ_app.
    rewrite (count_required_part _ _ _ Hin).
    rewrite (count_occ_one_message _ _ _ (calibration_part f) Hc).
    rewrite (count_occ_one_message _ _ _ (reading_part _ _) Ht).
    rewrite (count_occ_one_message _ _ _ (reading_part _ _) Hp).
    rewrite (count_occ_one_message _ _ _ (follow_up_part f) Hf).
    lia. }
  split.
  - intros Hb. apply PyStrFacts.truthy_strip_false in Hb.
    rewrite Hb in Hcount. split; [|exact Hcount].
    intros E. rewrite E in Hcount. discriminate.
  - intros Hb. apply PyStrFacts.truthy_strip_true in Hb.
    now rewrite Hb in Hcount.
Qed.

(** C1. Each of the four required text fields is checked on every
    submission, whatever the others hold: when [facility_name],
    [nurse_name], [machine_id] or [room_location] is blank after trimming,
    validation fails and the message of that field (["Facility name is
    required."], ["Inspector name is required."], ["Equipment ID is
    required."], ["Location is required."]) occurs exactly once among the
    errors; when the field is not blank, its message does not occur. *)
Theorem required_text_fields_reported (f : Form) :
  let reported (value message : string) :=
    (PyStr.blank value ->
       errors (validate f) <> []
       /\ count_occ string_dec (errors (validate f)) message = 1)
    /\ (~ PyStr.blank value ->
        count_occ string_dec (errors (validate f)) message = 0) in
  reported (facility_name f) "Facility name is required."
  /\ reported (nurse_name f) "Inspector name is required."
  /\ reported (machine_id f) "Equipment ID is required."
  /\ reported (room_location f) "Location is required.".
Proof.
  cbv zeta.
  split; [|split; [|split]].
  - apply (required_field_reported f "Facility name" (facility_name f)).
    simpl. auto.
  - apply (required_field_reported f "Inspector name" (nurse_name f)).
    simpl. auto.
  - apply (required_field_reported f "Equipment ID" (machine_id f)).
    simpl. auto.
  - apply (required_field_reported f "Location" (room_location f)).
    simpl. auto.
Qed.

End RequiredFields.

(** ** The follow-up rule *)

Section FollowUp.

Context {D : Doubles}.

Lemma in_errors_iff f m :
  In m (errors (validate f)) <->
  In m (check_required [] f)
  \/ In m (fst (check_calibration [] f))
  \/ In m (fst (check_reading temperature_message (temperature_raw f) []))
  \/ In m (fst (check_reading pressure_message (pressure_raw f) []))
  \/ In m (check_follow_up [] f).
Proof. rewrite errors_validate, !in_app_iff. tauto. Qed.

Lemma follow_up_message_not_required f :
  ~ In follow_up_message (check_required [] f).
Proof.
  intros H. apply required_part in H.
  destruct H as (label & value & Hin & Hm & _).
  apply required_message_not_other in Hin. intuition congruence.
Qed.

(** C5. With the follow-up toggle on and the actions blank after trimming,
    validation fails with the message that asks for follow-up actions; with
    the toggle off that message is never emitted, whatever the actions
    hold. *)
Theorem follow_up_rule (f : Form) :
  (follow_up_required f = true ->
   PyStr.blank (follow_up_actions f) ->
   errors (validate f) <> [] /\ In follow_up_message (errors (validate f)))
  /\ (follow_up_required f = false ->
      ~ In follow_up_message (errors (validate f))).
Proof.
  split.
  - intros Hr Hb. apply PyStrFacts.truthy_strip_false in Hb.
    assert (Hin : In follow_up_message (errors (validate f))).
    { apply in_errors_iff. do 4 right.
      unfold check_follow_up. rewrite Hr, Hb. simpl. auto. }
    split; [|exact Hin].
    intros E. rewrite E in Hin. exact Hin.
  - intros Hr Hin. apply in_errors_iff in Hin.
    destruct Hin as [H|[H|[H|[H|H]]]].
    + exact (follow_up_message_not_required f H).
    + revert H. apply (not_in_one_message _ _ _ (calibration_part f)).
      discriminate.
    + revert H. apply (not_in_one_message _ _ _ (reading_part _ _)).
      discriminate.
    + revert H. apply (not_in_one_message _ _ _ (reading_part _ _)).
      discriminate.
    + unfold check_follow_up in H. rewrite Hr in H. exact H.
Qed.

End FollowUp.

(** ** The calibration due date *)

Section CalibrationDate.

Context {D : Doubles}.

Lemma calibration_message_only_from_its_rule f :
  In calibration_message (errors (validate f)) <->
  fst (check_calibration [] f) = [calibration_message].
Proof.
  rewrite in_errors_iff. split.
  - intros [H|[H|[H|[H|H]]]].
    + apply required_part in H.
      destruct H as (label & value & Hin & Hm & _).
      apply required_message_not_other in Hin. intuition congruence.
    + destruct (calibration_part f) as [E|E]; rewrite E in H;
        [contradiction | exact E].
    + exfalso. revert H.
      apply (not_in_one_message _ _ _ (reading_part _ _)). discriminate.
    + exfalso. revert H.
      apply (not_in_one_message _ _ _ (reading_part _ _)). discriminate.
    + exfalso. revert H.
      apply (not_in_one_message _ _ _ (follow_up_part f)). discriminate.
  - intros E. right. left. rewrite E. simpl. auto.
Qed.


End CalibrationDate.

(** ** The row that a payload writes *)

Section InsertedRow.

Context {D : Doubles}.

(** The payload binds every parameter of the insert statement, and the
    VALUES clause turns it into this row. *)
Lemma inserted_row_of_payload f v user_email time :
  Warehouse.inserted_row (insert_params (payload f v user_email)) time
  = Some
      {| Table.inspection_date :=
           Sql.to_date (PyDate.isoformat (inspection_date f));
         Table.facility_name := Some (PyStr.strip (facility_name f));
         Table.nurse_name := Some (PyStr.strip (nurse_name f));
         Table.machine_type := Some (machine_type f);
         Table.machine_id := Some (PyStr.strip (machine_id f));
         Table.room_location := Some (PyStr.strip (room_location f));
         Table.power_status := Some (power_status f);
         Table.alarms_functional :=
           Some (Sql.case_true (bool_to_str (alarms_functional f)));
         Table.calibration_due_date :=
           Sql.date_or_null (PyStr.or_else (calibration_due_value v) "");
         Table.calibration_confirmed :=
           Some (Sql.case_true (bool_to_str (calibration_confirmed f)));
         Table.temperature_celsius :=
           Sql.try_cast (Sql.nullif (temperature_value v) "");
         Table.pressure_kpa :=
           Sql.try_cast (Sql.nullif (pressure_value v) "");
         Table.cleaning_status := Some (cleaning_status f);
         Table.issues_noted := Some (PyStr.strip (issues_noted f));
         Table.follow_up_required :=
           Some (Sql.case_true (bool_to_str (follow_up_required f)));
         Table.follow_up_actions := Some (PyStr.strip (follow_up_actions f));
         Table.user_email := Some (PyStr.or_else user_email "");
         Table.submitted_at := time |}.
Proof. reflexivity. Qed.

End InsertedRow.

(** ** Temperature and pressure *)

Section Readings.

Context {D : Doubles}.

Hypothesis str_of_float_nonempty : forall x, str_of_float x <> "".
Hypothesis try_cast_str_of_float :
  forall x, try_cast_double (str_of_float x) = Some x.

Lemma reading_message_only_from_its_rule f :
  (In temperature_message (errors (validate f)) <->
   fst (check_reading temperature_message (temperature_raw f) [])
   = [temperature_message])
  /\ (In pressure_message (errors (validate f)) <->
      fst (check_reading pressure_message (pressure_raw f) [])
      = [pressure_message]).
Proof.
  split; rewrite in_errors_iff; split.
  - intros [H|[H|[H|[H|H]]]].
    + apply required_part in H.
      destruct H as (label & value & Hin & Hm & _).
      apply required_message_not_other in Hin. intuition congruence.
    + exfalso. revert H.
      apply (not_in_one_message _ _ _ (calibration_part f)). discriminate.
    + destruct (reading_part temperature_message (temperature_raw f))
        as [E|E]; rewrite E in H; [contradiction | exact E].
    + exfalso. revert H.
      apply (not_in_one_message _ _ _ (reading_part _ _)). discriminate.
    + exfalso. revert H.
      apply (not_in_one_message _ _ _ (follow_up_part f)). discriminate.
  - intros E. right. right. left. rewrite E. simpl. auto.
  - intros [H|[H|[H|[H|H]]]].
    + apply required_part in H.
      destruct H as (label & value & Hin & Hm & _).
      apply required_message_not_other in Hin. intuition congruence.
    + exfalso. revert H.
      apply (not_in_one_message _ _ _ (calibration_part f)). discriminate.
    + exfalso. revert H.
      apply (not_in_one_message _ _ _ (reading_part _ _)). discriminate.
    + destruct (reading_part pressure_message (pressure_raw f))
        as [E|E]; rewrite E in H; [contradiction | exact E].
    + exfalso. revert H.
      apply (not_in_one_message _ _ _ (follow_up_part f)). discriminate.
  - intros E. right. right. right. left. rewrite E. simpl. auto.
Qed.

Lemma stored_str_of_float x :
  Sql.try_cast (Sql.nullif (str_of_float x) "") = Some x.
Proof.
  unfold Sql.nullif.
  destruct (String.eqb_spec (str_of_float x) "") as [E|_].
  - now apply str_of_float_nonempty in E.
  - simpl. apply try_cast_str_of_float.
Qed.

Lemma check_reading_rule msg raw (errs : list string) :
  (In msg errs <-> fst (check_reading msg raw []) = [msg]) ->
  reading_rule raw msg errs
    (Sql.try_cast (Sql.nullif (snd (check_reading msg raw [])) "")).
Proof.
  intros Hin. unfold reading_rule.
  split; [intros Hb | split; [intros x Hb Hx | intros Hb Hx]];
    rewrite Hin; unfold check_reading.
  - apply PyStrFacts.truthy_strip_false in Hb. rewrite Hb.
    split; [discriminate | reflexivity].
  - apply PyStrFacts.truthy_strip_true in Hb. rewrite Hb, Hx.
    split; [discriminate | apply stored_str_of_float].
  - apply PyStrFacts.truthy_strip_true in Hb. rewrite Hb, Hx. reflexivity.
Qed.

(** The shape of the rule for the temperature and for the pressure, on
    any numeric library that prints a number as a non-empty text which the
    store's cast reads back: a text that is blank after trimming passes and
    is stored as NULL; a text that the library reads passes and the stored
    value is the number read; any other text fails with the numeric-format
    message of the field.  Whether Python's [float] and [str] and the
    warehouse's cast form such a library is a fact about binary floating
    point that this development does not settle. *)
Lemma readings_rule (f : Form) (user_email : option string) (time : Z) :
  exists r,
    Warehouse.inserted_row
      (insert_params (payload f (validate f) user_email)) time = Some r
    /\ reading_rule (temperature_raw f) temperature_message
         (errors (validate f)) (Table.temperature_celsius r)
    /\ reading_rule (pressure_raw f) pressure_message
         (errors (validate f)) (Table.pressure_kpa r).
Proof.
  eexists. split; [apply inserted_row_of_payload|].
  cbn [Table.temperature_celsius Table.pressure_kpa].
  rewrite temperature_value_validate, pressure_value_validate.
  destruct (reading_message_only_from_its_rule f) as [Ht Hp].
  split; apply check_reading_rule; assumption.
Qed.

End Readings.

Module DecimalReadingsFacts.
Import DecimalReadings.

Lemma print_nonempty n : print n <> "".
Proof.
  unfold print, NilZero.string_of_uint.
  destruct (Nat.to_uint n); discriminate.
Qed.

Lemma parse_print n : parse (print n) = Some n.
Proof.
  unfold parse, print.
  destruct (Nat.to_uint n) as [| | | | | | | | | |] eqn:E;
    try (rewrite NilZero.usu by discriminate; simpl;
         now rewrite <- E, Unsigned.of_to).
  rewrite <- (Unsigned.of_to n), E. reflexivity.
Qed.

End DecimalReadingsFacts.

(** ** Booleans at the store *)

Section Booleans.

Context {D : Doubles}.

(** C8. Writing a boolean as its lowercase literal with [bool_to_str] and
    reading it at the store with [lower(x) = 'true'] gives the boolean
    back; so the three boolean columns of the row that a payload writes
    hold the three toggles of the form. *)
Theorem boolean_round_trip :
  (forall b : bool, Sql.case_true (bool_to_str b) = b)
  /\ (forall (f : Form) (v : Validation) (user_email : option string)
             (time : Z),
      exists r,
        Warehouse.inserted_row
          (insert_params (payload f v user_email)) time = Some r
        /\ Table.alarms_functional r = Some (alarms_functional f)
        /\ Table.calibration_confirmed r = Some (calibration_confirmed f)
        /\ Table.follow_up_required r = Some (follow_up_required f)).
Proof.
  assert (H : forall b : bool, Sql.case_true (bool_to_str b) = b)
    by (intros []; reflexivity).
  split; [exact H|].
  intros f v user_email time. eexists.
  split; [apply inserted_row_of_payload|].
  cbn [Table.alarms_functional Table.calibration_confirmed
       Table.follow_up_required].
  now rewrite !H.
Qed.

End Booleans.

(** ** The journal of a run *)

Section Journal.

Context {W : Type}.
Variable client : WorkspaceClient W.
Variable cfg : Config.

Lemma poll_journal fuel : forall current j w r j' w',
  poll (spy client) fuel current (j, w) = Some (r, (j', w')) ->
  exists polls, j' = (j ++ polls)%list /\ Forall is_poll polls.
Proof.
  induction fuel as [|fuel IH]; intros current j w r j' w'; simpl.
  - destruct (in_progress (status current)); [discriminate|].
    intros H. injection H as _ <- _. exists []. now rewrite app_nil_r.
  - destruct (in_progress (status current)).
    + destruct (get_statement client (statement_id current) w)
        as [[next|msg] w1] eqn:E; simpl.
      * intros H. apply IH in H. destruct H as (polls & -> & Hp).
        exists (CallGetStatement (statement_id current) :: polls).
        rewrite <- app_assoc. split; [reflexivity|].
        constructor; [exact I | exact Hp].
      * intros H. injection H as _ <- _.
        exists [CallGetStatement (statement_id current)].
        split; [reflexivity|]. constructor; [exact I | constructor].
    + intros H. injection H as _ <- _. exists []. now rewrite app_nil_r.
Qed.

(** A completed [execute_sql] made one call of [execute_statement], with
    the statement and the parameters it was given, and then only polled. *)
Lemma execute_sql_journal fuel statement parameters j w r j' w' :
  execute_sql (spy client) cfg fuel statement parameters (j, w)
  = Some (r, (j', w')) ->
  exists polls,
    j' = (j ++ CallExecute (request_of cfg statement parameters) :: polls)%list
    /\ Forall is_poll polls.
Proof.
  unfold execute_sql. simpl. fold (request_of cfg statement parameters).
  destruct (execute_statement client (request_of cfg statement parameters) w)
    as [[response|msg] w1]; simpl.
  - destruct (poll (spy client) fuel response
                (j ++ [CallExecute (request_of cfg statement parameters)], w1)%list)
      as [[[current|msg] [j2 w2]]|] eqn:E; [| |discriminate].
    + apply poll_journal in E. destruct E as (polls & -> & Hp).
      destruct (not_succeeded (status current)); intros H;
        injection H as _ <- _; exists polls;
        rewrite <- app_assoc; auto.
    + apply poll_journal in E. destruct E as (polls & -> & Hp).
      intros H. injection H as _ <- _. exists polls.
      rewrite <- app_assoc; auto.
  - intros H. injection H as _ <- _. exists []. auto.
Qed.

Lemma insert_submission_journal fuel payload j w r j' w' :
  insert_submission (spy client) cfg fuel payload (j, w)
  = Some (r, (j', w')) ->
  exists polls,
    j' = (j ++ CallExecute
                 (request_of cfg (InsertChecks cfg) (insert_params payload))
            :: polls)%list
    /\ Forall is_poll polls.
Proof.
  unfold insert_submission, insert_statement.
  destruct (execute_sql (spy client) cfg fuel (InsertChecks cfg)
              (insert_params payload) (j, w))
    as [[[x|msg] [j2 w2]]|] eqn:E; [| |discriminate];
    intros H; injection H as _ <- _;
    exact (execute_sql_journal _ _ _ _ _ _ _ _ E).
Qed.

End Journal.

(** ** The insert statement and its parameters *)

Section InsertStatement.

Context {W : Type}.
Variable client : WorkspaceClient W.
Variable cfg : Config.

Lemma insert_params_items payload :
  map (fun p => (param_name p, param_value p)) (insert_params payload)
  = payload.
Proof.
  unfold insert_params. rewrite map_map. simpl.
  induction payload as [|[k v] rest IH]; simpl; [reflexivity|].
  now rewrite IH.
Qed.

(** C9. The text of the insert statement does not depend on the payload:
    two payloads give the same text, character for character, and that text
    is the fixed one with the named placeholders.  The values travel as the
    bound parameters, one per item of the payload with the item's name and
    value, in the one call of [execute_statement] that a completed
    [insert_submission] makes. *)
Theorem insert_statement_independent_of_values
    (payload1 payload2 : list (string * string)) (fuel : nat)
    (j : list Call) (w : W) :
  statement_text (insert_statement cfg payload1)
  = statement_text (insert_statement cfg payload2)
  /\ statement_text (insert_statement cfg payload1)
     = insert_statement_text cfg
  /\ map (fun p => (param_name p, param_value p)) (insert_params payload1)
     = payload1
  /\ match insert_submission (spy client) cfg fuel payload1 (j, w) with
     | Some (_, (j', _)) =>
         exists polls,
           j' = (j ++ CallExecute
                        (request_of cfg (insert_statement cfg payload1)
                           (insert_params payload1)) :: polls)%list
           /\ Forall is_poll polls
     | None => True
     end.
Proof.
  split; [reflexivity|]. split; [reflexivity|].
  split; [apply insert_params_items|].
  destruct (insert_submission (spy client) cfg fuel payload1 (j, w))
    as [[r [j' w']]|] eqn:E; [|exact I].
  exact (insert_submission_journal _ _ _ _ _ _ _ _ _ E).
Qed.

End InsertStatement.

(** ** Validation comes before any call *)

Section NoPartialSuccess.

Context {D : Doubles} {W : Type}.
Variable client : WorkspaceClient W.
Variable cfg : Config.
Variable user_email : option string.

(** C2. When a rule fails, every collected message is shown, in order, and
    the run ends there: the client receives no call and the world is as it
    was.  A run that did call the client is a run whose error list was
    empty, and its first call is the insert with the payload as
    parameters. *)
Theorem failed_validation_makes_no_call
    (fuel : nat) (f : Form) (j : list Call) (w : W) :
  (errors (validate f) <> [] ->
   on_submit (spy client) cfg user_email fuel f (j, w)
   = Some (map st_error (errors (validate f)), false, (j, w)))
  /\ (forall shown flag j' w',
      on_submit (spy client) cfg user_email fuel f (j, w)
      = Some (shown, flag, (j', w')) ->
      j' <> j ->
      errors (validate f) = []
      /\ exists polls,
           j' = (j ++ CallExecute
                        (request_of cfg (InsertChecks cfg)
                           (insert_params
                              (payload f (validate f) user_email)))
                   :: polls)%list
           /\ Forall is_poll polls).
Proof.
  unfold on_submit. split.
  - destruct (errors (validate f)); [congruence | reflexivity].
  - intros shown flag j' w'.
    destruct (errors (validate f)) as [|e es].
    + destruct (insert_submission (spy client) cfg fuel
                  (payload f (validate f) user_email) (j, w))
        as [[[x|msg] [j2 w2]]|] eqn:E; [| |discriminate];
        intros H _; injection H as _ _ <- _;
        (split; [reflexivity|]);
        exact (insert_submission_journal _ _ _ _ _ _ _ _ _ E).
    + intros H Hj. injection H as _ _ <- _. congruence.
Qed.

End NoPartialSuccess.

(** ** What reaches the store *)

Section StoredText.

Context {D : Doubles}.
Variable cfg : Config.
Variable user_email : option string.

Lemma warehouse_insert fuel payload (s : Warehouse.store) r :
  Warehouse.outage s = None ->
  Warehouse.inserted_row (insert_params payload) (Warehouse.now s) = Some r ->
  insert_submission Warehouse.client cfg fuel payload s
  = Some (Returned tt,
          Warehouse.tick
            (Warehouse.with_rows s (Warehouse.rows s ++ [r])%list)).
Proof.
  intros Ho Hr.
  unfold insert_submission, execute_sql, insert_statement. simpl.
  unfold Warehouse.run. rewrite Ho. simpl. rewrite Hr.
  destruct fuel; reflexivity.
Qed.

(** C10. A submission that passes validation, on a store within reach,
    appends one row, and the six free-text columns of that row hold the
    trimmed raw inputs: no whitespace at either end reaches the store. *)
Theorem trimmed_text_reaches_store
    (fuel : nat) (f : Form) (s : Warehouse.store) :
  errors (validate f) = [] ->
  Warehouse.outage s = None ->
  exists r,
    on_submit Warehouse.client cfg user_email fuel f s
    = Some ([st_success "Inspection submitted successfully."], true,
            Warehouse.tick
              (Warehouse.with_rows s (Warehouse.rows s ++ [r])%list))
    /\ Table.facility_name r = Some (PyStr.strip (facility_name f))
    /\ Table.nurse_name r = Some (PyStr.strip (nurse_name f))
    /\ Table.machine_id r = Some (PyStr.strip (machine_id f))
    /\ Table.room_location r = Some (PyStr.strip (room_location f))
    /\ Table.issues_noted r = Some (PyStr.strip (issues_noted f))
    /\ Table.follow_up_actions r = Some (PyStr.strip (follow_up_actions f))
    /\ (forall text,
          In (Some text)
             [Table.facility_name r; Table.nurse_name r; Table.machine_id r;
              Table.room_location r; Table.issues_noted r;
              Table.follow_up_actions r] ->
          PyStr.trimmed text).
Proof.
  intros He Ho. eexists. split.
  - unfold on_submit. rewrite He.
    rewrite (warehouse_insert fuel _ s _ Ho
               (inserted_row_of_payload f (validate f) user_email _)).
    reflexivity.
  - cbn [Table.facility_name Table.nurse_name Table.machine_id
         Table.room_location Table.issues_noted Table.follow_up_actions].
    repeat (split; [reflexivity|]).
    intros text H. simpl in H.
    repeat (destruct H as [H|H];
            [injection H as <-; apply PyStrFacts.strip_trimmed|]).
    contradiction.
Qed.

End StoredText.

(** ** Ordering and limiting at the store *)

Section Selection.

Context {D : Doubles}.

Lemma place_perm r l : Permutation (r :: l) (Warehouse.place r l).
Proof.
  induction l as [|x rest IH]; simpl; [reflexivity|].
  destruct (Table.submitted_at x <? Table.submitted_at r)%Z;
    [reflexivity|].
  rewrite perm_swap. now constructor.
Qed.

Lemma order_by_perm l :
  Permutation l (Warehouse.order_by_submitted_at_desc l).
Proof.
  induction l as [|x rest IH]; simpl; [reflexivity|].
  rewrite <- place_perm. now constructor.
Qed.

Lemma place_newest_first r l :
  Warehouse.newest_first l -> Warehouse.newest_first (Warehouse.place r l).
Proof.
  unfold Warehouse.newest_first.
  induction l as [|x rest IH]; simpl; intros H.
  - repeat constructor.
  - destruct (Z.ltb_spec (Table.submitted_at x) (Table.submitted_at r))
      as [Hlt|Hge].
    + constructor; [exact H|].
      inversion H as [|? ? Hs Hall]; subst.
      constructor; [lia|].
      eapply Forall_impl; [|exact Hall]. simpl. intros; lia.
    + inversion H as [|? ? Hs Hall]; subst.
      constructor; [apply IH; exact Hs|].
      eapply Permutation_Forall; [apply place_perm|].
      constructor; [lia | exact Hall].
Qed.

Lemma order_by_newest_first l :
  Warehouse.newest_first (Warehouse.order_by_submitted_at_desc l).
Proof.
  induction l as [|x rest IH]; simpl.
  - constructor.
  - now apply place_newest_first.
Qed.

Lemma firstn_newest_first n l :
  Warehouse.newest_first l -> Warehouse.newest_first (firstn n l).
Proof.
  unfold Warehouse.newest_first. revert l.
  induction n as [|n IH]; intros l H; simpl; [constructor|].
  destruct l as [|x rest]; [constructor|].
  inversion H as [|? ? Hs Hall]; subst.
  constructor; [now apply IH|].
  rewrite Forall_forall in *. intros y Hy. apply Hall.
  rewrite <- (firstn_skipn n rest). apply in_or_app. now left.
Qed.

(** The rows that the query selects: at most [limit] of them, newest first,
    and they are the first rows of the table put in that order. *)
Lemma selected_spec limit l :
  Warehouse.newest_first (Warehouse.selected limit l)
  /\ (length (Warehouse.selected limit l) <= Z.to_nat limit)%nat
  /\ exists ordered,
       Permutation l ordered /\ Warehouse.newest_first ordered
       /\ Warehouse.selected limit l = firstn (Z.to_nat limit) ordered.
Proof.
  unfold Warehouse.selected. split; [|split].
  - apply firstn_newest_first, order_by_newest_first.
  - apply firstn_le_length.
  - exists (Warehouse.order_by_submitted_at_desc l).
    auto using order_by_perm, order_by_newest_first.
Qed.

End Selection.

(** ** The engine on the two statements of the page *)

Module EngineFacts.
Import Engine.

Lemma scan_app st a b : scan st (a ++ b) = scan (scan st a) b.
Proof.
  revert st. induction a as [|c a IH]; intros st; simpl; [reflexivity|].
  apply IH.
Qed.

Lemma word_char_not_blank c : is_word_char c = true -> is_blank c = false.
Proof.
  destruct c as [b0 b1 b2 b3 b4 b5 b6 b7].
  destruct b0, b1, b2, b3, b4, b5, b6, b7; vm_compute; congruence.
Qed.

Lemma snoc_append a c w : (snoc a c ++ w = a ++ String c w)%string.
Proof.
  unfold snoc. induction a as [|x a IH]; simpl; [reflexivity|].
  now rewrite IH.
Qed.

Lemma scan_in_word toks w : forall a,
  all_word_chars w = true ->
  scan (toks, InWord a) w = (toks, InWord (a ++ w)).
Proof.
  induction w as [|c w IH]; intros a H; simpl.
  - f_equal. f_equal. induction a as [|x a IHa]; simpl; congruence.
  - simpl in H. apply andb_true_iff in H. destruct H as [Hc Hw].
    rewrite Hc, (IH _ Hw), snoc_append. reflexivity.
Qed.

(** A plain name between two tokens is read as one word. *)
Lemma scan_word toks w :
  plain w = true -> scan (toks, Between) w = (toks, InWord w).
Proof.
  unfold plain. destruct w as [|c w]; [discriminate|]. simpl.
  intros H. apply andb_true_iff in H. destruct H as [Hc Hw].
  unfold start. rewrite (word_char_not_blank _ Hc), Hc.
  now rewrite (scan_in_word _ _ _ Hw).
Qed.

(** *** Numbers as [str] prints them *)

Lemma digits_are_word_chars d :
  all_word_chars (NilEmpty.string_of_uint d) = true.
Proof. induction d; simpl; auto. Qed.

Lemma str_of_int_plain z : (0 <= z)%Z -> plain (PyStr.str_of_int z) = true.
Proof.
  intros Hz. unfold PyStr.str_of_int.
  destruct z as [|p|p]; [reflexivity| |lia].
  simpl. unfold NilZero.string_of_uint, plain.
  pose proof (DecimalPos.Unsigned.to_uint_nonnil p) as Hn.
  pose proof (digits_are_word_chars (Pos.to_uint p)) as Hd.
  destruct (Pos.to_uint p); try congruence; exact Hd.
Qed.

Lemma number_str_of_int z : (0 <= z)%Z -> number (PyStr.str_of_int z) = Some z.
Proof.
  intros Hz. unfold number, PyStr.str_of_int.
  destruct z as [|p|p]; [reflexivity| |lia].
  rewrite NilZero.isi.
  - simpl. f_equal. apply (DecimalZ.of_to (Z.pos p)).
  - simpl. intros H. injection H as H.
    now apply (DecimalPos.Unsigned.to_uint_nonnil p).
  - discriminate.
Qed.

Lemma str_of_int_negative z :
  (z < 0)%Z -> PyStr.str_of_int z = String "-" (PyStr.str_of_int (- z)).
Proof.
  intros Hz. destruct z as [|p|p]; try lia. reflexivity.
Qed.

(** *** Reading the two texts *)

(** Runs the scanner over a piece of text that is written out. *)
Ltac scan_literal :=
  match goal with
  | |- context [scan (?toks, ?p) ?lit] =>
      let v := eval vm_compute in (scan (toks, p) lit) in
      replace (scan (toks, p) lit) with v by (vm_compute; reflexivity)
  end.

Ltac scan_name H :=
  rewrite (scan_word _ _ H); scan_literal.

Lemma parse_recent_query cfg limit :
  plain_names cfg ->
  parse_text (recent_query_text cfg limit)
  = Some (Select
            {| s_columns :=
                 [ "inspection_date"; "facility_name"; "machine_type";
                   "machine_id"; "power_status"; "follow_up_required";
                   "submitted_at"; "user_email" ];
               s_from := table_of cfg;
               s_order := Some ("submitted_at", true);
               s_limit :=
                 Some ((limit <? 0)%Z, PyStr.str_of_int (Z.abs limit)) |}).
Proof.
  intros (Hc & Hs & Ht).
  assert (Hn : plain (PyStr.str_of_int (Z.abs limit)) = true)
    by (apply str_of_int_plain; lia).
  unfold parse_text, tokens, recent_query_text, table_path.
  destruct (Z.ltb_spec limit 0) as [Hl|Hl].
  - rewrite (str_of_int_negative _ Hl).
    replace (- limit)%Z with (Z.abs limit) by lia.
    change (String "-" (PyStr.str_of_int (Z.abs limit)))
      with ("-" ++ PyStr.str_of_int (Z.abs limit)).
    rewrite !scan_app. scan_literal.
    scan_name Hc. scan_name Hs. scan_name Ht. scan_literal.
    scan_name Hn. vm_compute. reflexivity.
  - replace limit with (Z.abs limit) at 1 by lia.
    rewrite !scan_app. scan_literal.
    scan_name Hc. scan_name Hs. scan_name Ht.
    scan_name Hn. vm_compute. reflexivity.
Qed.

Lemma parse_insert_statement cfg :
  plain_names cfg ->
  parse_text (insert_statement_text cfg)
  = Some (Insert
            {| i_into := table_of cfg;
               i_columns :=
                 [ "inspection_date"; "facility_name"; "nurse_name";
                   "machine_type"; "machine_id"; "room_location";
                   "power_status"; "alarms_functional";
                   "calibration_due_date"; "calibration_confirmed";
                   "temperature_celsius"; "pressure_kpa"; "cleaning_status";
                   "issues_noted"; "follow_up_required"; "follow_up_actions";
                   "user_email"; "submitted_at" ];
               i_values :=
                 [ ECall1 ToDate (EParam "inspection_date");
                   EParam "facility_name";
                   EParam "nurse_name";
                   EParam "machine_type";
                   EParam "machine_id";
                   EParam "room_location";
                   EParam "power_status";
                   ECaseEq (ECall1 Lower (EParam "alarms_functional"))
                     (EText "true") (EBool true) (EBool false);
                   ECaseEq (EParam "calibration_due_date") (EText "") ENull
                     (ECall1 ToDate (EParam "calibration_due_date"));
                   ECaseEq (ECall1 Lower (EParam "calibration_confirmed"))
                     (EText "true") (EBool true) (EBool false);
                   ETryCastDouble
                     (ECall2 NullIf (EParam "temperature_celsius")
                        (EText ""));
                   ETryCastDouble
                     (ECall2 NullIf (EParam "pressure_kpa") (EText ""));
                   EParam "cleaning_status";
                   EParam "issues_noted";
                   ECaseEq (ECall1 Lower (EParam "follow_up_required"))
                     (EText "true") (EBool true) (EBool false);
                   EParam "follow_up_actions";
                   EParam "user_email";
                   ECall0 CurrentTimestamp ] |}).
Proof.
  intros (Hc & Hs & Ht).
  unfold parse_text, tokens, insert_statement_text, table_path.
  rewrite !scan_app. scan_literal.
  scan_name Hc. scan_name Hs. scan_name Ht.
  vm_compute. reflexivity.
Qed.

(** *** The engine and the warehouse agree *)

Section Agreement.

Context {D : Doubles}.

Lemma same_path_refl p : same_path p p = true.
Proof.
  induction p as [|x p IH]; simpl; [reflexivity|].
  now rewrite String.eqb_refl.
Qed.

Lemma place_by_submitted_at r l :
  place_by (before (fun x => Some (Table.submitted_at x)) true) r l
  = Warehouse.place r l.
Proof.
  induction l as [|x l IH]; simpl; [reflexivity|].
  now rewrite IH.
Qed.

Lemma ordered_by_submitted_at l :
  ordered (Some ("submitted_at", true)) l
  = Done (Warehouse.order_by_submitted_at_desc l).
Proof.
  unfold ordered.
  change (column_of "submitted_at") with (Some c_submitted_at).
  cbn [order_key bind]. f_equal.
  unfold Warehouse.order_by_submitted_at_desc.
  induction l as [|x l IH]; simpl; [reflexivity|].
  now rewrite IH, place_by_submitted_at.
Qed.

Lemma limited_to limit l :
  limited (Some ((limit <? 0)%Z, PyStr.str_of_int (Z.abs limit))) l
  = if (limit <? 0)%Z then Refused "the limit must not be negative"
    else Done (firstn (Z.to_nat limit) l).
Proof.
  unfold limited. rewrite number_str_of_int by lia.
  destruct (Z.ltb_spec limit 0) as [Hl|Hl].
  - replace (- Z.abs limit)%Z with limit by lia.
    destruct (Z.ltb_spec limit 0); [reflexivity|lia].
  - replace (Z.abs limit) with limit by lia.
    destruct (Z.ltb_spec limit 0); [lia|reflexivity].
Qed.

(** The rows and the columns that the engine gives for the query of the
    recent submissions. *)
Lemma select_rows_recent path limit l :
  select_rows
    {| s_columns :=
         [ "inspection_date"; "facility_name"; "machine_type";
           "machine_id"; "power_status"; "follow_up_required";
           "submitted_at"; "user_email" ];
       s_from := path;
       s_order := Some ("submitted_at", true);
       s_limit := Some ((limit <? 0)%Z, PyStr.str_of_int (Z.abs limit)) |} l
  = if (limit <? 0)%Z then Refused "the limit must not be negative"
    else Done ([ c_inspection_date; c_facility_name; c_machine_type;
                 c_machine_id; c_power_status; c_follow_up_required;
                 c_submitted_at; c_user_email ],
               map Warehouse.project (Warehouse.selected limit l)).
Proof.
  unfold select_rows. cbn [s_columns s_order s_limit].
  replace (resolve_columns _)
    with (Done [ c_inspection_date; c_facility_name; c_machine_type;
                 c_machine_id; c_power_status; c_follow_up_required;
                 c_submitted_at; c_user_email ])
    by (vm_compute; reflexivity).
  rewrite ordered_by_submitted_at. cbn [bind]. rewrite limited_to.
  destruct (limit <? 0)%Z; reflexivity.
Qed.

(** On the query of the recent submissions the engine, which reads the
    text, does what [Warehouse.run] does. *)
Lemma run_recent_query cfg limit request s :
  plain_names cfg ->
  rq_statement request = RecentQuery cfg limit ->
  run (table_of cfg) request s = Warehouse.run request s.
Proof.
  intros Hp Hq. unfold run, Warehouse.run. rewrite Hq.
  cbn [statement_text].
  pose proof (parse_recent_query cfg limit Hp) as Ht.
  unfold parse_text in Ht.
  destruct (Warehouse.outage s); [reflexivity|].
  destruct (tokens (recent_query_text cfg limit)) as [ts|]; [|discriminate].
  rewrite Ht. cbn [s_from qualified table_of].
  rewrite same_path_refl, select_rows_recent.
  destruct (limit <? 0)%Z; reflexivity.
Qed.

Ltac settle_conditions :=
  cbn [bind call1 call2 option_map equal];
  repeat match goal with
         | |- context [if String.eqb ?a ?b then _ else _] =>
             destruct (String.eqb a b);
             cbn [bind call1 call2 option_map equal]
         end;
  reflexivity.

(** The row that the engine builds from the VALUES clause, as it is
    written, is the row of [Warehouse.inserted_row]. *)
Lemma insert_row_written path parameters time :
  insert_row
    {| i_into := path;
       i_columns :=
         [ "inspection_date"; "facility_name"; "nurse_name";
           "machine_type"; "machine_id"; "room_location";
           "power_status"; "alarms_functional";
           "calibration_due_date"; "calibration_confirmed";
           "temperature_celsius"; "pressure_kpa"; "cleaning_status";
           "issues_noted"; "follow_up_required"; "follow_up_actions";
           "user_email"; "submitted_at" ];
       i_values :=
         [ ECall1 ToDate (EParam "inspection_date");
           EParam "facility_name";
           EParam "nurse_name";
           EParam "machine_type";
           EParam "machine_id";
           EParam "room_location";
           EParam "power_status";
           ECaseEq (ECall1 Lower (EParam "alarms_functional"))
             (EText "true") (EBool true) (EBool false);
           ECaseEq (EParam "calibration_due_date") (EText "") ENull
             (ECall1 ToDate (EParam "calibration_due_date"));
           ECaseEq (ECall1 Lower (EParam "calibration_confirmed"))
             (EText "true") (EBool true) (EBool false);
           ETryCastDouble
             (ECall2 NullIf (EParam "temperature_celsius") (EText ""));
           ETryCastDouble
             (ECall2 NullIf (EParam "pressure_kpa") (EText ""));
           EParam "cleaning_status";
           EParam "issues_noted";
           ECaseEq (ECall1 Lower (EParam "follow_up_required"))
             (EText "true") (EBool true) (EBool false);
           EParam "follow_up_actions";
           EParam "user_email";
           ECall0 CurrentTimestamp ] |}
    (Sql.bound parameters) time
  = match Warehouse.inserted_row parameters time with
    | Some r => Done r
    | None => Refused "unbound parameter"
    end.
Proof.
  unfold insert_row, Warehouse.inserted_row. cbn [i_columns i_values].
  replace (resolve_columns _) with (Done all_columns)
    by (vm_compute; reflexivity).
  cbn [bind all_columns].
  generalize (Sql.bound parameters). intros lk.
  unfold Sql.case_true, Sql.date_or_null.
  cbn [eval_all eval bind].
  repeat match goal with
         | |- context [lk ?n] =>
             destruct (lk n);
             [cbn [bind call1 call2 option_map equal] | settle_conditions]
         end.
  settle_conditions.
Qed.

(** On the insert statement the engine, which reads the text, does what
    [Warehouse.run] does. *)
Lemma run_insert_statement cfg request s :
  plain_names cfg ->
  rq_statement request = InsertChecks cfg ->
  run (table_of cfg) request s = Warehouse.run request s.
Proof.
  intros Hp Hq. unfold run, Warehouse.run. rewrite Hq.
  cbn [statement_text].
  pose proof (parse_insert_statement cfg Hp) as Ht.
  unfold parse_text in Ht.
  destruct (Warehouse.outage s); [reflexivity|].
  destruct (tokens (insert_statement_text cfg)) as [ts|]; [|discriminate].
  rewrite Ht. cbn [i_into qualified table_of].
  rewrite same_path_refl, insert_row_written.
  destruct (Warehouse.inserted_row _ _); reflexivity.
Qed.

End Agreement.

(** *** The functions of the page on the engine *)

Section OnTheEngine.

Context {D : Doubles}.
Variable cfg : Config.
Hypothesis names : plain_names cfg.

Lemma poll_on_engine fuel : forall current s,
  poll (client (table_of cfg)) fuel current s
  = poll Warehouse.client fuel current s.
Proof.
  induction fuel as [|fuel IH]; intros current s; simpl;
    destruct (in_progress (status current)); reflexivity.
Qed.

Lemma execute_sql_on_engine fuel statement parameters s :
  (forall request,
     rq_statement request = statement ->
     run (table_of cfg) request s = Warehouse.run request s) ->
  execute_sql (client (table_of cfg)) cfg fuel statement parameters s
  = execute_sql Warehouse.client cfg fuel statement parameters s.
Proof.
  intros E. unfold execute_sql.
  cbn [execute_statement client Warehouse.client].
  rewrite E by reflexivity.
  destruct (Warehouse.run _ s) as [[response|msg] s1]; [|reflexivity].
  now rewrite poll_on_engine.
Qed.

Lemma fetch_on_engine fuel limit s :
  fetch_recent_submissions (client (table_of cfg)) cfg fuel limit s
  = fetch_recent_submissions Warehouse.client cfg fuel limit s.
Proof.
  unfold fetch_recent_submissions.
  rewrite execute_sql_on_engine; [reflexivity|].
  intros request Hr. now apply (run_recent_query cfg limit).
Qed.

Lemma insert_on_engine fuel payload s :
  insert_submission (client (table_of cfg)) cfg fuel payload s
  = insert_submission Warehouse.client cfg fuel payload s.
Proof.
  unfold insert_submission, insert_statement.
  rewrite execute_sql_on_engine; [reflexivity|].
  intros request Hr. now apply run_insert_statement.
Qed.

Lemma show_recent_on_engine fuel submitted_at s :
  show_recent (client (table_of cfg)) cfg fuel submitted_at s
  = show_recent Warehouse.client cfg fuel submitted_at s.
Proof. unfold show_recent. now rewrite fetch_on_engine. Qed.

Lemma script_on_engine user_email fuel submitted s :
  script (client (table_of cfg)) cfg user_email fuel submitted s
  = script Warehouse.client cfg user_email fuel submitted s.
Proof.
  unfold script, on_submit.
  destruct submitted as [f|]; cbn iota.
  - destruct (errors (validate f)).
    + rewrite insert_on_engine.
      destruct (insert_submission Warehouse.client cfg fuel _ s)
        as [[[u|exc] s1]|]; try reflexivity;
        now rewrite show_recent_on_engine.
    + now rewrite show_recent_on_engine.
  - now rewrite show_recent_on_engine.
Qed.

End OnTheEngine.

End EngineFacts.

(** ** Reading the recent submissions *)

Section RecentOnAnyClient.

Context {W : Type}.
Variable client : WorkspaceClient W.
Variable cfg : Config.

(** An exception of [execute_sql] is caught: the function returns [None]. *)
Lemma fetch_recent_unavailable fuel limit w msg w1 :
  execute_sql client cfg fuel (RecentQuery cfg limit) [] w
  = Some (Raised msg, w1) ->
  fetch_recent_submissions client cfg fuel limit w = Some (Returned None, w1).
Proof. unfold fetch_recent_submissions. now intros ->. Qed.

(** An exception of the chunk request is not caught. *)
Lemma fetch_recent_chunk_exception fuel limit w id response w1 msg w2 :
  execute_sql client cfg fuel (RecentQuery cfg limit) [] w
  = Some (Returned (id, response), w1) ->
  inline_rows response = None ->
  get_statement_result_chunk_n client id 0 w1 = (Raised msg, w2) ->
  fetch_recent_submissions client cfg fuel limit w = Some (Raised msg, w2).
Proof.
  unfold fetch_recent_submissions. intros -> Hi Hc. now rewrite Hi, Hc.
Qed.

(** A table that the page shows is the frame that
    [fetch_recent_submissions()] returned, called with its default limit. *)
Lemma show_recent_frame fuel submitted_at w shown w1 df :
  show_recent client cfg fuel submitted_at w = Some (Returned shown, w1) ->
  In (st_dataframe df) shown ->
  fetch_recent_submissions client cfg fuel 20 w
  = Some (Returned (Some df), w1).
Proof.
  unfold show_recent, default_limit.
  destruct (fetch_recent_submissions client cfg fuel 20 w)
    as [[[recent|msg] w2]|]; try discriminate.
  intros H Hin. injection H as <- <-.
  apply in_app_or in Hin. destruct Hin as [Hin|Hin].
  - destruct submitted_at; simpl in Hin; [|contradiction].
    destruct Hin as [Hin|[]]. discriminate Hin.
  - destruct recent as [df0|]; [destruct (df_empty df0)|]; simpl in Hin;
      try (destruct Hin as [Hin|[]]; discriminate Hin).
    destruct Hin as [Hin|[Hin|[]]]; [discriminate Hin|].
    injection Hin as ->. reflexivity.
Qed.

End RecentOnAnyClient.

Section RecentOnWarehouse.

Context {D : Doubles}.
Variable cfg : Config.

(** What [fetch_recent_submissions] does on the warehouse, case by case. *)
Lemma warehouse_fetch fuel limit (s : Warehouse.store) :
  fetch_recent_submissions Warehouse.client cfg fuel limit s
  = match Warehouse.outage s with
    | Some _ => Some (Returned None, s)
    | None =>
        if (limit <? 0)%Z then Some (Returned None, Warehouse.tick s)
        else
          match (if Warehouse.inline s then df_data (recent_frame limit s)
                 else []) with
          | _ :: _ =>
              Some (Returned (Some (recent_frame limit s)),
                    after_query limit s)
          | [] =>
              match Warehouse.chunk_outage s with
              | Some msg => Some (Raised msg, after_query limit s)
              | None =>
                  Some (Returned (Some (recent_frame limit s)),
                        after_query limit s)
              end
          end
    end.
Proof.
  unfold fetch_recent_submissions, execute_sql. simpl.
  unfold Warehouse.run. simpl.
  destruct (Warehouse.outage s); [reflexivity|].
  destruct (limit <? 0)%Z; [destruct fuel; reflexivity|].
  unfold recent_frame, after_query. simpl.
  destruct (Warehouse.inline s);
    destruct (map Warehouse.project
                (Warehouse.selected limit (Warehouse.rows s))) eqn:E;
    destruct fuel; simpl; try reflexivity;
    unfold Warehouse.chunk; simpl;
    destruct (Warehouse.chunk_outage s); reflexivity.
Qed.

Lemma recent_frame_spec limit (s : Warehouse.store) :
  (0 <= limit)%Z ->
  df_columns (recent_frame limit s)
  = [ "inspection_date"; "facility_name"; "machine_type"; "machine_id";
      "power_status"; "follow_up_required"; "submitted_at"; "user_email" ]
  /\ (Z.of_nat (length (df_data (recent_frame limit s))) <= limit)%Z
  /\ Forall (fun row => length row = 8%nat) (df_data (recent_frame limit s))
  /\ exists picked ordered,
       df_data (recent_frame limit s) = map Warehouse.project picked
       /\ Warehouse.newest_first picked
       /\ Permutation (Warehouse.rows s) ordered
       /\ Warehouse.newest_first ordered
       /\ picked = firstn (Z.to_nat limit) ordered.
Proof.
  intros Hl. unfold recent_frame. simpl.
  destruct (selected_spec limit (Warehouse.rows s))
    as (Hn & Hlen & ordered & Hp & Ho & He).
  split; [reflexivity|]. split; [rewrite length_map; lia|].
  split; [apply Forall_forall; intros row Hr; apply in_map_iff in Hr;
          destruct Hr as (r & <- & _); reflexivity|].
  exists (Warehouse.selected limit (Warehouse.rows s)), ordered. auto.
Qed.

(** What [fetch_recent_submissions] returns on the warehouse, for every
    limit. *)
Lemma warehouse_recent_spec (fuel : nat) (limit : Z) (s : Warehouse.store) :
  match fetch_recent_submissions Warehouse.client cfg fuel limit s with
  | Some (Returned (Some df), _) =>
      df_columns df
      = [ "inspection_date"; "facility_name"; "machine_type";
          "machine_id"; "power_status"; "follow_up_required";
          "submitted_at"; "user_email" ]
      /\ (Z.of_nat (length (df_data df)) <= limit)%Z
      /\ Forall (fun row => length row = 8%nat) (df_data df)
      /\ exists picked ordered,
           df_data df = map Warehouse.project picked
           /\ Warehouse.newest_first picked
           /\ Permutation (Warehouse.rows s) ordered
           /\ Warehouse.newest_first ordered
           /\ picked = firstn (Z.to_nat limit) ordered
  | Some (Returned None, _) =>
      Warehouse.outage s <> None \/ (limit < 0)%Z
  | Some (Raised _, _) => Warehouse.chunk_outage s <> None
  | None => False
  end.
Proof.
  rewrite warehouse_fetch.
  destruct (Warehouse.outage s) eqn:Eo; [left; discriminate|].
  destruct (Z.ltb_spec limit 0) as [Hl|Hl]; [right; exact Hl|].
  destruct (if Warehouse.inline s then df_data (recent_frame limit s) else []).
  - destruct (Warehouse.chunk_outage s); [discriminate|].
    now apply recent_frame_spec.
  - now apply recent_frame_spec.
Qed.


(** A store without rows, within reach: the function returns a frame without
    rows, which is not [None]. *)
Lemma fetch_recent_empty fuel limit (s : Warehouse.store) :
  Warehouse.outage s = None -> Warehouse.chunk_outage s = None ->
  (0 <= limit)%Z -> Warehouse.rows s = [] ->
  exists df s',
    fetch_recent_submissions Warehouse.client cfg fuel limit s
    = Some (Returned (Some df), s')
    /\ df_data df = [] /\ Some df <> None.
Proof.
  intros Ho Hc Hl Hr. rewrite warehouse_fetch, Ho, Hc.
  destruct (Z.ltb_spec limit 0); [lia|].
  assert (E : df_data (recent_frame limit s) = []).
  { unfold recent_frame, Warehouse.selected. rewrite Hr. simpl.
    now rewrite firstn_nil. }
  rewrite E.
  exists (recent_frame limit s), (after_query limit s).
  destruct (Warehouse.inline s); repeat split; auto; discriminate.
Qed.

(** C6, where the code departs from it: the store answers the query, the
    rows do not come with the response (they travel as a chunk, or there is
    none), and the request for chunk 0 fails.  The exception of that request
    leaves [fetch_recent_submissions]. *)
Theorem fetch_recent_raises_on_chunk_failure
    (fuel : nat) (limit : Z) (s : Warehouse.store) (msg : string) :
  Warehouse.outage s = None ->
  Warehouse.chunk_outage s = Some msg ->
  (0 <= limit)%Z ->
  Warehouse.inline s = false \/ Warehouse.rows s = [] ->
  fetch_recent_submissions Warehouse.client cfg fuel limit s
  = Some (Raised msg, after_query limit s).
Proof.
  intros Ho Hc Hl Hi. rewrite warehouse_fetch, Ho, Hc.
  destruct (Z.ltb_spec limit 0); [lia|].
  destruct Hi as [Hi|Hr].
  - now rewrite Hi.
  - assert (E : df_data (recent_frame limit s) = []).
    { unfold recent_frame, Warehouse.selected. rewrite Hr. simpl.
      now rewrite firstn_nil. }
    rewrite E. now destruct (Warehouse.inline s).
Qed.

End RecentOnWarehouse.

(** ** The theorems on the sample inputs *)

Module SampleRuns.
Import Samples.

#[local] Existing Instance DecimalReadings.doubles.

(** The four required fields of [bad_form] are blank, and each is reported
    once. *)
Lemma required_text_fields_reported_sample :
  (PyStr.blank (facility_name bad_form)
   /\ PyStr.blank (nurse_name bad_form)
   /\ PyStr.blank (machine_id bad_form)
   /\ PyStr.blank (room_location bad_form))
  /\ errors (validate bad_form) <> []
  /\ count_occ string_dec (errors (validate bad_form))
       "Facility name is required." = 1
  /\ count_occ string_dec (errors (validate bad_form))
       "Inspector name is required." = 1
  /\ count_occ string_dec (errors (validate bad_form))
       "Equipment ID is required." = 1
  /\ count_occ string_dec (errors (validate bad_form))
       "Location is required." = 1.
Proof.
  assert (H1 : PyStr.blank (facility_name bad_form)) by reflexivity.
  assert (H2 : PyStr.blank (nurse_name bad_form)) by reflexivity.
  assert (H3 : PyStr.blank (machine_id bad_form)) by reflexivity.
  assert (H4 : PyStr.blank (room_location bad_form)) by reflexivity.
  destruct (required_text_fields_reported bad_form)
    as ((F & _) & (N & _) & (M & _) & (R & _)).
  split; [repeat split; assumption|].
  split; [exact (proj1 (F H1))|].
  split; [exact (proj2 (F H1))|].
  split; [exact (proj2 (N H2))|].
  split; [exact (proj2 (M H3)) | exact (proj2 (R H4))].
Defined.

(** [bad_form] shows its eight messages and calls nothing. *)
Lemma failed_validation_makes_no_call_sample :
  errors (validate bad_form) <> []
  /\ on_submit (spy Warehouse.client) cfg email 3 bad_form ([], empty_store)
     = Some (map st_error (errors (validate bad_form)), false,
             ([], empty_store)).
Proof.
  assert (He : errors (validate bad_form) <> []) by (vm_compute; discriminate).
  split; [exact He|].
  exact (proj1 (failed_validation_makes_no_call Warehouse.client cfg email 3
                  bad_form [] empty_store) He).
Defined.




(** The decimal readings meet the two assumptions on the numeric library,
    and the rule holds for [good_form]. *)
Lemma readings_rule_sample :
  (forall x, DecimalReadings.print x <> "")
  /\ (forall x, DecimalReadings.parse (DecimalReadings.print x) = Some x)
  /\ exists r,
       Warehouse.inserted_row
         (insert_params (payload good_form (validate good_form) email)) 1000
       = Some r
       /\ reading_rule (temperature_raw good_form) temperature_message
            (errors (validate good_form)) (Table.temperature_celsius r)
       /\ reading_rule (pressure_raw good_form) pressure_message
            (errors (validate good_form)) (Table.pressure_kpa r).
Proof.
  split; [exact DecimalReadingsFacts.print_nonempty|].
  split; [exact DecimalReadingsFacts.parse_print|].
  exact (readings_rule DecimalReadingsFacts.print_nonempty
           DecimalReadingsFacts.parse_print good_form email 1000).
Defined.

(** [bad_form] asks for a follow-up and names no action. *)
Lemma follow_up_rule_sample :
  follow_up_required bad_form = true
  /\ PyStr.blank (follow_up_actions bad_form)
  /\ errors (validate bad_form) <> []
  /\ In follow_up_message (errors (validate bad_form)).
Proof.
  assert (Hr : follow_up_required bad_form = true) by reflexivity.
  assert (Hb : PyStr.blank (follow_up_actions bad_form)) by reflexivity.
  split; [exact Hr|]. split; [exact Hb|].
  exact (proj1 (follow_up_rule bad_form) Hr Hb).
Defined.

(** The empty table behind a store that drops chunk requests: the exception
    leaves the function. *)
Lemma fetch_recent_raises_on_chunk_failure_sample :
  Warehouse.outage chunkless_store = None
  /\ Warehouse.chunk_outage chunkless_store = Some "connection reset"
  /\ (0 <= 20)%Z
  /\ (Warehouse.inline chunkless_store = false
      \/ Warehouse.rows chunkless_store = [])
  /\ fetch_recent_submissions Warehouse.client cfg 3 20 chunkless_store
     = Some (Raised "connection reset", after_query 20 chunkless_store).
Proof.
  assert (H1 : Warehouse.outage chunkless_store = None) by reflexivity.
  assert (H2 : Warehouse.chunk_outage chunkless_store
               = Some "connection reset") by reflexivity.
  assert (H3 : (0 <= 20)%Z) by lia.
  assert (H4 : Warehouse.inline chunkless_store = false
               \/ Warehouse.rows chunkless_store = [])
    by (right; reflexivity).
  repeat (split; [assumption|]).
  exact (fetch_recent_raises_on_chunk_failure cfg 3 20 chunkless_store
           "connection reset" H1 H2 H3 H4).
Defined.

(** [good_form] on the empty store: one row, trimmed. *)
Lemma trimmed_text_reaches_store_sample :
  errors (validate good_form) = []
  /\ Warehouse.outage empty_store = None
  /\ exists r,
       on_submit Warehouse.client cfg email 3 good_form empty_store
       = Some ([st_success "Inspection submitted successfully."], true,
               Warehouse.tick
                 (Warehouse.with_rows empty_store
                    (Warehouse.rows empty_store ++ [r])%list))
       /\ Table.facility_name r = Some (PyStr.strip (facility_name good_form))
       /\ Table.nurse_name r = Some (PyStr.strip (nurse_name good_form))
       /\ Table.machine_id r = Some (PyStr.strip (machine_id good_form))
       /\ Table.room_location r
          = Some (PyStr.strip (room_location good_form))
       /\ Table.issues_noted r = Some (PyStr.strip (issues_noted good_form))
       /\ Table.follow_up_actions r
          = Some (PyStr.strip (follow_up_actions good_form))
       /\ (forall text,
             In (Some text)
                [Table.facility_name r; Table.nurse_name r;
                 Table.machine_id r; Table.room_location r;
                 Table.issues_noted r; Table.follow_up_actions r] ->
             PyStr.trimmed text).
Proof.
  assert (He : errors (validate good_form) = []) by reflexivity.
  assert (Ho : Warehouse.outage empty_store = None) by reflexivity.
  split; [exact He|]. split; [exact Ho|].
  exact (trimmed_text_reaches_store cfg email 3 good_form empty_store He Ho).
Defined.

End SampleRuns.

(** * Further properties of the code *)

(** ** The warehouse id *)

Lemma append_assoc (a b c : string) : (a ++ b) ++ c = a ++ (b ++ c).
Proof. induction a as [|x a IH]; simpl; [reflexivity | now rewrite IH]. Qed.

Lemma append_empty_r (a : string) : a ++ "" = a.
Proof. induction a as [|x a IH]; simpl; [reflexivity | now rewrite IH]. Qed.

Module StartupFacts.
Import Startup.

Lemma rstrip_slash_empty_iff s : rstrip_slash s = "" <-> all_slash s = true.
Proof.
  induction s as [|c r IH]; simpl; [tauto|].
  destruct (rstrip_slash r) eqn:E.
  - destruct (Ascii.eqb c "/"); simpl; [tauto|].
    split; discriminate.
  - split; [discriminate|].
    intros H. apply andb_true_iff in H. destruct H as [_ H].
    apply IH in H. discriminate.
Qed.

Lemma rstrip_slash_slashes s n : rstrip_slash (s ++ slashes n) = rstrip_slash s.
Proof.
  induction s as [|c r IH]; simpl.
  - apply rstrip_slash_empty_iff. induction n; simpl; auto.
  - now rewrite IH.
Qed.

Lemma rstrip_slash_no_slash s :
  s <> "" -> no_slash s = true -> rstrip_slash s = s.
Proof.
  induction s as [|c r IH]; [congruence|]. simpl. intros _ H.
  apply andb_true_iff in H. destruct H as [Hc Hr].
  destruct r as [|d r'].
  - simpl. apply negb_true_iff in Hc. now rewrite Hc.
  - rewrite IH by (auto; discriminate). reflexivity.
Qed.

Lemma rstrip_slash_keeps p t :
  t <> "" -> rstrip_slash t = t -> rstrip_slash (p ++ t) = p ++ t.
Proof.
  intros Hn Ht. induction p as [|c p IH]; simpl; [exact Ht|].
  rewrite IH. destruct (p ++ t) eqn:E; [|reflexivity].
  destruct p; simpl in E; [congruence | discriminate].
Qed.

Lemma split_slash_no_slash s : no_slash s = true -> split_slash s = [s].
Proof.
  induction s as [|c r IH]; simpl; [reflexivity|]. intros H.
  apply andb_true_iff in H. destruct H as [Hc Hr].
  apply negb_true_iff in Hc. rewrite Hc, (IH Hr). reflexivity.
Qed.

Lemma split_slash_last p t :
  no_slash t = true ->
  exists l, split_slash (p ++ String "/" t) = (l ++ [t])%list /\ l <> [].
Proof.
  intros Ht. induction p as [|c p (l & IH & Hl)]; simpl.
  - rewrite (split_slash_no_slash _ Ht). exists [""]. split; [reflexivity|].
    discriminate.
  - rewrite IH. destruct (Ascii.eqb c "/").
    + exists ("" :: l). split; [reflexivity | discriminate].
    + destruct l as [|seg segs]; [congruence|]. simpl.
      exists (String c seg :: segs). split; [reflexivity | discriminate].
Qed.

Lemma split_slash_segments s :
  Forall (fun seg => no_slash seg = true) (split_slash s).
Proof.
  induction s as [|c r IH]; simpl.
  - repeat constructor.
  - destruct (Ascii.eqb c "/") eqn:E.
    + constructor; [reflexivity | exact IH].
    + destruct (split_slash r) as [|seg segs].
      * repeat constructor. simpl. now rewrite E.
      * inversion IH as [|? ? Hs Hr]; subst.
        constructor; [simpl; now rewrite E, Hs | exact Hr].
Qed.

Lemma warehouse_id_no_slash path :
  no_slash (warehouse_id path) = true.
Proof.
  unfold warehouse_id.
  pose proof (split_slash_segments (rstrip_slash path)) as H.
  destruct (split_slash (rstrip_slash path)) as [|seg segs];
    [reflexivity|].
  destruct (exists_last (l := seg :: segs)) as (l' & a & Ha);
    [discriminate|].
  rewrite Ha in *. rewrite last_last.
  rewrite Forall_forall in H. apply H, in_or_app. right. now left.
Qed.

(** The warehouse id never holds a slash; it is the last segment of the
    endpoint, whatever number of slashes ends the endpoint. *)
Theorem warehouse_id_is_last_segment :
  (forall path, no_slash (warehouse_id path) = true)
  /\ (forall prefix id n,
        id <> "" -> no_slash id = true ->
        warehouse_id (prefix ++ String "/" id ++ slashes n) = id).
Proof.
  split.
  - exact warehouse_id_no_slash.
  - intros prefix id n Hn Hs. unfold warehouse_id.
    replace (prefix ++ String "/" id ++ slashes n)
      with ((prefix ++ String "/" id) ++ slashes n)
      by (now rewrite append_assoc).
    rewrite rstrip_slash_slashes, rstrip_slash_keeps.
    + destruct (split_slash_last prefix id Hs) as (l & -> & _).
      apply last_last.
    + discriminate.
    + simpl. rewrite (rstrip_slash_no_slash id Hn Hs).
      destruct id; [congruence | reflexivity].
Qed.

Lemma rstrip_slash_last s : PyStr.last_char (rstrip_slash s) <> Some "/"%char.
Proof.
  induction s as [|c r IH]; simpl; [discriminate|].
  destruct (rstrip_slash r) as [|d t] eqn:E.
  - destruct (Ascii.eqb_spec c "/"); simpl; [discriminate | congruence].
  - exact IH.
Qed.

Lemma last_split_slash_empty s :
  last (split_slash s) "" = "" ->
  s = "" \/ PyStr.last_char s = Some "/"%char.
Proof.
  induction s as [|c r IH]; [now left|]. right. revert H. simpl.
  destruct (Ascii.eqb_spec c "/") as [->|Hc].
  - destruct (split_slash r) as [|seg segs] eqn:E.
    + destruct r; simpl in E; [discriminate|].
      destruct (Ascii.eqb a "/"); [discriminate|].
      destruct (split_slash r); discriminate.
    + intros H. destruct (IH H) as [->|Hl]; [reflexivity|].
      destruct r; [discriminate | exact Hl].
  - destruct (split_slash r) as [|seg segs] eqn:E; [discriminate|].
    destruct segs as [|seg2 segs]; [discriminate|].
    intros H. destruct (IH H) as [->|Hl]; [discriminate|].
    destruct r; [discriminate | exact Hl].
Qed.

Lemma warehouse_id_empty_iff path :
  warehouse_id path = "" <-> all_slash path = true.
Proof.
  unfold warehouse_id. split.
  - intros H. apply last_split_slash_empty in H. destruct H as [H|H].
    + now apply rstrip_slash_empty_iff.
    + now apply rstrip_slash_last in H.
  - intros H. apply rstrip_slash_empty_iff in H. now rewrite H.
Qed.

(** The page starts only when the endpoint is not blank, and the warehouse
    id it runs with is empty exactly when the trimmed endpoint is made of
    slashes only: such an endpoint passes the check. *)
Theorem configure_warehouse_id env :
  let endpoint :=
    PyStr.strip (getenv env "DATABRICKS_WAREHOUSE_HTTP_PATH" "") in
  match configure env with
  | Stopped _ => endpoint = ""
  | Ready cfg =>
      endpoint <> ""
      /\ WAREHOUSE_ID cfg = warehouse_id endpoint
      /\ no_slash (WAREHOUSE_ID cfg) = true
      /\ (WAREHOUSE_ID cfg = "" <-> all_slash endpoint = true)
  end.
Proof.
  intros endpoint. unfold configure. fold endpoint.
  destruct endpoint eqn:E; simpl; [reflexivity|].
  split; [discriminate|]. split; [reflexivity|].
  split; [apply warehouse_id_no_slash|].
  apply warehouse_id_empty_iff.
Qed.

End StartupFacts.

(** ** The email of the current user *)

Module IdentityFacts.
Import Identity.

(** When the first entry of the profile is an object of the SDK with a
    non-empty value, that value is the answer: the primary flags of the
    entries, the notebook context and the environment play no part. *)
Theorem first_object_email_wins
    (v : string) (p : option bool) (rest : list entry)
    (context : option (accessed * accessed * accessed))
    (env : string -> option string) :
  PyStr.truthy v = true ->
  get_current_user_email (Returned (Some (Obj (Some v) p :: rest)))
    context env = Some v.
Proof.
  intros Hv. unfold get_current_user_email, from_profile. simpl.
  rewrite Hv. destruct p as [[|]|]; simpl;
    unfold qualifies, truthy_text; rewrite ?Hv; reflexivity.
Qed.

Lemma scan_skips skipped rest :
  Forall unqualified_mapping skipped ->
  scan (skipped ++ rest)%list = scan rest.
Proof.
  induction 1 as [|e l (v & p & -> & Hq) _ IH]; simpl; [reflexivity|].
  now rewrite Hq.
Qed.

Lemma from_profile_return l r :
  scan l = Return r -> from_profile (Returned (Some l)) = Some r.
Proof.
  unfold from_profile. destruct l; [discriminate|]. now intros ->.
Qed.

(** For entries that are mappings: the answer is the value of the first
    entry whose value is not empty and whose primary flag is true or
    absent; when no entry is such, it is the value of the first entry, empty
    or absent as it may be, and nothing else is consulted. *)
Theorem mapping_emails
    (context : option (accessed * accessed * accessed))
    (env : string -> option string) :
  (forall skipped v p rest,
     Forall unqualified_mapping skipped ->
     qualifies (Some v) p = true ->
     get_current_user_email
       (Returned (Some (skipped ++ Dict (Some v) p :: rest)%list)) context env
     = Some v)
  /\ (forall v p rest,
        Forall unqualified_mapping (Dict v p :: rest) ->
        get_current_user_email (Returned (Some (Dict v p :: rest)))
          context env = v).
Proof.
  split.
  - intros skipped v p rest Hs Hq.
    unfold get_current_user_email.
    rewrite (from_profile_return _ (Some v)); [reflexivity|].
    rewrite (scan_skips _ _ Hs). simpl. now rewrite Hq.
  - intros v p rest Hs.
    unfold get_current_user_email, from_profile.
    assert (E : scan (Dict v p :: rest) = Exhausted).
    { rewrite <- (app_nil_r (Dict v p :: rest)).
      now rewrite (scan_skips _ _ Hs). }
    now rewrite E.
Qed.

(** When the profile gives nothing (the lookup raises, there is no email,
    or the first entry is an object without a value), the answer is the
    first defined option among the three accessors of the notebook context;
    without one, it is DATABRICKS_USER when set and not empty, and USER
    otherwise. *)
Theorem email_fallback_chain
    (me : outcome (option (list entry)))
    (context : option (accessed * accessed * accessed))
    (env : string -> option string) :
  (exists msg, me = Raised msg) \/ me = Returned None \/ me = Returned (Some [])
  \/ (exists v p rest,
        me = Returned (Some (Obj v p :: rest)) /\ truthy_text v = false) ->
  get_current_user_email me context env
  = match context with
    | Some (Defined s, _, _) => Some s
    | Some (_, Defined s, _) => Some s
    | Some (_, _, Defined s) => Some s
    | _ =>
        match env "DATABRICKS_USER" with
        | Some (String c r) => Some (String c r)
        | _ => env "USER"
        end
    end.
Proof.
  intros H.
  assert (E : from_profile me = None).
  { destruct H as [(msg & ->)|[->|[->|(v & p & rest & -> & Hv)]]];
      try reflexivity.
    unfold from_profile. simpl. now rewrite Hv. }
  unfold get_current_user_email. rewrite E.
  unfold from_environment, truthy_text.
  destruct context as [[[a b] c]|]; simpl.
  - destruct a, b, c; simpl; try reflexivity;
      destruct (env "DATABRICKS_USER") as [[|? ?]|]; reflexivity.
  - destruct (env "DATABRICKS_USER") as [[|? ?]|]; reflexivity.
Qed.

End IdentityFacts.

(** ** Running a statement *)

Section ExecuteSql.

Context {W : Type}.
Variable client : WorkspaceClient W.
Variable cfg : Config.

Lemma poll_settled fuel : forall current w r w',
  poll client fuel current w = Some (Returned r, w') ->
  in_progress (status r) = false.
Proof.
  induction fuel as [|fuel IH]; intros current w r w'; simpl.
  - destruct (in_progress (status current)) eqn:E; [discriminate|].
    intros H. injection H as <- _. exact E.
  - destruct (in_progress (status current)) eqn:E.
    + destruct (get_statement client (statement_id current) w)
        as [[next|msg] w1]; [apply IH | discriminate].
    + intros H. injection H as <- _. exact E.
Qed.

(** A statement that [execute_sql] returns has succeeded: the response it
    hands back is in state SUCCEEDED, and the id beside it is the id of that
    response. *)
Theorem execute_sql_returns_succeeded
    (fuel : nat) (statement : Statement)
    (parameters : list StatementParameterListItem) (w w' : W)
    (id : string) (response : StatementResponse) :
  execute_sql client cfg fuel statement parameters w
  = Some (Returned (id, response), w') ->
  id = statement_id response
  /\ exists st, status response = Some st /\ state st = Some SUCCEEDED.
Proof.
  unfold execute_sql.
  destruct (execute_statement client _ w) as [[first|msg] w1];
    [|discriminate].
  destruct (poll client fuel first w1) as [[[current|msg] w2]|];
    [|discriminate|discriminate].
  destruct (not_succeeded (status current)) eqn:E; [discriminate|].
  intros H. injection H as <- <- _. split; [reflexivity|].
  unfold not_succeeded in E.
  destruct (status current) as [st|]; [|discriminate].
  exists st. split; [reflexivity|].
  destruct (state st) as [[]|]; try discriminate. reflexivity.
Qed.

Lemma poll_more_fuel fuel : forall extra current w r,
  poll client fuel current w = Some r ->
  poll client (fuel + extra) current w = Some r.
Proof.
  induction fuel as [|fuel IH]; intros extra current w r; simpl.
  - destruct (in_progress (status current)) eqn:E; [discriminate|].
    intros H. destruct extra; simpl; now rewrite E.
  - destruct (in_progress (status current)); [|auto].
    destruct (get_statement client (statement_id current) w)
      as [[next|msg] w1]; [apply IH | auto].
Qed.

(** The fuel only bounds the polling: a run that ends within some fuel ends
    in the same way, with the same result and the same world, within any
    larger fuel. *)
Theorem execute_sql_more_fuel
    (fuel extra : nat) (statement : Statement)
    (parameters : list StatementParameterListItem) (w : W)
    (r : outcome (string * StatementResponse) * W) :
  execute_sql client cfg fuel statement parameters w = Some r ->
  execute_sql client cfg (fuel + extra) statement parameters w = Some r.
Proof.
  unfold execute_sql.
  destruct (execute_statement client _ w) as [[first|msg] w1]; [|auto].
  destruct (poll client fuel first w1) as [p|] eqn:E; [|discriminate].
  now rewrite (poll_more_fuel _ extra _ _ _ E).
Qed.

(** The loop has no limit of its own: with a client whose statements stay
    PENDING or RUNNING at every poll, no amount of fuel brings a result. *)
Theorem execute_sql_never_gives_up
    (statement : Statement) (parameters : list StatementParameterListItem)
    (w : W) :
  (forall request w0,
     exists first w1,
       execute_statement client request w0 = (Returned first, w1)
       /\ in_progress (status first) = true) ->
  (forall id w0,
     exists next w1,
       get_statement client id w0 = (Returned next, w1)
       /\ in_progress (status next) = true) ->
  forall fuel, execute_sql client cfg fuel statement parameters w = None.
Proof.
  intros Hexec Hget fuel. unfold execute_sql.
  destruct (Hexec
              {| rq_statement := statement;
                 rq_warehouse_id := WAREHOUSE_ID cfg;
                 rq_catalog := CATALOG_NAME cfg;
                 rq_schema := SCHEMA_NAME cfg;
                 rq_parameters := parameters;
                 rq_wait_timeout := "5s" |} w) as (first & w1 & -> & Hf).
  assert (Hp : forall n current w0,
             in_progress (status current) = true ->
             poll client n current w0 = None).
  { induction n as [|n IH]; intros current w0 Hc; simpl; rewrite Hc;
      [reflexivity|].
    destruct (Hget (statement_id current) w0) as (next & w2 & -> & Hn).
    now apply IH. }
  now rewrite (Hp fuel first w1 Hf).
Qed.

End ExecuteSql.

Section ScriptedPolling.

Variable cfg : Config.

Lemma scripted_poll first (pending : list StatementResponse) :
  forall current final rest fuel,
    in_progress (status current) = true ->
    Forall (fun r => in_progress (status r) = true) pending ->
    in_progress (status final) = false ->
    poll (Scripted.client first) fuel current (pending ++ final :: rest)%list
    = if (length pending <? fuel)%nat then Some (Returned final, rest)
      else None.
Proof.
  induction pending as [|p pending IH];
    intros current final rest fuel Hc Hp Hf; simpl.
  - destruct fuel as [|fuel]; simpl; rewrite Hc; [reflexivity|].
    destruct fuel; simpl; now rewrite Hf.
  - inversion Hp as [|? ? Hp1 Hp2]; subst.
    destruct fuel as [|fuel]; simpl; rewrite Hc; [reflexivity|].
    rewrite (IH p final rest fuel Hp1 Hp2 Hf). reflexivity.
Qed.

(** Polling stops at the first status that is neither PENDING nor RUNNING.
    For a statement that is in progress when submitted, then in progress at
    the next [k] polls and settled at the one after, [execute_sql] needs
    [k + 1] polls: with that much fuel it ends with the settled response
    (returned when SUCCEEDED, raised with its message otherwise) and leaves
    the later responses unread; with less it has no result. *)
Theorem execute_sql_polls_until_settled
    (statement : Statement) (parameters : list StatementParameterListItem)
    (first final : StatementResponse) (pending rest : list StatementResponse)
    (fuel : nat) :
  in_progress (status first) = true ->
  Forall (fun r => in_progress (status r) = true) pending ->
  in_progress (status final) = false ->
  execute_sql (Scripted.client first) cfg fuel statement parameters
    (pending ++ final :: rest)%list
  = if (length pending <? fuel)%nat then
      if not_succeeded (status final)
      then Some (Raised (failure_message (status final)), rest)
      else Some (Returned (statement_id final, final), rest)
    else None.
Proof.
  intros Hc Hp Hf. unfold execute_sql. simpl.
  rewrite (scripted_poll first pending first final rest fuel Hc Hp Hf).
  destruct (length pending <? fuel)%nat; reflexivity.
Qed.

End ScriptedPolling.

(** ** The calls behind the recent submissions *)

Section RecentJournal.

Context {W : Type}.
Variable client : WorkspaceClient W.
Variable cfg : Config.

(** A completed [fetch_recent_submissions] sent the query once, with no
    bound parameter, polled, and then asked for at most one chunk: chunk 0,
    as its last call.  When the answer is [None] no chunk was asked for. *)
Theorem fetch_recent_calls
    (fuel : nat) (limit : Z) (j j' : list Call) (w w' : W)
    (r : outcome (option DataFrame)) :
  fetch_recent_submissions (spy client) cfg fuel limit (j, w)
  = Some (r, (j', w')) ->
  exists polls chunks,
    j' = (j ++ CallExecute (request_of cfg (RecentQuery cfg limit) [])
            :: polls ++ chunks)%list
    /\ Forall is_poll polls
    /\ (chunks = [] \/ exists id, chunks = [CallGetChunk id 0])
    /\ (r = Returned None -> chunks = []).
Proof.
  unfold fetch_recent_submissions.
  destruct (execute_sql (spy client) cfg fuel (RecentQuery cfg limit) []
              (j, w)) as [[[[id response]|msg] [j1 w1]]|] eqn:E;
    [| |discriminate];
    destruct (execute_sql_journal _ _ _ _ _ _ _ _ _ _ E) as (polls & -> & Hp).
  - destruct (inline_rows response).
    + intros H. injection H as <- <- _.
      exists polls, []. rewrite app_nil_r.
      repeat split; auto.
    + simpl.
      destruct (get_statement_result_chunk_n client id 0 w1) as [[c|msg] w2];
        intros H; injection H as <- <- _;
        exists polls, [CallGetChunk id 0];
        (split; [now rewrite <- app_assoc|]);
        (split; [exact Hp|]); (split; [right; eauto|]); discriminate.
  - intros H. injection H as <- <- _.
    exists polls, []. rewrite app_nil_r. repeat split; auto.
Qed.

End RecentJournal.

(** ** A submission that the store refuses *)

Section WriteFailure.

Context {D : Doubles}.
Variable cfg : Config.
Variable user_email : option string.

(** A valid form on a store out of reach: the one thing shown is the error
    that carries the message of the store, the flag of a saved submission
    stays unset, and the table is as it was. *)
Theorem write_failure_is_reported
    (fuel : nat) (f : Form) (s : Warehouse.store) (msg : string) :
  errors (validate f) = [] ->
  Warehouse.outage s = Some msg ->
  on_submit Warehouse.client cfg user_email fuel f s
  = Some ([st_error ("Unable to save inspection: " ++ msg)], false, s).
Proof.
  intros He Ho. unfold on_submit. rewrite He.
  unfold insert_submission, execute_sql. simpl.
  unfold Warehouse.run. now rewrite Ho.
Qed.

(** The end of the page cannot tell a store out of reach from an empty
    table: in both cases it shows the same single note, after the toast if
    there is one. *)
Theorem outage_looks_like_empty_table
    (fuel : nat) (submitted_at : bool) (s : Warehouse.store) :
  (Warehouse.outage s <> None
   \/ (Warehouse.rows s = [] /\ Warehouse.chunk_outage s = None)) ->
  exists s',
    show_recent Warehouse.client cfg fuel submitted_at s
    = Some (Returned
              ((if submitted_at
                then [st_toast "Latest inspection saved to the warehouse."]
                else [])
               ++ [st_info
                     "No equipment inspections have been recorded yet."])%list,
            s').
Proof.
  intros H. unfold show_recent, default_limit. rewrite warehouse_fetch.
  destruct (Warehouse.outage s) as [m|] eqn:Eo.
  - eexists. reflexivity.
  - destruct H as [H|[Hr Hc]]; [congruence|].
    change (20 <? 0)%Z with false. cbv iota.
    assert (E : df_data (recent_frame 20 s) = []).
    { unfold recent_frame, Warehouse.selected. rewrite Hr. reflexivity. }
    rewrite E, Hc.
    destruct (Warehouse.inline s); eexists;
      unfold df_empty; rewrite E; reflexivity.
Qed.

End WriteFailure.

(** ** Validation as a whole *)

Section WholeValidation.

Context {D : Doubles}.

Lemma required_part_empty_iff f :
  check_required [] f = [] <->
  ~ PyStr.blank (facility_name f) /\ ~ PyStr.blank (nurse_name f)
  /\ ~ PyStr.blank (machine_id f) /\ ~ PyStr.blank (room_location f).
Proof.
  rewrite <- !PyStrFacts.truthy_strip_true.
  unfold check_required, required_fields. simpl.
  destruct (PyStr.truthy (PyStr.strip (facility_name f)));
  destruct (PyStr.truthy (PyStr.strip (nurse_name f)));
  destruct (PyStr.truthy (PyStr.strip (machine_id f)));
  destruct (PyStr.truthy (PyStr.strip (room_location f)));
  simpl; split; try discriminate; intuition congruence.
Qed.

Lemma app_nil_iff (a b : list string) :
  (a ++ b)%list = [] <-> a = [] /\ b = [].
Proof.
  split; [apply app_eq_nil|]. now intros [-> ->].
Qed.

(** A form passes validation exactly when the four required texts are not
    blank, each of the calibration date, the temperature and the pressure is
    blank or parses after trimming, and the follow-up actions are not blank
    when a follow-up is required. *)
Theorem validation_passes_iff (f : Form) :
  errors (validate f) = [] <->
  (~ PyStr.blank (facility_name f) /\ ~ PyStr.blank (nurse_name f)
   /\ ~ PyStr.blank (machine_id f) /\ ~ PyStr.blank (room_location f))
  /\ (PyStr.blank (calibration_due_raw f)
      \/ exists d,
           PyDate.fromisoformat (PyStr.strip (calibration_due_raw f))
           = Some d)
  /\ (PyStr.blank (temperature_raw f)
      \/ exists x, float_of_str (PyStr.strip (temperature_raw f)) = Some x)
  /\ (PyStr.blank (pressure_raw f)
      \/ exists x, float_of_str (PyStr.strip (pressure_raw f)) = Some x)
  /\ (follow_up_required f = true -> ~ PyStr.blank (follow_up_actions f)).
Proof.
  rewrite errors_validate, !app_nil_iff.
  rewrite required_part_empty_iff.
  assert (Hc : fst (check_calibration [] f) = [] <->
               PyStr.blank (calibration_due_raw f)
               \/ exists d,
                    PyDate.fromisoformat (PyStr.strip (calibration_due_raw f))
                    = Some d).
  { unfold check_calibration.
    destruct (PyStr.truthy (PyStr.strip (calibration_due_raw f))) eqn:E.
    - apply PyStrFacts.truthy_strip_true in E.
      destruct (PyDate.fromisoformat _) as [d|]; simpl; split; eauto;
        try discriminate.
      intros [H|[d H]]; [contradiction | discriminate].
    - apply PyStrFacts.truthy_strip_false in E. simpl. tauto. }
  assert (Hr : forall msg raw,
             fst (check_reading msg raw []) = [] <->
             PyStr.blank raw
             \/ exists x, float_of_str (PyStr.strip raw) = Some x).
  { intros msg raw. unfold check_reading.
    destruct (PyStr.truthy (PyStr.strip raw)) eqn:E.
    - apply PyStrFacts.truthy_strip_true in E.
      destruct (float_of_str _) as [x|]; simpl; split; eauto;
        try discriminate.
      intros [H|[x H]]; [contradiction | discriminate].
    - apply PyStrFacts.truthy_strip_false in E. simpl. tauto. }
  assert (Hf : check_follow_up [] f = [] <->
               (follow_up_required f = true ->
                ~ PyStr.blank (follow_up_actions f))).
  { unfold check_follow_up. rewrite <- PyStrFacts.truthy_strip_true.
    destruct (follow_up_required f);
      destruct (PyStr.truthy (PyStr.strip (follow_up_actions f)));
      simpl; split; try discriminate; auto; intros H; now specialize (H eq_refl). }
  rewrite Hc, (Hr temperature_message), (Hr pressure_message), Hf.
  tauto.
Qed.

(** The messages come in the order of the script and none comes twice: the
    error list is what is left of the eight messages, in their order, when
    those that do not apply are struck out. *)
Theorem errors_in_script_order (f : Form) :
  exists keep : string -> bool,
    errors (validate f) = filter keep all_messages.
Proof.
  exists (fun m => existsb (String.eqb m) (errors (validate f))).
  rewrite errors_validate.
  unfold check_required, required_fields, check_calibration, check_reading,
    check_follow_up.
  cbn [fold_left fst snd].
  destruct (PyStr.truthy (PyStr.strip (facility_name f)));
  destruct (PyStr.truthy (PyStr.strip (nurse_name f)));
  destruct (PyStr.truthy (PyStr.strip (machine_id f)));
  destruct (PyStr.truthy (PyStr.strip (room_location f)));
  (destruct (PyStr.truthy (PyStr.strip (calibration_due_raw f)));
     [destruct (PyDate.fromisoformat _)|]);
  (destruct (PyStr.truthy (PyStr.strip (temperature_raw f)));
     [destruct (float_of_str (PyStr.strip (temperature_raw f)))|]);
  (destruct (PyStr.truthy (PyStr.strip (pressure_raw f)));
     [destruct (float_of_str (PyStr.strip (pressure_raw f)))|]);
  destruct (follow_up_required f);
  destruct (PyStr.truthy (PyStr.strip (follow_up_actions f)));
  reflexivity.
Qed.

End WholeValidation.

(** ** Whitespace around the inputs *)

Section Trimming.

Context {D : Doubles}.

Lemma rstrip_idempotent s : PyStr.rstrip (PyStr.rstrip s) = PyStr.rstrip s.
Proof.
  induction s as [|c r IH]; simpl; [reflexivity|].
  destruct (PyStr.rstrip r) as [|d t] eqn:E.
  - destruct (PyStr.isspace c) eqn:Ec; simpl; [reflexivity|].
    now rewrite Ec.
  - change (PyStr.rstrip (String c (String d t)))
      with (match PyStr.rstrip (String d t) with
            | EmptyString =>
                if PyStr.isspace c then EmptyString else String c EmptyString
            | r' => String c r'
            end).
    now rewrite IH.
Qed.

Lemma strip_idempotent s : PyStr.strip (PyStr.strip s) = PyStr.strip s.
Proof.
  assert (H : PyStr.lstrip (PyStr.strip s) = PyStr.strip s).
  { pose proof (PyStrFacts.strip_first s) as Hf.
    destruct (PyStr.strip s) as [|c r]; [reflexivity|].
    simpl. now rewrite (Hf c eq_refl). }
  unfold PyStr.strip at 1. rewrite H.
  unfold PyStr.strip. apply rstrip_idempotent.
Qed.

(** Whitespace around a text input changes nothing: the form with all its
    texts trimmed beforehand has the same errors, the same validated values
    and the same payload as the form as typed. *)
Theorem validation_ignores_outer_whitespace
    (f : Form) (user_email : option string) :
  validate (trim_form f) = validate f
  /\ payload (trim_form f) (validate (trim_form f)) user_email
     = payload f (validate f) user_email.
Proof.
  assert (H : validate (trim_form f) = validate f).
  { unfold validate, check_required, required_fields, check_calibration,
      check_reading, check_follow_up, trim_form. simpl.
    now rewrite !strip_idempotent. }
  split; [exact H|]. rewrite H.
  unfold payload, trim_form. simpl. now rewrite !strip_idempotent.
Qed.

(** What is not trimmed is stored as it was chosen: the inspection date that
    the date picker gave comes back from the text and [to_date] as the same
    date, the three selections are stored verbatim, an email that could not
    be resolved is stored as the empty text, and the submission time is the
    time of the store. *)
Theorem stored_as_entered
    (f : Form) (v : Validation) (user_email : option string) (time : Z) :
  PyDate.valid (inspection_date f) = true ->
  exists r,
    Warehouse.inserted_row (insert_params (payload f v user_email)) time
    = Some r
    /\ Table.inspection_date r = Some (inspection_date f)
    /\ Table.machine_type r = Some (machine_type f)
    /\ Table.power_status r = Some (power_status f)
    /\ Table.cleaning_status r = Some (cleaning_status f)
    /\ Table.user_email r
       = Some match user_email with
              | Some (String c s) => String c s
              | _ => EmptyString
              end
    /\ Table.submitted_at r = time.
Proof.
  intros Hv. eexists. split; [apply inserted_row_of_payload|].
  cbn [Table.inspection_date Table.machine_type Table.power_status
       Table.cleaning_status Table.user_email Table.submitted_at].
  unfold Sql.to_date. rewrite (PyDateFacts.from_dashed_isoformat _ Hv).
  repeat split. now destruct user_email as [[|c s]|].
Qed.

End Trimming.

(** ** The names in the statements *)

Section StatementNames.

Context {D : Doubles}.

(** The insert statement and the payload fit: apart from the table name,
    the placeholders of the statement are the keys of the payload, in the
    same order, so each placeholder is bound and no parameter is left
    over; and the columns of the statement are these keys followed by
    [submitted_at]. *)
Theorem payload_binds_the_placeholders
    (cfg : Config) (f : Form) (v : Validation)
    (user_email : option string) :
  insert_statement_text cfg
  = Text.insert_head ++ table_path cfg ++ Text.insert_tail
  /\ Text.placeholders Text.insert_head = []
  /\ nodup string_dec (Text.placeholders Text.insert_tail)
     = map fst (payload f v user_email)
  /\ Forall
       (fun name =>
          exists value,
            Sql.bound (insert_params (payload f v user_email)) name
            = Some value)
       (Text.placeholders Text.insert_tail)
  /\ Text.listed Text.insert_tail
     = (map fst (payload f v user_email) ++ ["submitted_at"])%list.
Proof.
  split; [reflexivity|]. split; [vm_compute; reflexivity|].
  split; [vm_compute; reflexivity|]. split; [|vm_compute; reflexivity].
  assert (E : forallb
                (fun name =>
                   match
                     Sql.bound (insert_params (payload f v user_email)) name
                   with
                   | Some _ => true
                   | None => false
                   end)
                (Text.placeholders Text.insert_tail) = true)
    by (vm_compute; reflexivity).
  apply Forall_forall. intros name Hin.
  apply (proj1 (forallb_forall _ _) E) in Hin.
  destruct (Sql.bound (insert_params (payload f v user_email)) name)
    as [value|]; [now exists value | discriminate].
Qed.

(** The two scripts agree on the table: the columns that the setup script
    declares are the columns that the insert statement lists, eighteen in
    the same order, and the query of the recent submissions selects eight
    of them. *)
Theorem statements_agree_on_columns (cfg : Config) (limit : Z) :
  Setup.create_table_text cfg
  = "
        CREATE TABLE IF NOT EXISTS "
    ++ Setup.table_identifier cfg ++ Setup.create_table_tail
  /\ insert_statement_text cfg
     = Text.insert_head ++ table_path cfg ++ Text.insert_tail
  /\ (exists rest,
        recent_query_text cfg limit
        = Text.select_head ++ table_path cfg ++ rest)
  /\ Text.listed Setup.create_table_tail = Text.listed Text.insert_tail
  /\ length (Text.listed Setup.create_table_tail) = 18%nat
  /\ length (Text.listed Text.select_head) = 8%nat
  /\ incl (Text.listed Text.select_head)
          (Text.listed Setup.create_table_tail).
Proof.
  split; [reflexivity|]. split; [reflexivity|].
  split; [eexists; reflexivity|]. split; [vm_compute; reflexivity|].
  split; [vm_compute; reflexivity|]. split; [vm_compute; reflexivity|].
  assert (E1 : Text.listed Text.select_head
               = [ "inspection_date"; "facility_name"; "machine_type";
                   "machine_id"; "power_status"; "follow_up_required";
                   "submitted_at"; "user_email" ])
    by (vm_compute; reflexivity).
  assert (E2 : Text.listed Setup.create_table_tail
               = [ "inspection_date"; "facility_name"; "nurse_name";
                   "machine_type"; "machine_id"; "room_location";
                   "power_status"; "alarms_functional";
                   "calibration_due_date"; "calibration_confirmed";
                   "temperature_celsius"; "pressure_kpa"; "cleaning_status";
                   "issues_noted"; "follow_up_required"; "follow_up_actions";
                   "user_email"; "submitted_at" ])
    by (vm_compute; reflexivity).
  rewrite E1, E2. intros c Hc.
  repeat (destruct Hc as [<-|Hc]; [simpl; tauto|]).
  contradiction.
Qed.

End StatementNames.


(** ** The table of the setup script *)

Module SetupFacts.
Import Setup.

Lemma unquote_append a b : unquote (a ++ b) = unquote a ++ unquote b.
Proof.
  induction a as [|c a IH]; simpl; [reflexivity|].
  destruct (Ascii.eqb c "`"); simpl; now rewrite IH.
Qed.

Lemma unquote_plain s : no_backtick s = true -> unquote s = s.
Proof.
  induction s as [|c s IH]; simpl; [reflexivity|]. intros H.
  apply andb_true_iff in H. destruct H as [Hc Hs].
  apply negb_true_iff in Hc. now rewrite Hc, IH.
Qed.

(** The setup script and the page name the same table: when the three
    configured names hold no backtick, the quoted identifier of the setup
    script, read without its backticks, is the path that the statements of
    the page use. *)
Theorem setup_names_the_table_of_the_page (cfg : Config) :
  no_backtick (CATALOG_NAME cfg) = true ->
  no_backtick (SCHEMA_NAME cfg) = true ->
  no_backtick (TABLE_NAME cfg) = true ->
  unquote (table_identifier cfg) = table_path cfg.
Proof.
  intros Hc Hs Ht.
  unfold table_identifier, schema_identifier, catalog_identifier, qualify,
    table_path.
  repeat (rewrite unquote_append; simpl).
  rewrite !unquote_plain by assumption.
  rewrite !append_empty_r, !append_assoc. reflexivity.
Qed.

End SetupFacts.

(** ** A submission and the list under it *)

Section EndToEnd.

Context {D : Doubles}.
Variable cfg : Config.
Variable user_email : option string.

Lemma place_all_newer r sorted : forall l,
  Forall (fun x => (Table.submitted_at x < Table.submitted_at r)%Z) l ->
  fold_right Warehouse.place (r :: sorted) l
  = r :: fold_right Warehouse.place sorted l.
Proof.
  induction 1 as [|x l Hx _ IH]; simpl; [reflexivity|].
  rewrite IH. simpl.
  destruct (Z.ltb_spec (Table.submitted_at r) (Table.submitted_at x));
    [lia | reflexivity].
Qed.

Lemma order_by_newest_row r l :
  Forall (fun x => (Table.submitted_at x < Table.submitted_at r)%Z) l ->
  Warehouse.order_by_submitted_at_desc (l ++ [r])
  = r :: Warehouse.order_by_submitted_at_desc l.
Proof.
  intros H. unfold Warehouse.order_by_submitted_at_desc.
  rewrite fold_right_app. simpl. now apply place_all_newer.
Qed.

(** A valid form on the warehouse: the row written is the first row
    shown. *)
Lemma written_row_is_shown_first
    (fuel : nat) (f : Form) (s : Warehouse.store) :
  errors (validate f) = [] ->
  Warehouse.outage s = None ->
  Warehouse.chunk_outage s = None ->
  stamped_before s ->
  exists r df s',
    script Warehouse.client cfg user_email fuel (Some f) s
    = Some (Returned
              (page_header user_email
               ++ [ shown (st_success "Inspection submitted successfully.");
                    st_divider;
                    shown (st_toast
                             "Latest inspection saved to the warehouse.");
                    shown (st_subheader "Recent submissions");
                    shown (st_dataframe df) ])%list, s')
    /\ Warehouse.inserted_row
         (insert_params (payload f (validate f) user_email))
         (Warehouse.now s) = Some r
    /\ hd_error (df_data df) = Some (Warehouse.project r)
    /\ Warehouse.rows s' = (Warehouse.rows s ++ [r])%list
    /\ stamped_before s'.
Proof.
  intros He Ho Hc Hs.
  pose proof (inserted_row_of_payload f (validate f) user_email
                (Warehouse.now s)) as Hr.
  set (r := {| Table.inspection_date := _ |}) in Hr.
  set (s1 := Warehouse.tick
               (Warehouse.with_rows s (Warehouse.rows s ++ [r])%list)).
  assert (Hsel : Warehouse.selected 20 (Warehouse.rows s1)
                 = r :: firstn 19
                          (Warehouse.order_by_submitted_at_desc
                             (Warehouse.rows s))).
  { unfold Warehouse.selected. simpl Warehouse.rows.
    rewrite order_by_newest_row; [reflexivity|].
    exact Hs. }
  exists r, (recent_frame 20 s1), (after_query 20 s1).
  split; [|split; [exact Hr|split; [|split]]].
  - unfold script, on_submit. rewrite He.
    rewrite (warehouse_insert cfg fuel _ s r Ho Hr). fold s1.
    unfold show_recent, default_limit. rewrite warehouse_fetch.
    change (Warehouse.outage s1) with (Warehouse.outage s).
    change (Warehouse.chunk_outage s1) with (Warehouse.chunk_outage s).
    rewrite Ho, Hc. change (20 <? 0)%Z with false. cbv iota.
    assert (Hd : df_data (recent_frame 20 s1)
                 = Warehouse.project r
                   :: map Warehouse.project
                        (firstn 19
                           (Warehouse.order_by_submitted_at_desc
                              (Warehouse.rows s)))).
    { unfold recent_frame. cbn [df_data]. now rewrite Hsel. }
    assert (Hne : df_empty (recent_frame 20 s1) = false).
    { unfold df_empty. rewrite Hd. reflexivity. }
    rewrite Hd.
    destruct (Warehouse.inline s1); rewrite Hne; reflexivity.
  - unfold recent_frame. cbn [df_data]. now rewrite Hsel.
  - reflexivity.
  - unfold stamped_before. simpl.
    apply Forall_app. split.
    + eapply Forall_impl; [|exact Hs]. simpl. intros; lia.
    + constructor; [simpl; lia | constructor].
Qed.

(** A valid form submitted to a store within reach whose rows were all
    stamped before its present time.  The store is the engine, which works
    from the texts of the insert statement and of the query; the three
    configured names are plain words.  The page shows the success note,
    the toast and the table of recent submissions, and the first row of
    that table is the row just written; the store keeps its rows, with the
    new one added, stamped before its new present time. *)
Theorem submission_heads_the_recent_list
    (fuel : nat) (f : Form) (s : Warehouse.store) :
  Engine.plain_names cfg ->
  errors (validate f) = [] ->
  Warehouse.outage s = None ->
  Warehouse.chunk_outage s = None ->
  stamped_before s ->
  exists r df s',
    script (Engine.client (Engine.table_of cfg)) cfg user_email fuel
      (Some f) s
    = Some (Returned
              (page_header user_email
               ++ [ shown (st_success "Inspection submitted successfully.");
                    st_divider;
                    shown (st_toast
                             "Latest inspection saved to the warehouse.");
                    shown (st_subheader "Recent submissions");
                    shown (st_dataframe df) ])%list, s')
    /\ Warehouse.inserted_row
         (insert_params (payload f (validate f) user_email))
         (Warehouse.now s) = Some r
    /\ hd_error (df_data df) = Some (Warehouse.project r)
    /\ Warehouse.rows s' = (Warehouse.rows s ++ [r])%list
    /\ stamped_before s'.
Proof.
  intros Hn He Ho Hc Hs.
  rewrite (EngineFacts.script_on_engine cfg Hn).
  now apply written_row_is_shown_first.
Qed.

End EndToEnd.

(** ** The further theorems on sample inputs *)

Module MoreSampleRuns.
Import Samples MoreSamples.

#[local] Existing Instance DecimalReadings.doubles.

(** The id of an endpoint that ends with a slash. *)
Lemma warehouse_id_is_last_segment_sample :
  "0123456789abcdef" <> ""
  /\ Startup.no_slash "0123456789abcdef" = true
  /\ Startup.warehouse_id
       ("/sql/1.0/warehouses" ++ String "/" "0123456789abcdef"
        ++ Startup.slashes 1)
     = "0123456789abcdef".
Proof.
  assert (H1 : "0123456789abcdef" <> "") by discriminate.
  assert (H2 : Startup.no_slash "0123456789abcdef" = true) by reflexivity.
  split; [exact H1|]. split; [exact H2|].
  exact (proj2 StartupFacts.warehouse_id_is_last_segment
           "/sql/1.0/warehouses" "0123456789abcdef" 1%nat H1 H2).
Defined.

(** The first of two SDK entries wins although the second is the primary
    one. *)
Lemma first_object_email_wins_sample :
  PyStr.truthy "work@example.org" = true
  /\ Identity.get_current_user_email (Returned (Some emails_as_objects))
       None user_environment = Some "work@example.org".
Proof.
  assert (H : PyStr.truthy "work@example.org" = true) by reflexivity.
  split; [exact H|].
  exact (IdentityFacts.first_object_email_wins "work@example.org"
           (Some false)
           [Identity.Obj (Some "home@example.org") (Some true)]
           None user_environment H).
Defined.

(** Among mappings the entry flagged as not primary is passed over. *)
Lemma mapping_emails_sample :
  Forall Identity.unqualified_mapping
    [Identity.Dict (Some "work@example.org") (Some false)]
  /\ Identity.qualifies (Some "home@example.org") None = true
  /\ Identity.get_current_user_email (Returned (Some emails_as_mappings))
       None user_environment = Some "home@example.org".
Proof.
  assert (H1 : Forall Identity.unqualified_mapping
                 [Identity.Dict (Some "work@example.org") (Some false)]).
  { constructor; [|constructor].
    exists (Some "work@example.org"), (Some false). split; reflexivity. }
  assert (H2 : Identity.qualifies (Some "home@example.org") None = true)
    by reflexivity.
  split; [exact H1|]. split; [exact H2|].
  exact (proj1 (IdentityFacts.mapping_emails None user_environment)
           [Identity.Dict (Some "work@example.org") (Some false)]
           "home@example.org" None
           [Identity.Dict (Some "other@example.org") (Some true)] H1 H2).
Defined.

(** Without a profile and without a notebook, USER is the answer. *)
Lemma email_fallback_chain_sample :
  Identity.get_current_user_email (Raised "no session") None
    user_environment = Some "alex".
Proof.
  exact (IdentityFacts.email_fallback_chain (Raised "no session") None
           user_environment (or_introl (ex_intro _ "no session" eq_refl))).
Defined.

(** A statement that finishes at the second poll. *)
Lemma execute_sql_returns_succeeded_sample :
  execute_sql (Scripted.client (Scripted.running "7")) cfg 2
    (RecentQuery cfg 20) [] two_polls_then_finished
  = Some (Returned ("7", Scripted.finished "7"), [])
  /\ "7" = statement_id (Scripted.finished "7")
  /\ exists st,
       status (Scripted.finished "7") = Some st
       /\ state st = Some SUCCEEDED.
Proof.
  assert (H : execute_sql (Scripted.client (Scripted.running "7")) cfg 2
                (RecentQuery cfg 20) [] two_polls_then_finished
              = Some (Returned ("7", Scripted.finished "7"), []))
    by reflexivity.
  split; [exact H|].
  exact (execute_sql_returns_succeeded _ cfg 2 (RecentQuery cfg 20) []
           two_polls_then_finished [] "7" (Scripted.finished "7") H).
Defined.

(** The same run with three more units of fuel. *)
Lemma execute_sql_more_fuel_sample :
  execute_sql (Scripted.client (Scripted.running "7")) cfg 2
    (RecentQuery cfg 20) [] two_polls_then_finished
  = Some (Returned ("7", Scripted.finished "7"), [])
  /\ execute_sql (Scripted.client (Scripted.running "7")) cfg (2 + 3)
       (RecentQuery cfg 20) [] two_polls_then_finished
     = Some (Returned ("7", Scripted.finished "7"), []).
Proof.
  assert (H : execute_sql (Scripted.client (Scripted.running "7")) cfg 2
                (RecentQuery cfg 20) [] two_polls_then_finished
              = Some (Returned ("7", Scripted.finished "7"), []))
    by reflexivity.
  split; [exact H|].
  exact (execute_sql_more_fuel _ cfg 2 3 (RecentQuery cfg 20) []
           two_polls_then_finished _ H).
Defined.

(** The client whose statements stay RUNNING. *)
Lemma execute_sql_never_gives_up_sample :
  (forall request w0,
     exists first w1,
       execute_statement Scripted.stuck request w0 = (Returned first, w1)
       /\ in_progress (status first) = true)
  /\ (forall id w0,
        exists next w1,
          get_statement Scripted.stuck id w0 = (Returned next, w1)
          /\ in_progress (status next) = true)
  /\ (forall fuel,
        execute_sql Scripted.stuck cfg fuel (InsertChecks cfg) [] tt = None).
Proof.
  assert (H1 : forall request w0,
             exists first w1,
               execute_statement Scripted.stuck request w0
               = (Returned first, w1)
               /\ in_progress (status first) = true).
  { intros request w0. exists (Scripted.running "1"), w0.
    split; reflexivity. }
  assert (H2 : forall id w0,
             exists next w1,
               get_statement Scripted.stuck id w0 = (Returned next, w1)
               /\ in_progress (status next) = true).
  { intros id w0. exists (Scripted.running id), w0. split; reflexivity. }
  split; [exact H1|]. split; [exact H2|].
  exact (execute_sql_never_gives_up Scripted.stuck cfg (InsertChecks cfg)
           [] tt H1 H2).
Defined.

(** One poll in progress, then FAILED with a message: two polls are
    needed, and the message is raised. *)
Lemma execute_sql_polls_until_settled_sample :
  execute_sql (Scripted.client (Scripted.running "7")) cfg 2
    (InsertChecks cfg) [] two_polls_then_failed
  = Some (Raised "table not found", [])
  /\ execute_sql (Scripted.client (Scripted.running "7")) cfg 1
       (InsertChecks cfg) [] two_polls_then_failed
     = None.
Proof.
  assert (H1 : in_progress (status (Scripted.running "7")) = true)
    by reflexivity.
  assert (H2 : Forall (fun r => in_progress (status r) = true)
                 [Scripted.running "7"])
    by (constructor; [reflexivity | constructor]).
  assert (H3 : in_progress (status failed_response) = false) by reflexivity.
  split.
  - exact (execute_sql_polls_until_settled cfg (InsertChecks cfg) []
             (Scripted.running "7") failed_response
             [Scripted.running "7"] [] 2 H1 H2 H3).
  - exact (execute_sql_polls_until_settled cfg (InsertChecks cfg) []
             (Scripted.running "7") failed_response
             [Scripted.running "7"] [] 1 H1 H2 H3).
Defined.

(** The calls of the page's query on the empty store: the statement, then
    chunk 0. *)
Lemma fetch_recent_calls_sample :
  exists r j' w',
    fetch_recent_submissions (spy Warehouse.client) cfg 3 20
      ([], empty_store) = Some (r, (j', w'))
    /\ exists polls chunks,
         j' = ([] ++ CallExecute (request_of cfg (RecentQuery cfg 20) [])
                  :: polls ++ chunks)%list
         /\ Forall is_poll polls
         /\ (chunks = [] \/ exists id, chunks = [CallGetChunk id 0])
         /\ (r = Returned None -> chunks = []).
Proof.
  eexists. eexists. eexists.
  assert (H : fetch_recent_submissions (spy Warehouse.client) cfg 3 20
                ([], empty_store)
              = Some (Returned
                        (Some {| df_columns := Warehouse.projection;
                                 df_data := [] |}),
                      ([CallExecute (request_of cfg (RecentQuery cfg 20) []);
                        CallGetChunk "1000" 0],
                       after_query 20 empty_store)))
    by reflexivity.
  split; [exact H|].
  exact (fetch_recent_calls Warehouse.client cfg 3 20 [] _ empty_store _ _ H).
Defined.

(** [good_form] on the stopped store. *)
Lemma write_failure_is_reported_sample :
  errors (validate good_form) = []
  /\ Warehouse.outage stopped_store = Some "warehouse is stopped"
  /\ on_submit Warehouse.client cfg email 3 good_form stopped_store
     = Some ([st_error
                ("Unable to save inspection: " ++ "warehouse is stopped")],
             false, stopped_store).
Proof.
  assert (H1 : errors (validate good_form) = []) by reflexivity.
  assert (H2 : Warehouse.outage stopped_store = Some "warehouse is stopped")
    by reflexivity.
  split; [exact H1|]. split; [exact H2|].
  exact (write_failure_is_reported cfg email 3 good_form stopped_store
           "warehouse is stopped" H1 H2).
Defined.

(** The stopped store and the empty store show the same note. *)
Lemma outage_looks_like_empty_table_sample :
  (exists s',
     show_recent Warehouse.client cfg 3 false stopped_store
     = Some (Returned
               ([] ++ [st_info
                         "No equipment inspections have been recorded yet."])%list,
             s'))
  /\ (exists s',
        show_recent Warehouse.client cfg 3 false empty_store
        = Some (Returned
                  ([] ++ [st_info
                            "No equipment inspections have been recorded yet."])%list,
                s')).
Proof.
  split.
  - apply (outage_looks_like_empty_table cfg 3 false stopped_store).
    left. discriminate.
  - apply (outage_looks_like_empty_table cfg 3 false empty_store).
    right. split; reflexivity.
Defined.

(** [good_form] passes, so it meets every rule. *)
Lemma validation_passes_iff_sample :
  errors (validate good_form) = []
  /\ (~ PyStr.blank (facility_name good_form)
      /\ ~ PyStr.blank (nurse_name good_form)
      /\ ~ PyStr.blank (machine_id good_form)
      /\ ~ PyStr.blank (room_location good_form))
  /\ (PyStr.blank (calibration_due_raw good_form)
      \/ exists d,
           PyDate.fromisoformat (PyStr.strip (calibration_due_raw good_form))
           = Some d)
  /\ (PyStr.blank (temperature_raw good_form)
      \/ exists x,
           float_of_str (PyStr.strip (temperature_raw good_form)) = Some x)
  /\ (PyStr.blank (pressure_raw good_form)
      \/ exists x,
           float_of_str (PyStr.strip (pressure_raw good_form)) = Some x)
  /\ (follow_up_required good_form = true ->
      ~ PyStr.blank (follow_up_actions good_form)).
Proof.
  assert (H : errors (validate good_form) = []) by reflexivity.
  split; [exact H|].
  exact (proj1 (validation_passes_iff good_form) H).
Defined.

(** The date and the selections of [good_form] in the row it writes. *)
Lemma stored_as_entered_sample :
  PyDate.valid (inspection_date good_form) = true
  /\ exists r,
       Warehouse.inserted_row
         (insert_params (payload good_form (validate good_form) None)) 1000
       = Some r
       /\ Table.inspection_date r = Some (inspection_date good_form)
       /\ Table.machine_type r = Some (machine_type good_form)
       /\ Table.power_status r = Some (power_status good_form)
       /\ Table.cleaning_status r = Some (cleaning_status good_form)
       /\ Table.user_email r = Some EmptyString
       /\ Table.submitted_at r = 1000%Z.
Proof.
  assert (H : PyDate.valid (inspection_date good_form) = true)
    by reflexivity.
  split; [exact H|].
  exact (stored_as_entered good_form (validate good_form) None 1000 H).
Defined.

(** The default names hold no backtick. *)
Lemma setup_names_the_table_of_the_page_sample :
  Setup.no_backtick (CATALOG_NAME cfg) = true
  /\ Setup.no_backtick (SCHEMA_NAME cfg) = true
  /\ Setup.no_backtick (TABLE_NAME cfg) = true
  /\ Setup.unquote (Setup.table_identifier cfg) = table_path cfg.
Proof.
  assert (H1 : Setup.no_backtick (CATALOG_NAME cfg) = true) by reflexivity.
  assert (H2 : Setup.no_backtick (SCHEMA_NAME cfg) = true) by reflexivity.
  assert (H3 : Setup.no_backtick (TABLE_NAME cfg) = true) by reflexivity.
  repeat (split; [assumption|]).
  exact (SetupFacts.setup_names_the_table_of_the_page cfg H1 H2 H3).
Defined.

(** [good_form] on the empty store, through the engine: the new row heads
    the list. *)
Lemma submission_heads_the_recent_list_sample :
  Engine.plain_names cfg
  /\ errors (validate good_form) = []
  /\ Warehouse.outage empty_store = None
  /\ Warehouse.chunk_outage empty_store = None
  /\ stamped_before empty_store
  /\ exists r df s',
       script (Engine.client (Engine.table_of cfg)) cfg email 3
         (Some good_form) empty_store
       = Some (Returned
                 (page_header email
                  ++ [ shown
                         (st_success "Inspection submitted successfully.");
                       st_divider;
                       shown (st_toast
                                "Latest inspection saved to the warehouse.");
                       shown (st_subheader "Recent submissions");
                       shown (st_dataframe df) ])%list, s')
       /\ Warehouse.inserted_row
            (insert_params (payload good_form (validate good_form) email))
            (Warehouse.now empty_store) = Some r
       /\ hd_error (df_data df) = Some (Warehouse.project r)
       /\ Warehouse.rows s' = (Warehouse.rows empty_store ++ [r])%list
       /\ stamped_before s'.
Proof.
  assert (H0 : Engine.plain_names cfg) by (repeat split; reflexivity).
  assert (H1 : errors (validate good_form) = []) by reflexivity.
  assert (H2 : Warehouse.outage empty_store = None) by reflexivity.
  assert (H3 : Warehouse.chunk_outage empty_store = None) by reflexivity.
  assert (H4 : stamped_before empty_store) by constructor.
  repeat (split; [assumption|]).
  exact (submission_heads_the_recent_list cfg email 3 good_form empty_store
           H0 H1 H2 H3 H4).
Defined.

End MoreSampleRuns.
